(** * Banco de Chile statement extractor (beancount_chile/extractors/banco_chile_xls.py)

    A shallow embedding of [BancoChileXLSExtractor] and the properties of its
    statement-extraction engine, followed by the helpers
    (beancount_chile/helpers.py) and the importer
    (beancount_chile/banco_chile.py) that books what the extractor returns.

    Conventions of the embedding
    - A Python [str] is a Rocq [string] whose characters are code points
      0..255 (Latin-1).  On that range [\d] is exactly [0-9] and
      [str.isspace] is the set listed in [isspace].
    - Exceptions are values of [exn]; a Python function that can raise
      returns a [result].  The message of a [ValueError] that a library
      raises ([strptime]) is abbreviated.
    - A pandas [DataFrame] read with [header=None] is a rectangular grid
      with positional row and column labels [0..n-1].
    - [datetime.now()] is an explicit argument [now]. *)

From Stdlib Require Import ZArith NArith Ascii String DecimalString DecimalZ DecimalN Lia.
From stdpp Require Import base option list strings gmap sorting.

Local Open Scope Z_scope.

(** ** Exceptions *)

Inductive exn : Type :=
  | ValueError (msg : string)
  | KeyError (key : string)
  | IndexError
  | InvalidOperation
  | OSError.

Inductive result (A : Type) : Type :=
  | Ok (a : A)
  | Raise (e : exn).
Arguments Ok {A} a.
Arguments Raise {A} e.

#[global] Instance result_ret : MRet result := fun A a => Ok a.
#[global] Instance result_bind : MBind result := fun A B f m =>
  match m with
  | Ok a => f a
  | Raise e => Raise e
  end.

#[global] Instance result_fmap : FMap result := fun A B f m =>
  match m with
  | Ok a => Ok (f a)
  | Raise e => Raise e
  end.

(** ** Python strings *)

Module Str.

(** [str.isspace] on code points below 256. *)
Definition isspace (c : ascii) : bool :=
  let n := nat_of_ascii c in
  ((9 <=? n) && (n <=? 13) || (28 <=? n) && (n <=? 32)
   || (n =? 133) || (n =? 160))%nat.

Definition isdigit (c : ascii) : bool :=
  let n := nat_of_ascii c in ((48 <=? n) && (n <=? 57))%nat.

Fixpoint lstrip (s : string) : string :=
  match s with
  | String c r => if isspace c then lstrip r else s
  | EmptyString => EmptyString
  end.

(** [rstrip] drops a character when it is a space and everything after
    it has been dropped. *)
Fixpoint rstrip (s : string) : string :=
  match s with
  | String c r =>
      match rstrip r with
      | EmptyString => if isspace c then EmptyString else String c EmptyString
      | r' => String c r'
      end
  | EmptyString => EmptyString
  end.

Definition strip (s : string) : string := rstrip (lstrip s).

(** [s.startswith(p)] *)
Definition startswith (p s : string) : bool := String.prefix p s.

(** [s.replace(c, "")] for a one-character [c]. *)
Fixpoint remove (c : ascii) (s : string) : string :=
  match s with
  | String d r => if Ascii.eqb c d then remove c r else String d (remove c r)
  | EmptyString => EmptyString
  end.

(** [s.lower()] on ASCII letters. *)
Definition lower_char (c : ascii) : ascii :=
  let n := nat_of_ascii c in
  if ((65 <=? n) && (n <=? 90))%nat then ascii_of_nat (n + 32) else c.

Fixpoint lower (s : string) : string :=
  match s with
  | String c r => String (lower_char c) (lower r)
  | EmptyString => EmptyString
  end.

(** The longest run of decimal digits at the start of [s], and the rest. *)
Fixpoint span_digits (s : string) : string * string :=
  match s with
  | String c r =>
      if isdigit c then let '(d, t) := span_digits r in (String c d, t)
      else (EmptyString, s)
  | EmptyString => (EmptyString, EmptyString)
  end.

Fixpoint all_digits (s : string) : bool :=
  match s with
  | String c r => isdigit c && all_digits r
  | EmptyString => true
  end.

(** [int(s)] for a string of decimal digits, most significant first. *)
Fixpoint int_acc (acc : N) (s : string) : N :=
  match s with
  | String c r => int_acc (10 * acc + (N_of_ascii c - 48))%N r
  | EmptyString => acc
  end.

Definition int (s : string) : N := int_acc 0 s.

Fixpoint zeros (n : nat) : string :=
  match n with
  | O => EmptyString
  | S k => String "0" (zeros k)
  end.

End Str.

(** ** The [decimal] module: [Decimal] values and [Decimal(str)] *)

Module decimal.

(** A [Decimal] is a sign, an unbounded coefficient and an exponent, or one
    of the special values.  Coefficient and exponent are unbounded, as in
    the constructor, which does not round. *)
Inductive Decimal : Type :=
  | Finite (neg : bool) (coeff : N) (exp : Z)
  | Infinity (neg : bool)
  | NaN (neg : bool) (signaling : bool) (payload : N).

(** [Decimal("0")] *)
Definition zero : Decimal := Finite false 0 0.

Definition of_Z (z : Z) : Decimal := Finite (z <? 0) (Z.to_N (Z.abs z)) 0.

Definition signed (neg : bool) (coeff : N) : Z :=
  if neg then - Z.of_N coeff else Z.of_N coeff.

(** Numeric comparison [a == b]: exponents are aligned before the
    coefficients are compared, so [Decimal("1500.0") == Decimal("1500")]. *)
Definition eqb (a b : Decimal) : bool :=
  match a, b with
  | Finite n1 c1 e1, Finite n2 c2 e2 =>
      let e := Z.min e1 e2 in
      signed n1 c1 * 10 ^ (e1 - e) =? signed n2 c2 * 10 ^ (e2 - e)
  | Infinity n1, Infinity n2 => Bool.eqb n1 n2
  | _, _ => false
  end.

(** [d > 0] for a finite or infinite [d]. *)
Definition positive (d : Decimal) : bool :=
  match d with
  | Finite n c _ => negb n && (0 <? c)%N
  | Infinity n => negb n
  | NaN _ _ _ => false
  end.

Definition parse_sign (s : string) : bool * string :=
  match s with
  | String "-" r => (true, r)
  | String "+" r => (false, r)
  | _ => (false, s)
  end.

(** The optional exponent ([E], an optional sign, one or more digits)
    followed by the end of the string. *)
Definition parse_exponent (s : string) : option Z :=
  match s with
  | EmptyString => Some 0
  | String c r =>
      if Ascii.eqb (Str.lower_char c) "e" then
        let '(neg, ds) := parse_sign r in
        match ds with
        | EmptyString => None
        | _ => if Str.all_digits ds then Some (signed neg (Str.int ds)) else None
        end
      else None
  end.

(** The numeric alternative of the grammar: digits with an optional
    point (at least one digit before or after it), an optional exponent,
    and the end of the string. *)
Definition parse_number (s : string) : option (N * Z) :=
  let '(ip, r) := Str.span_digits s in
  let '(fp, r') :=
    match r with
    | String "." t => Str.span_digits t
    | _ => (EmptyString, r)
    end in
  match ip, fp with
  | EmptyString, EmptyString => None
  | _, _ =>
      match parse_exponent r' with
      | Some e => Some (Str.int (ip +:+ fp), e - Z.of_nat (String.length fp))
      | None => None
      end
  end.

(** The special alternatives: [Inf], [Infinity], and [NaN] or [sNaN]
    followed by diagnostic digits, matched without regard to case. *)
Definition parse_special (neg : bool) (s : string) : option Decimal :=
  let l := Str.lower s in
  if String.eqb l "inf" || String.eqb l "infinity" then Some (Infinity neg)
  else
    let '(sig, r) :=
      match l with
      | String "s" t => (true, t)
      | _ => (false, l)
      end in
    if Str.startswith "nan" r then
      let diag := String.substring 3 (String.length r - 3) r in
      if Str.all_digits diag then Some (NaN neg sig (Str.int diag)) else None
    else None.

(** [Decimal(s)]: [None] stands for [InvalidOperation].  Surrounding
    whitespace is stripped and underscores are removed before the text is
    matched. *)
Definition of_str (s : string) : option Decimal :=
  let s := Str.remove "_" (Str.strip s) in
  let '(neg, r) := parse_sign s in
  match parse_number r with
  | Some (c, e) => Some (Finite neg c e)
  | None => parse_special neg r
  end.

End decimal.

Export decimal (Decimal).

(** ** [int] and [float] values and their [str] *)

(** A finite [float], given by its shortest round-trip decimal: the value
    is [0.d1...dn * 10^decpt] where [d1...dn] are the digits of
    [f_digits].  [0.0] is digits [0] with [decpt = 1]. *)
Record float : Type := { f_neg : bool; f_digits : N; f_decpt : Z }.

Definition str_int (z : Z) : string := NilZero.string_of_int (Z.to_int z).

Definition str_nat (n : N) : string := NilEmpty.string_of_uint (N.to_uint n).

(** The exponent of a [float] in scientific notation: a sign and at least
    two digits. *)
Definition str_exponent (e : Z) : string :=
  (if e <? 0 then "-" else "+")
  +:+ (if Z.abs e <? 10 then "0" else "") +:+ str_nat (Z.to_N (Z.abs e)).

(** [repr(x)] for a [float]: scientific notation when the decimal point
    lies more than 16 places right or 4 or more places left of the first
    digit, positional notation with at least one fractional digit
    otherwise. *)
Definition str_float (x : float) : string :=
  let ds := str_nat (f_digits x) in
  let n := Z.of_nat (String.length ds) in
  let decpt := f_decpt x in
  let body :=
    if (decpt <=? -4) || (16 <? decpt) then
      match ds with
      | String d EmptyString => String d EmptyString
      | String d rest => String d ("." +:+ rest)
      | EmptyString => EmptyString
      end +:+ "e" +:+ str_exponent (decpt - 1)
    else if decpt <=? 0 then "0." +:+ Str.zeros (Z.to_nat (- decpt)) +:+ ds
    else if decpt <? n then
      String.substring 0 (Z.to_nat decpt) ds +:+ "."
      +:+ String.substring (Z.to_nat decpt) (Z.to_nat (n - decpt)) ds
    else ds +:+ Str.zeros (Z.to_nat (decpt - n)) +:+ ".0" in
  (if f_neg x then "-" else "") +:+ body.

(** ** The [re] patterns of the extractor *)

Module re.

(** [re.match(r"\d{2}/\d{2}/\d{4}", s)] as a truth value. *)
Definition match_date (s : string) : bool :=
  match s with
  | String d1 (String d2 (String "/" (String m1 (String m2 (String "/"
      (String y1 (String y2 (String y3 (String y4 _))))))))) =>
      forallb Str.isdigit [d1; d2; m1; m2; y1; y2; y3; y4]
  | _ => false
  end.

(** [re.search(r"(\d{2}/\d{2}/\d{4})", s)]: group 1 of the leftmost
    match, [None] when there is none. *)
Fixpoint search_date (s : string) : option string :=
  match s with
  | EmptyString => None
  | String _ r =>
      if match_date s then Some (String.substring 0 10 s) else search_date r
  end.

End re.

(** ** [datetime] *)

Record datetime : Type := {
  year : N; month : N; day : N;
  hour : N; minute : N; second : N; microsecond : N
}.

Definition is_leap (y : N) : bool :=
  ((y mod 4 =? 0) && (negb (y mod 100 =? 0) || (y mod 400 =? 0)))%N.

Definition days_in_month (y m : N) : N :=
  (if m =? 2 then (if is_leap y then 29 else 28)
   else if (m =? 4) || (m =? 6) || (m =? 9) || (m =? 11) then 30
   else 31)%N.

(** The text before the first ["/"] and the text after it. *)
Fixpoint split_slash (s : string) : option (string * string) :=
  match s with
  | EmptyString => None
  | String "/" r => Some (EmptyString, r)
  | String c r =>
      match split_slash r with
      | Some (a, b) => Some (String c a, b)
      | None => None
      end
  end.

(** The directive [%d]: one of [3[0-1]], [[1-2]\d], [0[1-9]], [[1-9]] or a
    space and [[1-9]]. *)
Definition strptime_d (t : string) : option N :=
  match t with
  | String a EmptyString =>
      if Str.isdigit a && negb (Ascii.eqb a "0") then Some (Str.int t) else None
  | String a (String b EmptyString) =>
      if Ascii.eqb a "3" && (Ascii.eqb b "0" || Ascii.eqb b "1") then Some (Str.int t)
      else if (Ascii.eqb a "1" || Ascii.eqb a "2") && Str.isdigit b then Some (Str.int t)
      else if (Ascii.eqb a "0" || Ascii.eqb a " ")
              && Str.isdigit b && negb (Ascii.eqb b "0")
      then Some (Str.int (String b EmptyString))
      else None
  | _ => None
  end.

(** The directive [%m]: one of [1[0-2]], [0[1-9]] or [[1-9]]. *)
Definition strptime_m (t : string) : option N :=
  match t with
  | String a EmptyString =>
      if Str.isdigit a && negb (Ascii.eqb a "0") then Some (Str.int t) else None
  | String a (String b EmptyString) =>
      if Ascii.eqb a "1" && (Ascii.eqb b "0" || Ascii.eqb b "1" || Ascii.eqb b "2")
      then Some (Str.int t)
      else if Ascii.eqb a "0" && Str.isdigit b && negb (Ascii.eqb b "0")
      then Some (Str.int t)
      else None
  | _ => None
  end.

(** The directive [%Y]: exactly four digits. *)
Definition strptime_Y (t : string) : option N :=
  if (String.length t =? 4)%nat && Str.all_digits t then Some (Str.int t) else None.

(** [datetime.strptime(s, "%d/%m/%Y")]; [None] stands for [ValueError]
    (the text does not match the format, text remains after it, or the day
    does not exist in that month and year).  The three fields cannot contain
    ["/"], so they are the texts between the slashes. *)
Definition strptime (s : string) : option datetime :=
  '(dt, r) ← split_slash s;
  '(mt, yt) ← split_slash r;
  d ← strptime_d dt;
  m ← strptime_m mt;
  y ← strptime_Y yt;
  if ((1 <=? y) && (d <=? days_in_month y m))%N
  then Some {| year := y; month := m; day := d;
               hour := 0; minute := 0; second := 0; microsecond := 0 |}
  else None.

(** ** pandas: cells and the [DataFrame] *)

(** A cell as [read_excel] yields it in a column of mixed content: the
    missing value ([float] NaN), a [str], an [int], a finite [float] or a
    [bool].  A date or a time cell reaches the extractor through [str],
    [pd.isna] and [isinstance(value, (int, float))] only, where it behaves
    as the [str] of its text; it is the [Text] of that text.  So is a
    [numpy] integer or boolean, which is no instance of [int]; a
    [numpy.float64] is a [float]. *)
Inductive cell : Type :=
  | Blank
  | Text (s : string)
  | Int (z : Z)
  | Float (x : float)
  | Bool (b : bool).

Module pd.

Definition isna (c : cell) : bool :=
  match c with
  | Blank => true
  | _ => false
  end.

(** A frame read with [header=None]: [ncols] is [df.shape[1]]; a stored
    row shorter than [ncols] is missing on its right. *)
Record DataFrame : Type := { ncols : nat; rows : list (list cell) }.

(** [len(df)] *)
Definition len (df : DataFrame) : nat := length (rows df).

(** [row[col]] for a row of the frame: a lookup by column label. *)
Definition getitem (df : DataFrame) (row : list cell) (col : nat) : result cell :=
  if (col <? ncols df)%nat then Ok (nth col row Blank)
  else Raise (KeyError (str_nat (N.of_nat col))).

(** [df.iloc[r]] *)
Definition iloc_row (df : DataFrame) (r : nat) : result (list cell) :=
  match rows df !! r with
  | Some row => Ok row
  | None => Raise IndexError
  end.

(** [df.iloc[r, c]] *)
Definition iloc (df : DataFrame) (r c : nat) : result cell :=
  match rows df !! r with
  | Some row => if (c <? ncols df)%nat then Ok (nth c row Blank) else Raise IndexError
  | None => Raise IndexError
  end.

(** [df[col]]: the column as a list, top to bottom. *)
Definition column (df : DataFrame) (col : nat) : result (list cell) :=
  if (col <? ncols df)%nat then Ok (map (fun row => nth col row Blank) (rows df))
  else Raise (KeyError (str_nat (N.of_nat col))).

End pd.

Export pd (DataFrame).

(** [str(value)] for a cell. *)
Definition str (c : cell) : string :=
  match c with
  | Blank => "nan"
  | Text s => s
  | Int z => str_int z
  | Float x => str_float x
  | Bool b => if b then "True" else "False"
  end.

(** The positions, counted from [i], of the elements that satisfy [p]. *)
Fixpoint index_where {A} (p : A → bool) (i : nat) (l : list A) : list nat :=
  match l with
  | [] => []
  | x :: r => if p x then i :: index_where p (S i) r else index_where p (S i) r
  end.

(** [df[df[1].astype(str).str.strip().str.startswith(label)].index]: the
    rows whose column 1, as text and stripped, starts with [label]. *)
Definition label_rows (df : DataFrame) (label : string) : result (list nat) :=
  col ← pd.column df 1;
  Ok (index_where (fun c => Str.startswith label (Str.strip (str c))) 0 col).

(** ** The extractor *)

Record BancoChileMetadata : Type := {
  account_holder : string;
  rut : string;
  account_number : string;
  currency : string;
  available_balance : Decimal;
  accounting_balance : Decimal;
  total_debits : Decimal;
  total_credits : Decimal;
  statement_date : datetime
}.

Record BancoChileTransaction : Type := {
  date : datetime;
  description : string;
  channel : string;
  debit : option Decimal;
  credit : option Decimal;
  balance : Decimal
}.

Inductive engine : Type := openpyxl | xlrd.

(** ["Descripción"], with the accented letter as code point 243. *)
Definition Descripcion : string := "Descripci" +:+ String "243" "n".

(** [_parse_amount(value)].  A [bool] is an instance of [int]. *)
Definition _parse_amount (value : cell) : result Decimal :=
  if pd.isna value then Ok decimal.zero
  else
    match value with
    | Int _ | Float _ | Bool _ =>
        match decimal.of_str (str value) with
        | Some d => Ok d
        | None => Raise InvalidOperation
        end
    | _ =>
        let value_str := Str.strip (Str.remove "." (Str.remove "," (str value))) in
        match value_str with
        | EmptyString => Ok decimal.zero
        | _ =>
            match decimal.of_str value_str with
            | Some d => Ok d
            | None => Ok decimal.zero
            end
        end
    end.

(** [_find_value_column(df, row_idx, label_col)]; [cols] is the remaining
    range of the loop. *)
Fixpoint find_value_loop (df : DataFrame) (row_idx : nat) (cols : list nat)
    : result (option nat) :=
  match cols with
  | [] => Ok None
  | col :: rest =>
      c ← pd.iloc df row_idx col;
      if negb (pd.isna c) then Ok (Some col) else find_value_loop df row_idx rest
  end.

Definition _find_value_column (df : DataFrame) (row_idx label_col : nat) : result nat :=
  found ← find_value_loop df row_idx
             (seq (label_col + 1) (pd.ncols df - (label_col + 1)));
  match found with
  | Some col => Ok col
  | None => Ok (label_col + 1)%nat
  end.

(** [_find_header_column(df, row_idx, header)]; [None] is the source's [-1]. *)
Fixpoint find_header_loop (df : DataFrame) (row_idx : nat) (header : string)
    (cols : list nat) : result (option nat) :=
  match cols with
  | [] => Ok None
  | col :: rest =>
      val ← pd.iloc df row_idx col;
      if negb (pd.isna val) && Str.startswith header (Str.strip (str val))
      then Ok (Some col)
      else find_header_loop df row_idx header rest
  end.

Definition _find_header_column (df : DataFrame) (row_idx : nat) (header : string)
    : result (option nat) :=
  find_header_loop df row_idx header (seq 0 (pd.ncols df)).

(** The loop of [_extract_metadata] that scans the "Movimientos" row for a
    date. *)
Fixpoint statement_date_loop (df : DataFrame) (movements_idx : nat) (cols : list nat)
    : result (option datetime) :=
  match cols with
  | [] => Ok None
  | col :: rest =>
      cell_val ← pd.iloc df movements_idx col;
      if pd.isna cell_val then statement_date_loop df movements_idx rest
      else
        match re.search_date (str cell_val) with
        | Some g =>
            match strptime g with
            | Some d => Ok (Some d)
            | None => Raise (ValueError "time data does not match format")
            end
        | None => statement_date_loop df movements_idx rest
        end
  end.

(** [x.index[0]] of a filtered frame, after [if x.empty: raise ValueError]. *)
Definition first_row (found : list nat) (msg : string) : result nat :=
  match found with
  | [] => Raise (ValueError msg)
  | idx :: _ => Ok idx
  end.

(** [_extract_metadata(df)] *)
Definition _extract_metadata (now : datetime) (df : DataFrame) : result BancoChileMetadata :=
  holder_row ← label_rows df "Sr(a)";
  holder_idx ← first_row holder_row "Could not find account holder information";
  value_col ← _find_value_column df holder_idx 1;
  holder ← pd.iloc df holder_idx value_col;
  let account_holder := str holder in

  rut_row ← label_rows df "Rut:";
  rut_idx ← first_row rut_row "Could not find RUT information";
  value_col ← _find_value_column df rut_idx 1;
  rut_cell ← pd.iloc df rut_idx value_col;
  let rut := str rut_cell in

  account_row ← label_rows df "Cuenta";
  account_idx ← first_row account_row "Could not find account information";
  value_col ← _find_value_column df account_idx 1;
  account_cell ← pd.iloc df account_idx value_col;
  let account_number := str account_cell in

  currency_row ← label_rows df "Moneda:";
  _ ← first_row currency_row "Could not find currency information";
  let currency := "CLP" in

  balance_header_row ← label_rows df "Saldo Disponible";
  balance_header_idx ← first_row balance_header_row "Could not find balance information";
  let balance_row_idx := (balance_header_idx + 1)%nat in
  c ← pd.iloc df balance_row_idx 1;
  available_balance ← _parse_amount c;
  contable_col ← _find_header_column df balance_header_idx "Saldo Contable";
  let contable_col := match contable_col with Some col => col | None => 2%nat end in
  c ← pd.iloc df balance_row_idx contable_col;
  accounting_balance ← _parse_amount c;

  totals_header_row ← label_rows df "Total Cargos";
  totals_header_idx ← first_row totals_header_row "Could not find totals information";
  let totals_row_idx := (totals_header_idx + 1)%nat in
  c ← pd.iloc df totals_row_idx 1;
  total_debits ← _parse_amount c;
  abonos_col ← _find_header_column df totals_header_idx "Total Abonos";
  let abonos_col := match abonos_col with Some col => col | None => 2%nat end in
  c ← pd.iloc df totals_row_idx abonos_col;
  total_credits ← _parse_amount c;

  movements_row ← label_rows df "Movimientos";
  movements_idx ← first_row movements_row "Could not find statement date";
  statement_date ← statement_date_loop df movements_idx (seq 0 (pd.ncols df));
  let statement_date := match statement_date with Some d => d | None => now end in

  Ok {| account_holder := account_holder;
        rut := rut;
        account_number := account_number;
        currency := currency;
        available_balance := available_balance;
        accounting_balance := accounting_balance;
        total_debits := total_debits;
        total_credits := total_credits;
        statement_date := statement_date |}.

(** [col_map.setdefault(key, col)] *)
Definition setdefault (key : string) (col : nat) (col_map : gmap string nat)
    : gmap string nat :=
  match col_map !! key with
  | Some _ => col_map
  | None => <[key := col]> col_map
  end.

(** [cols[key]] *)
Definition dict_get (cols : gmap string nat) (key : string) : result nat :=
  match cols !! key with
  | Some col => Ok col
  | None => Raise (KeyError key)
  end.

(** One turn of the loop of [_detect_transaction_columns]. *)
Definition detect_step (header_row : list cell) (col_map : gmap string nat) (col : nat)
    : gmap string nat :=
  let val := nth col header_row Blank in
  if pd.isna val then col_map
  else
    let val_str := Str.strip (str val) in
    if String.eqb val_str "Fecha" then <["date" := col]> col_map
    else if String.eqb val_str Descripcion then <["description" := col]> col_map
    else if Str.startswith "Canal" val_str then <["channel" := col]> col_map
    else if Str.startswith "Cargos" val_str then <["debit" := col]> col_map
    else if Str.startswith "Abonos" val_str then <["credit" := col]> col_map
    else if Str.startswith "Saldo" val_str then <["balance" := col]> col_map
    else col_map.

(** [_detect_transaction_columns(df, header_idx)] *)
Definition _detect_transaction_columns (df : DataFrame) (header_idx : nat)
    : result (gmap string nat) :=
  header_row ← pd.iloc_row df header_idx;
  let col_map := foldl (detect_step header_row) ∅ (seq 0 (pd.ncols df)) in
  let col_map := setdefault "date" 1 col_map in
  let col_map := setdefault "description" 2 col_map in
  let col_map := setdefault "channel" 3 col_map in
  let col_map := setdefault "debit" 4 col_map in
  let col_map := setdefault "credit" 5 col_map in
  let col_map := setdefault "balance" 6 col_map in
  Ok col_map.

(** The columns of the transaction table, as the loop of
    [_extract_transactions] holds them in local variables. *)
Record columns : Type := {
  date_col : nat; desc_col : nat; chan_col : nat;
  debit_col : nat; credit_col : nat; balance_col : nat
}.

(** What the body of the [try] does with one row: [Ok None] is the [break]
    on a text that does not start with a date, [Ok (Some t)] the transaction
    that is appended. *)
Definition try_row (df : DataFrame) (cols : columns) (row : list cell)
    : result (option BancoChileTransaction) :=
  d ← pd.getitem df row (date_col cols);
  let date_str := str d in
  if negb (re.match_date date_str) then Ok None
  else
    match strptime date_str with
    | None => Raise (ValueError "time data does not match format")
    | Some date =>
        c ← pd.getitem df row (desc_col cols);
        let description := if negb (pd.isna c) then str c else "" in
        c ← pd.getitem df row (chan_col cols);
        let channel := if negb (pd.isna c) then str c else "" in
        c ← pd.getitem df row (debit_col cols);
        debit ← (if negb (pd.isna c) then Some <$> _parse_amount c else Ok None);
        c ← pd.getitem df row (credit_col cols);
        credit ← (if negb (pd.isna c) then Some <$> _parse_amount c else Ok None);
        c ← pd.getitem df row (balance_col cols);
        balance ← _parse_amount c;
        Ok (Some {| date := date;
                    description := description;
                    channel := channel;
                    debit := debit;
                    credit := credit;
                    balance := balance |})
    end.

(** The [for] loop of [_extract_transactions] over the rows below the
    header.  [ValueError] (and [AttributeError], which nothing here raises)
    ends the loop; any other exception leaves the function. *)
Fixpoint transactions_loop (df : DataFrame) (cols : columns) (rows : list (list cell))
    : result (list BancoChileTransaction) :=
  match rows with
  | [] => Ok []
  | row :: rest =>
      d ← pd.getitem df row (date_col cols);
      if pd.isna d then transactions_loop df cols rest
      else
        match try_row df cols row with
        | Ok (Some transaction) =>
            transactions ← transactions_loop df cols rest;
            Ok (transaction :: transactions)
        | Ok None => Ok []
        | Raise (ValueError _) => Ok []
        | Raise e => Raise e
        end
  end.

(** [_extract_transactions(df)] *)
Definition _extract_transactions (df : DataFrame) : result (list BancoChileTransaction) :=
  header_row ← label_rows df "Fecha";
  header_idx ← first_row header_row "Could not find transaction header";
  cols ← _detect_transaction_columns df header_idx;
  date_col ← dict_get cols "date";
  desc_col ← dict_get cols "description";
  chan_col ← dict_get cols "channel";
  debit_col ← dict_get cols "debit";
  credit_col ← dict_get cols "credit";
  balance_col ← dict_get cols "balance";
  transactions_loop df
    {| date_col := date_col; desc_col := desc_col; chan_col := chan_col;
       debit_col := debit_col; credit_col := credit_col; balance_col := balance_col |}
    (drop (header_idx + 1) (pd.rows df)).

(** ** Files and [extract] *)

Section Extract.

(** The file system: the bytes stored under a path, if any. *)
Variable fs : string → option (list Byte.byte).

(** [pd.read_excel(filepath, header=None, engine=engine)], as a function
    of the bytes of the file and of the engine. *)
Variable read_excel : list Byte.byte → engine → result DataFrame.

(** [open(filepath, "rb")] and [f.read()] *)
Definition read_bytes (filepath : string) : result (list Byte.byte) :=
  match fs filepath with
  | Some content => Ok content
  | None => Raise OSError
  end.

(** [_detect_excel_engine(filepath)] *)
Definition _detect_excel_engine (filepath : string) : result engine :=
  content ← read_bytes filepath;
  let signature := take 4 content in
  match take 2 signature with
  | [Byte.x50; Byte.x4b] => Ok openpyxl
  | _ => Ok xlrd
  end.

(** [extract(filepath)] *)
Definition extract (now : datetime) (filepath : string)
    : result (BancoChileMetadata * list BancoChileTransaction) :=
  engine ← _detect_excel_engine filepath;
  content ← read_bytes filepath;
  df ← read_excel content engine;
  metadata ← _extract_metadata now df;
  transactions ← _extract_transactions df;
  Ok (metadata, transactions).

End Extract.

(** * Properties *)

(** ** Characters and strings *)

Section Strings.

Implicit Types (c : ascii) (s t : string).

(** A character that is neither white space nor an underscore. *)
Definition plain_char c : bool := negb (Str.isspace c) && negb (Ascii.eqb "_" c).

Fixpoint plain s : bool :=
  match s with
  | String c r => plain_char c && plain r
  | EmptyString => true
  end.

Lemma isdigit_plain c : Str.isdigit c = true → plain_char c = true.
Proof. by destruct c as [[] [] [] [] [] [] [] []]. Qed.

Lemma isdigit_not_space c : Str.isdigit c = true → Str.isspace c = false.
Proof. by destruct c as [[] [] [] [] [] [] [] []]. Qed.

Lemma isdigit_value c :
  Str.isdigit c = true → (N_of_ascii c - 48 < 10)%N.
Proof. by destruct c as [[] [] [] [] [] [] [] []]. Qed.

Lemma sapp_cons c s t : String c s +:+ t = String c (s +:+ t).
Proof. reflexivity. Qed.

Lemma sapp_nil_l s : "" +:+ s = s.
Proof. reflexivity. Qed.

Lemma sapp_nil_r s : s +:+ "" = s.
Proof. induction s as [|c s IH]; [done|]. by rewrite sapp_cons, IH. Qed.

Lemma sapp_assoc s t u : (s +:+ t) +:+ u = s +:+ t +:+ u.
Proof. induction s as [|c s IH]; [done|]. by rewrite !sapp_cons, IH. Qed.

Lemma slength_app s t :
  String.length (s +:+ t) = (String.length s + String.length t)%nat.
Proof. induction s as [|c s IH]; [done|]. rewrite sapp_cons. simpl. by rewrite IH. Qed.

Lemma plain_app s t : plain (s +:+ t) = plain s && plain t.
Proof.
  induction s as [|c s IH]; [done|]. rewrite sapp_cons. simpl.
  by rewrite IH, andb_assoc.
Qed.

Lemma all_digits_app s t :
  Str.all_digits (s +:+ t) = Str.all_digits s && Str.all_digits t.
Proof.
  induction s as [|c s IH]; [done|]. rewrite sapp_cons. simpl.
  by rewrite IH, andb_assoc.
Qed.

Lemma all_digits_plain s : Str.all_digits s = true → plain s = true.
Proof.
  induction s as [|c s IH]; simpl; [done|].
  intros [Hc Hs]%andb_true_iff. by rewrite isdigit_plain, IH.
Qed.

Lemma all_digits_zeros n : Str.all_digits (Str.zeros n) = true.
Proof. induction n; simpl; done. Qed.

Lemma length_zeros n : String.length (Str.zeros n) = n.
Proof. induction n; simpl; by rewrite ?IHn. Qed.

Lemma lstrip_plain s : plain s = true → Str.lstrip s = s.
Proof.
  destruct s as [|c s]; simpl; [done|].
  unfold plain_char. by destruct (Str.isspace c).
Qed.

Lemma rstrip_plain s : plain s = true → Str.rstrip s = s.
Proof.
  induction s as [|c s IH]; simpl; [done|].
  intros [Hc Hs]%andb_true_iff. rewrite (IH Hs).
  destruct s; [|done].
  unfold plain_char in Hc. by destruct (Str.isspace c).
Qed.

Lemma strip_plain s : plain s = true → Str.strip s = s.
Proof. intros H. unfold Str.strip. by rewrite lstrip_plain, rstrip_plain. Qed.

Lemma remove_plain s : plain s = true → Str.remove "_" s = s.
Proof.
  induction s as [|c s IH]; cbn [Str.remove plain]; [done|].
  intros [Hc Hs]%andb_true_iff. rewrite (IH Hs).
  unfold plain_char in Hc. by destruct (Ascii.eqb "_" c), (Str.isspace c).
Qed.

Lemma int_acc_app acc s t :
  Str.int_acc acc (s +:+ t) = Str.int_acc (Str.int_acc acc s) t.
Proof.
  revert acc. induction s as [|c s IH]; intros acc; [done|].
  rewrite sapp_cons. simpl. apply IH.
Qed.

Lemma int_acc_zeros acc n :
  Str.int_acc acc (Str.zeros n) = (acc * 10 ^ N.of_nat n)%N.
Proof.
  revert acc. induction n as [|n IH]; intros acc.
  - simpl. lia.
  - cbn [Str.zeros Str.int_acc]. rewrite IH.
    change (N_of_ascii "0" - 48)%N with 0%N.
    rewrite Nat2N.inj_succ, N.pow_succ_r'. lia.
Qed.

(** A run of digits followed by nothing, or by a character that is not a
    digit, is what [span_digits] splits off. *)
Definition stops s : bool :=
  match s with
  | String c _ => negb (Str.isdigit c)
  | EmptyString => true
  end.

Lemma span_digits_app s t :
  Str.all_digits s = true → stops t = true → Str.span_digits (s +:+ t) = (s, t).
Proof.
  intros Hs Ht. induction s as [|c s IH].
  - rewrite sapp_nil_l. destruct t as [|c t]; simpl in *; [done|].
    by destruct (Str.isdigit c).
  - rewrite sapp_cons. simpl in *.
    apply andb_true_iff in Hs as [Hc Hs]. by rewrite Hc, (IH Hs).
Qed.

Lemma span_digits_all s :
  Str.all_digits s = true → Str.span_digits s = (s, "").
Proof.
  intros H. rewrite <- (sapp_nil_r s) at 1. by apply span_digits_app.
Qed.

End Strings.

(** ** Decimal text of numbers *)

Section Numerals.

Lemma all_digits_of_uint d : Str.all_digits (NilEmpty.string_of_uint d) = true.
Proof. induction d; simpl; done. Qed.

Lemma int_acc_of_uint_pos d p :
  Str.int_acc (Npos p) (NilEmpty.string_of_uint d) = Npos (Pos.of_uint_acc d p).
Proof.
  revert p. induction d; intros p; cbn [NilEmpty.string_of_uint Str.int_acc Pos.of_uint_acc];
    [done|..]; rewrite <- IHd; f_equal; cbn; lia.
Qed.

Lemma int_of_uint d : Str.int (NilEmpty.string_of_uint d) = N.of_uint d.
Proof.
  unfold Str.int, N.of_uint.
  induction d; cbn [NilEmpty.string_of_uint Str.int_acc Pos.of_uint]; [done|..];
    first [apply IHd | apply int_acc_of_uint_pos].
Qed.

Lemma int_str_nat n : Str.int (str_nat n) = n.
Proof. unfold str_nat. by rewrite int_of_uint, DecimalN.Unsigned.of_to. Qed.

Lemma all_digits_str_nat n : Str.all_digits (str_nat n) = true.
Proof. apply all_digits_of_uint. Qed.

Lemma str_nat_nonempty n : str_nat n ≠ "".
Proof.
  unfold str_nat. destruct n as [|p]; [done|].
  cbn. unfold Pos.to_uint.
  intros H. 
  assert (Hn : N.of_uint (Pos.to_uint p) = 0%N).
  { rewrite <- int_of_uint. unfold Pos.to_uint in *. by rewrite H. }
  rewrite DecimalPos.Unsigned.of_to in Hn. done.
Qed.

End Numerals.

(** ** [Decimal(str(x))] for numbers *)

Section DecimalOfNumbers.

Implicit Types (s t : string) (z : Z) (n : N).

Lemma parse_sign_digit c s :
  Str.isdigit c = true → decimal.parse_sign (String c s) = (false, String c s).
Proof. by destruct c as [[] [] [] [] [] [] [] []]. Qed.

Lemma stops_not_digit c s : Str.isdigit c = false → stops (String c s) = true.
Proof. simpl. by intros ->. Qed.

Lemma of_str_plain s :
  plain s = true →
  decimal.of_str s =
    let '(neg, r) := decimal.parse_sign s in
    match decimal.parse_number r with
    | Some (c, e) => Some (decimal.Finite neg c e)
    | None => decimal.parse_special neg r
    end.
Proof. intros H. unfold decimal.of_str. by rewrite strip_plain, remove_plain. Qed.

(** The exponent part written by [str_exponent] reads back as the
    exponent. *)
Lemma parse_exponent_str e :
  decimal.parse_exponent (String "e" (str_exponent e)) = Some e.
Proof.
  unfold str_exponent.
  set (ds := (if Z.abs e <? 10 then "0" else "") +:+ str_nat (Z.to_N (Z.abs e))).
  assert (Hd : Str.all_digits ds = true).
  { unfold ds. rewrite all_digits_app, all_digits_str_nat. by destruct (Z.abs e <? 10). }
  assert (Hi : Str.int ds = Z.to_N (Z.abs e)).
  { unfold ds. destruct (Z.abs e <? 10); [|apply int_str_nat].
    rewrite sapp_cons, sapp_nil_l. apply int_str_nat. }
  assert (Hn : ds ≠ "").
  { unfold ds. destruct (Z.abs e <? 10); [done|apply str_nat_nonempty]. }
  destruct ds as [|c ds]; [done|].
  cbn [decimal.parse_exponent].
  change (Ascii.eqb (Str.lower_char "e") "e") with true. cbv iota.
  destruct (Z.ltb_spec e 0); rewrite sapp_cons, sapp_nil_l; cbn [decimal.parse_sign];
    rewrite Hd, Hi; unfold decimal.signed; f_equal; lia.
Qed.

(** A number in positional notation: [ip], a point, [fp]. *)
Lemma parse_number_point ip fp :
  Str.all_digits ip = true → Str.all_digits fp = true → ip ≠ "" →
  decimal.parse_number (ip +:+ "." +:+ fp)
  = Some (Str.int (ip +:+ fp), - Z.of_nat (String.length fp)).
Proof.
  intros Hip Hfp Hne. unfold decimal.parse_number.
  rewrite span_digits_app by done.
  rewrite sapp_cons, sapp_nil_l, span_digits_all by done.
  destruct ip; [done|]. by destruct fp.
Qed.

(** A number in scientific notation: [ip], a point and [fp] unless [fp] is
    empty, and the exponent. *)
Lemma parse_number_exp ip fp e :
  Str.all_digits ip = true → Str.all_digits fp = true → ip ≠ "" →
  decimal.parse_number
    (ip +:+ (match fp with EmptyString => "" | _ => "." +:+ fp end)
        +:+ "e" +:+ str_exponent e)
  = Some (Str.int (ip +:+ fp), e - Z.of_nat (String.length fp)).
Proof.
  intros Hip Hfp Hne. unfold decimal.parse_number.
  destruct fp as [|c fp].
  - rewrite sapp_nil_l, span_digits_app by done.
    rewrite sapp_cons, sapp_nil_l.
    rewrite parse_exponent_str. by destruct ip.
  - rewrite sapp_assoc, span_digits_app by done.
    rewrite (sapp_cons "."), sapp_nil_l, (sapp_cons "e"), sapp_nil_l.
    rewrite span_digits_app by done.
    rewrite parse_exponent_str. by destruct ip.
Qed.

Lemma parse_number_digits ip :
  Str.all_digits ip = true → ip ≠ "" →
  decimal.parse_number ip = Some (Str.int ip, 0).
Proof.
  intros Hip Hne. unfold decimal.parse_number.
  rewrite span_digits_all by done. cbn [decimal.parse_exponent].
  rewrite sapp_nil_r. by destruct ip.
Qed.

Lemma str_int_sign z :
  str_int z = (if z <? 0 then "-" else "") +:+ str_nat (Z.to_N (Z.abs z)).
Proof.
  destruct z as [|p|p]; [done|..];
    pose proof (str_nat_nonempty (Npos p)) as Hne; unfold str_int, str_nat in *;
    change (N.to_uint (Z.to_N (Z.abs _))) with (Pos.to_uint p);
    change (N.to_uint (Npos p)) with (Pos.to_uint p) in Hne;
    cbn -[Pos.to_uint]; rewrite ?sapp_cons, sapp_nil_l;
    by destruct (Pos.to_uint p).
Qed.

Lemma head_digit s :
  Str.all_digits s = true → s ≠ "" → decimal.parse_sign s = (false, s).
Proof.
  destruct s as [|c s]; [done|]. simpl. intros [Hc _]%andb_true_iff _.
  by apply parse_sign_digit.
Qed.

(** [Decimal(str(z))] is the integer [z] with exponent zero. *)
Lemma of_str_int z : decimal.of_str (str_int z) = Some (decimal.of_Z z).
Proof.
  rewrite str_int_sign. set (ds := str_nat (Z.to_N (Z.abs z))).
  pose proof (all_digits_str_nat (Z.to_N (Z.abs z))) as Hd.
  pose proof (str_nat_nonempty (Z.to_N (Z.abs z))) as Hne.
  pose proof (int_str_nat (Z.to_N (Z.abs z))) as Hi. fold ds in Hd, Hne, Hi.
  rewrite of_str_plain.
  - unfold decimal.of_Z. destruct (z <? 0).
    + rewrite sapp_cons, sapp_nil_l. cbn [decimal.parse_sign].
      by rewrite parse_number_digits, Hi.
    + rewrite sapp_nil_l, head_digit by done.
      by rewrite parse_number_digits, Hi.
  - rewrite plain_app, (all_digits_plain ds) by done. by destruct (z <? 0).
Qed.

End DecimalOfNumbers.

(** ** [Decimal(repr(x))] for a [float] *)

Section DecimalOfFloat.

Implicit Types (s t : string) (x : float).

(** The value of a [float] as a [Decimal]: its digits, scaled so that the
    decimal point stands [f_decpt] places after the first digit. *)
Definition float_value x : Decimal :=
  decimal.Finite (f_neg x) (f_digits x)
    (f_decpt x - Z.of_nat (String.length (str_nat (f_digits x)))).

Definition head_is_digit s : bool :=
  match s with
  | String c _ => Str.isdigit c
  | EmptyString => false
  end.

Lemma parse_sign_head s :
  head_is_digit s = true → decimal.parse_sign s = (false, s).
Proof. destruct s as [|c s]; [done|]. apply parse_sign_digit. Qed.

Lemma head_is_digit_app s t :
  head_is_digit s = true → head_is_digit (s +:+ t) = true.
Proof. by destruct s. Qed.

Lemma head_is_digit_all s :
  Str.all_digits s = true → s ≠ "" → head_is_digit s = true.
Proof. destruct s; [done|]. simpl. by intros [? _]%andb_true_iff. Qed.

Lemma substring_all s : String.substring 0 (String.length s) s = s.
Proof. induction s as [|c s IH]; simpl; by rewrite ?IH. Qed.

Lemma substring_split k s :
  (k ≤ String.length s)%nat →
  String.substring 0 k s +:+ String.substring k (String.length s - k) s = s
  ∧ String.length (String.substring 0 k s) = k.
Proof.
  revert s. induction k as [|k IH]; intros s Hk.
  - rewrite Nat.sub_0_r, substring_all. by destruct s.
  - destruct s as [|c s]; simpl in Hk; [lia|].
    destruct (IH s) as [H1 H2]; [lia|].
    cbn [String.substring String.length Nat.sub]. rewrite sapp_cons.
    by rewrite H1, H2.
Qed.

Lemma eqb_finite_refl neg c e :
  decimal.eqb (decimal.Finite neg c e) (decimal.Finite neg c e) = true.
Proof. simpl. apply Z.eqb_refl. Qed.

(** The text that [repr] writes parses, and to the same value. *)
Lemma of_str_float x :
  ∃ d, decimal.of_str (str_float x) = Some d
       ∧ decimal.eqb d (float_value x) = true.
Proof.
  destruct x as [neg digits decpt]. unfold str_float, float_value.
  cbn [f_neg f_digits f_decpt].
  set (ds := str_nat digits).
  pose proof (all_digits_str_nat digits) as Hd.
  pose proof (str_nat_nonempty digits) as Hne.
  pose proof (int_str_nat digits) as Hi. fold ds in Hd, Hne, Hi.
  set (n := Z.of_nat (String.length ds)).
  match goal with |- context [(if neg then "-" else "") +:+ ?b] => set (body := b) end.
  (* the body is a plain text that starts with a digit and parses *)
  cut (∃ c e, plain body = true ∧ head_is_digit body = true
              ∧ decimal.parse_number body = Some (c, e)
              ∧ decimal.eqb (decimal.Finite neg c e)
                  (decimal.Finite neg digits (decpt - n)) = true).
  { intros (c & e & Hp & Hh & Hn & He). exists (decimal.Finite neg c e).
    split; [|done]. rewrite of_str_plain.
    - destruct neg.
      + rewrite sapp_cons, sapp_nil_l. cbn [decimal.parse_sign]. by rewrite Hn.
      + rewrite sapp_nil_l, parse_sign_head by done. by rewrite Hn.
    - rewrite plain_app, Hp. by destruct neg. }
  unfold body. clear body.
  destruct ((decpt <=? -4) || (16 <? decpt)) eqn:Hexp.
  - (* scientific notation *)
    destruct ds as [|d rest] eqn:Hds; [done|].
    simpl in Hd. apply andb_true_iff in Hd as [Hd1 Hd2].
    exists digits, (decpt - n). split_and!.
    + rewrite plain_app. apply andb_true_iff. split.
      * destruct rest; simpl; rewrite ?isdigit_plain, ?all_digits_plain; try done.
        all: simpl in Hd2; by apply andb_true_iff in Hd2 as [? ?].
      * rewrite sapp_cons, sapp_nil_l. simpl. unfold str_exponent.
        rewrite !plain_app, (all_digits_plain (str_nat _)) by apply all_digits_str_nat.
        by destruct (_ <? 0), (_ <? 10).
    + apply head_is_digit_app. by destruct rest.
    + replace (match rest with
               | "" => String d ""
               | String _ _ => String d ("." +:+ rest)
               end +:+ "e" +:+ str_exponent (decpt - 1))
        with (String d "" +:+ (match rest with "" => "" | _ => "." +:+ rest end)
                +:+ "e" +:+ str_exponent (decpt - 1))
        by (by destruct rest).
      rewrite parse_number_exp by (simpl; rewrite ?Hd1; done).
      rewrite sapp_cons, sapp_nil_l, Hi. do 2 f_equal.
      unfold n. simpl String.length. lia.
    + apply eqb_finite_refl.
  - apply orb_false_iff in Hexp as [H1 H2].
    destruct (Z.leb_spec decpt 0) as [Hle|Hgt].
    + (* 0.000ddd *)
      exists digits, (decpt - n). split_and!.
      * rewrite !plain_app, (all_digits_plain ds), (all_digits_plain (Str.zeros _));
          auto using all_digits_zeros.
      * done.
      * change "0." with ("0" +:+ "." +:+ "").
        rewrite (sapp_assoc "0"), (sapp_assoc "."), sapp_nil_l.
        rewrite parse_number_point; [|done|by rewrite all_digits_app, all_digits_zeros|done].
        rewrite sapp_cons, sapp_nil_l, slength_app, length_zeros. unfold Str.int.
        cbn [Str.int_acc]. change (10 * 0 + (N_of_ascii "0" - 48))%N with 0%N.
        rewrite int_acc_app, int_acc_zeros, N.mul_0_l. fold (Str.int ds).
        rewrite Hi. do 2 f_equal. unfold n. lia.
      * apply eqb_finite_refl.
    + destruct (Z.ltb_spec decpt n) as [Hlt|Hge].
      * (* ddd.ddd *)
        destruct (substring_split (Z.to_nat decpt) ds) as [Hs Hl]; [unfold n in Hlt; lia|].
        replace (Z.to_nat (n - decpt))
          with (String.length ds - Z.to_nat decpt)%nat by (unfold n; lia).
        set (a := String.substring 0 (Z.to_nat decpt) ds) in *.
        set (b := String.substring (Z.to_nat decpt) _ ds) in *.
        assert (Hab : Str.all_digits a = true ∧ Str.all_digits b = true).
        { apply andb_true_iff. by rewrite <- all_digits_app, Hs. }
        destruct Hab as [Ha Hb].
        assert (Hane : a ≠ "") by (intros E; rewrite E in Hl; simpl in Hl; lia).
        exists digits, (decpt - n). split_and!.
        -- rewrite !plain_app, (all_digits_plain a), (all_digits_plain b); done.
        -- apply head_is_digit_app. by apply head_is_digit_all.
        -- rewrite parse_number_point, Hs, Hi by done. do 2 f_equal.
           assert (String.length b = String.length ds - Z.to_nat decpt)%nat.
           { rewrite <- Hs at 1. rewrite slength_app, Hl. lia. }
           unfold n. lia.
        -- apply eqb_finite_refl.
      * (* ddd000.0 *)
        set (k := Z.to_nat (decpt - n)).
        exists (digits * 10 ^ N.of_nat k * 10)%N, (-1). split_and!.
        -- rewrite !plain_app, (all_digits_plain ds), (all_digits_plain (Str.zeros _));
             auto using all_digits_zeros.
        -- apply head_is_digit_app. by apply head_is_digit_all.
        -- change ".0" with ("." +:+ "0"). rewrite <- sapp_assoc.
           rewrite parse_number_point;
             [|by rewrite all_digits_app, all_digits_zeros, Hd|done|by destruct ds].
           unfold Str.int. rewrite !int_acc_app, int_acc_zeros. fold (Str.int ds).
           rewrite Hi. cbn [Str.int_acc]. change (N_of_ascii "0" - 48)%N with 0%N.
           do 2 f_equal. lia.
        -- cbn [decimal.eqb]. apply Z.eqb_eq.
           rewrite Z.min_l by lia.
           replace (-1 - -1) with 0 by lia.
           replace (decpt - n - -1) with (Z.of_nat k + 1) by lia.
           rewrite Z.pow_0_r, Z.mul_1_r, Z.pow_add_r, Z.pow_1_r by lia.
           assert (Z.of_N (digits * 10 ^ N.of_nat k * 10)
                   = Z.of_N digits * (10 ^ Z.of_nat k * 10)) as Hz.
           { rewrite !N2Z.inj_mul, N2Z.inj_pow, nat_N_Z. simpl Z.of_N. ring. }
           unfold decimal.signed. destruct neg; rewrite Hz; ring.
Qed.

End DecimalOfFloat.

(** ** [_parse_amount] *)

Section ParseAmount.

Implicit Types (s : string) (value : cell).

(** The text of a cell as [_parse_amount] hands it to [Decimal]: commas and
    periods removed, then stripped. *)
Definition amount_text s : string :=
  Str.strip (Str.remove "." (Str.remove "," s)).

(** Only the decimal digits of [s], in order. *)
Fixpoint digits_of s : string :=
  match s with
  | String c r => if Str.isdigit c then String c (digits_of r) else digits_of r
  | EmptyString => EmptyString
  end.

(** [s] is written with digits, commas and periods only. *)
Fixpoint grouped_digits s : bool :=
  match s with
  | String c r => (Str.isdigit c || Ascii.eqb c "," || Ascii.eqb c ".") && grouped_digits r
  | EmptyString => true
  end.

Lemma of_str_empty : decimal.of_str "" = None.
Proof. reflexivity. Qed.

Lemma parse_amount_text s :
  _parse_amount (Text s)
  = Ok (match decimal.of_str (amount_text s) with
        | Some d => d
        | None => decimal.zero
        end).
Proof.
  unfold _parse_amount. cbn [pd.isna str]. fold (amount_text s).
  destruct (amount_text s) eqn:E; [done|]. by destruct (decimal.of_str _).
Qed.

(** The cell is a [bool]. *)
Definition is_bool value : bool :=
  match value with
  | Bool _ => true
  | _ => false
  end.

(** [Decimal("True")] and [Decimal("False")] raise, and nothing catches
    them. *)
Lemma parse_amount_bool b : _parse_amount (Bool b) = Raise InvalidOperation.
Proof. by destruct b. Qed.

Lemma parse_amount_total value :
  is_bool value = false → ∃ d, _parse_amount value = Ok d.
Proof.
  destruct value as [|s|z|x|b]; intros Hb; [..|done].
  - by eexists.
  - rewrite parse_amount_text. by eexists.
  - unfold _parse_amount. cbn [pd.isna str]. rewrite of_str_int. by eexists.
  - unfold _parse_amount. cbn [pd.isna str].
    destruct (of_str_float x) as (d & -> & _). by eexists.
Qed.

Lemma parse_amount_Ok_not_bool value d :
  _parse_amount value = Ok d → is_bool value = false.
Proof. destruct value as [| | | |b]; try done. by rewrite parse_amount_bool. Qed.

Lemma remove_separators s :
  grouped_digits s = true → Str.remove "." (Str.remove "," s) = digits_of s.
Proof.
  induction s as [|c s IH]; [done|]. cbn [grouped_digits digits_of Str.remove].
  intros [Hc Hs]%andb_true_iff. specialize (IH Hs).
  destruct c as [[] [] [] [] [] [] [] []]; try done; cbn; by rewrite IH.
Qed.

Lemma all_digits_digits_of s : Str.all_digits (digits_of s) = true.
Proof.
  induction s as [|c s IH]; [done|]. simpl.
  destruct (Str.isdigit c) eqn:E; [|done]. simpl. by rewrite E.
Qed.

(** A text of digits grouped by commas and periods is the integer written
    by its digits. *)
Lemma parse_amount_grouped s :
  grouped_digits s = true → digits_of s ≠ "" →
  _parse_amount (Text s) = Ok (decimal.Finite false (Str.int (digits_of s)) 0).
Proof.
  intros Hg Hne. rewrite parse_amount_text. unfold amount_text.
  rewrite remove_separators by done.
  pose proof (all_digits_digits_of s) as Hd.
  rewrite strip_plain by by apply all_digits_plain.
  rewrite of_str_plain by by apply all_digits_plain.
  by rewrite head_digit, parse_number_digits.
Qed.

End ParseAmount.

(** C3.  On a [bool] cell the amount parser raises: the source takes it
    for a number ([True] is an [int]) and hands its text, "True", to
    [Decimal] outside any [try].  On every other cell it never raises.  A
    numeric cell becomes the decimal written by its text
    ([Decimal(str(value))]): an [int] cell is that integer, a [float] cell
    has the value of the float, and [1500.0] is [1500].  A text cell loses
    every comma and period and is stripped; what remains is read by
    [Decimal], and a text of grouped digits is the integer its digits write
    (["1.234.567"] is [1234567], ["12,500"] is [12500]).  An empty cell, and
    a text that [Decimal] rejects, is zero. *)
Theorem C3_parse_amount :
  (∀ b, _parse_amount (Bool b) = Raise InvalidOperation)
  ∧ (∀ value, is_bool value = false → ∃ d, _parse_amount value = Ok d)
  ∧ (∀ z, decimal.of_str (str (Int z)) = Some (decimal.of_Z z)
          ∧ _parse_amount (Int z) = Ok (decimal.of_Z z))
  ∧ (∀ x, ∃ d, decimal.of_str (str (Float x)) = Some d
               ∧ _parse_amount (Float x) = Ok d
               ∧ decimal.eqb d (float_value x) = true)
  ∧ (∃ d, _parse_amount (Float {| f_neg := false; f_digits := 15; f_decpt := 4 |}) = Ok d
          ∧ str_float {| f_neg := false; f_digits := 15; f_decpt := 4 |} = "1500.0"
          ∧ decimal.eqb d (decimal.of_Z 1500) = true)
  ∧ (∀ s, grouped_digits s = true → digits_of s ≠ "" →
          _parse_amount (Text s) = Ok (decimal.Finite false (Str.int (digits_of s)) 0))
  ∧ _parse_amount (Text "1.234.567") = Ok (decimal.of_Z 1234567)
  ∧ _parse_amount (Text "12,500") = Ok (decimal.of_Z 12500)
  ∧ _parse_amount Blank = Ok decimal.zero
  ∧ (∀ s, decimal.of_str (amount_text s) = None → _parse_amount (Text s) = Ok decimal.zero)
  ∧ (∀ s d, decimal.of_str (amount_text s) = Some d → _parse_amount (Text s) = Ok d).
Proof.
  split_and!.
  - apply parse_amount_bool.
  - apply parse_amount_total.
  - intros z. cbn [str]. split; [apply of_str_int|].
    unfold _parse_amount. cbn [pd.isna str]. by rewrite of_str_int.
  - intros x. destruct (of_str_float x) as (d & Hd & Hv). exists d.
    unfold _parse_amount. cbn [pd.isna str]. by rewrite Hd.
  - by eexists.
  - apply parse_amount_grouped.
  - reflexivity.
  - reflexivity.
  - reflexivity.
  - intros s H. by rewrite parse_amount_text, H.
  - intros s d H. by rewrite parse_amount_text, H.
Qed.

Lemma C3_parse_amount_witness :
  _parse_amount (Text "485.000") = Ok (decimal.Finite false 485000 0).
Proof.
  pose proof C3_parse_amount as (_ & _ & _ & _ & _ & H & _).
  apply (H "485.000"); [reflexivity | discriminate].
Defined.

(** ** Format sniffing *)

(** The signature of a ZIP local file header: [PK\x03\x04]. *)
Definition zip_local_file_header : list Byte.byte :=
  [Byte.x50; Byte.x4b; Byte.x03; Byte.x04].

(** The routing as the specification words it: the four bytes read are
    compared with the local-file-header signature. *)
Definition engine_by_magic (content : list Byte.byte) : engine :=
  match take 4 content with
  | [Byte.x50; Byte.x4b; Byte.x03; Byte.x04] => openpyxl
  | _ => xlrd
  end.

(** The test the source makes: the content starts with the two bytes
    [PK]. *)
Definition starts_with_PK (content : list Byte.byte) : bool :=
  match content with
  | Byte.x50 :: Byte.x4b :: _ => true
  | _ => false
  end.

Definition engine_of (content : list Byte.byte) : engine :=
  if starts_with_PK content then openpyxl else xlrd.

Lemma detect_excel_engine_content fs filepath content :
  fs filepath = Some content →
  _detect_excel_engine fs filepath = Ok (engine_of content).
Proof.
  intros H. unfold _detect_excel_engine, read_bytes, engine_of. rewrite H. cbn.
  destruct content as [|a [|b [|c [|d content]]]]; cbn;
    repeat case_match; simplify_eq; done.
Qed.

(** C4, as amended.  The engine is chosen from the content of the file and
    not from its path: [openpyxl] when the first two bytes are [PK],
    [xlrd] otherwise; the third and fourth bytes that are read are not
    compared.  [extract] decodes the content with that engine. *)
Theorem C4_engine_by_content fs filepath content :
  fs filepath = Some content →
  _detect_excel_engine fs filepath
    = Ok (if starts_with_PK content then openpyxl else xlrd)
  ∧ (∀ filepath', fs filepath' = Some content →
       _detect_excel_engine fs filepath' = _detect_excel_engine fs filepath)
  ∧ (∀ read_excel now,
       extract fs read_excel now filepath
       = df ← read_excel content (if starts_with_PK content then openpyxl else xlrd);
         metadata ← _extract_metadata now df;
         transactions ← _extract_transactions df;
         Ok (metadata, transactions)).
Proof.
  intros H. split_and!.
  - by apply detect_excel_engine_content.
  - intros filepath' H'. by rewrite !(detect_excel_engine_content _ _ content).
  - intros read_excel now. unfold extract.
    rewrite (detect_excel_engine_content _ _ content) by done.
    unfold read_bytes. by rewrite H.
Qed.

(** A file system with one XLSX file that is named as an XLS file. *)
Definition one_file (name : string) (content : list Byte.byte)
    : string → option (list Byte.byte) :=
  fun filepath => if String.eqb filepath name then Some content else None.

Lemma C4_engine_by_content_witness :
  _detect_excel_engine (one_file "cartola.xls" zip_local_file_header) "cartola.xls"
  = Ok openpyxl.
Proof.
  exact (proj1 (C4_engine_by_content (one_file "cartola.xls" zip_local_file_header)
                  "cartola.xls" zip_local_file_header eq_refl)).
Defined.

(** C4, as stated, fails: a content that starts with [PK] without being
    the local-file-header signature is still routed to the XLSX decoder.
    This is so for the signature of an empty archive, [PK\x05\x06], and for
    a file of two bytes. *)
Lemma C4_counterexample :
  (engine_by_magic [Byte.x50; Byte.x4b; Byte.x05; Byte.x06; Byte.x00] = xlrd
   ∧ _detect_excel_engine
       (one_file "empty.zip" [Byte.x50; Byte.x4b; Byte.x05; Byte.x06; Byte.x00])
       "empty.zip" = Ok openpyxl)
  ∧ (engine_by_magic [Byte.x50; Byte.x4b] = xlrd
     ∧ _detect_excel_engine (one_file "pk" [Byte.x50; Byte.x4b]) "pk" = Ok openpyxl).
Proof. repeat split. Qed.

(** ** Column detection *)

Section Columns.

Implicit Types (df : DataFrame) (m : gmap string nat) (v : string).

(** The header texts, the key each one fills and its legacy position. *)
Definition header_table : list (string * (string → bool) * nat) :=
  [ ("date", fun v => String.eqb v "Fecha", 1%nat);
    ("description", fun v => String.eqb v Descripcion, 2%nat);
    ("channel", Str.startswith "Canal", 3%nat);
    ("debit", Str.startswith "Cargos", 4%nat);
    ("credit", Str.startswith "Abonos", 5%nat);
    ("balance", Str.startswith "Saldo", 6%nat) ].

(** The cell of [header_row] at [col] is not empty and its stripped text
    satisfies [p]. *)
Definition header_cell (p : string → bool) (header_row : list cell) (col : nat) : bool :=
  let val := nth col header_row Blank in
  negb (pd.isna val) && p (Str.strip (str val)).

(** The columns whose header satisfies [p], left to right. *)
Definition matching_columns (p : string → bool) (header_row : list cell) (ncols : nat)
    : list nat :=
  filter (fun col => header_cell p header_row col = true) (seq 0 ncols).

(** The position of a column: the last matching header if there is one,
    the legacy position otherwise. *)
Definition column_for (p : string → bool) (legacy : nat) (header_row : list cell)
    (ncols : nat) : nat :=
  default legacy (last (matching_columns p header_row ncols)).

Lemma startswith_cons a p c v :
  Str.startswith (String a p) (String c v) = true → a = c ∧ Str.startswith p v = true.
Proof. unfold Str.startswith. simpl. by destruct (ascii_dec a c). Qed.

Lemma startswith_nil a p : Str.startswith (String a p) "" = true → False.
Proof. done. Qed.

Lemma eqb_startswith v : String.eqb v "Fecha" = true → Str.startswith "Fecha" v = true.
Proof. by intros ->%String.eqb_eq. Qed.

Lemma eqb_startswith_D v :
  String.eqb v Descripcion = true → Str.startswith "D" v = true.
Proof. by intros ->%String.eqb_eq. Qed.

(** Two header texts of the table never hold of the same cell, so the
    chain of tests of the source picks the branch of the one that holds. *)
Ltac first_chars :=
  repeat match goal with
  | H : String.eqb _ "Fecha" = true |- _ => apply eqb_startswith in H
  | H : String.eqb _ Descripcion = true |- _ => apply eqb_startswith_D in H
  | H : Str.startswith (String _ _) "" = true |- _ => by destruct (startswith_nil _ _ H)
  | H : Str.startswith (String _ _) (String _ _) = true |- _ =>
      apply startswith_cons in H as [? H]; simplify_eq
  | H : Str.startswith (String _ _) ?v = true |- _ => destruct v
  end.

Lemma detect_step_lookup header_row m col key p legacy :
  (key, p, legacy) ∈ header_table →
  detect_step header_row m col !! key
  = if header_cell p header_row col then Some col else m !! key.
Proof.
  intros Hin. unfold detect_step, header_cell.
  destruct (pd.isna (nth col header_row Blank)); cbn [negb andb].
  { by repeat case_match. }
  set (v := Str.strip (str (nth col header_row Blank))). clearbody v.
  unfold header_table in Hin.
  repeat (apply elem_of_cons in Hin as [Hin|Hin]; [simplify_eq|]);
    [..|by apply elem_of_nil in Hin].
  all: cbv beta.
  all: repeat match goal with
       | |- context [if ?b then _ else _] => destruct b eqn:?
       end.
  all: rewrite ?lookup_insert_eq, ?lookup_insert_ne by done; try done.
  all: exfalso; first_chars.
Qed.

Lemma foldl_detect_lookup header_row cols key p legacy :
  (key, p, legacy) ∈ header_table →
  foldl (detect_step header_row) ∅ cols !! key
  = last (filter (fun col => header_cell p header_row col = true) cols).
Proof.
  intros Hin. induction cols as [|col cols IH] using rev_ind; [done|].
  rewrite foldl_app, filter_app. cbn [foldl].
  rewrite (detect_step_lookup _ _ _ _ _ _ Hin), IH.
  rewrite filter_cons, filter_nil.
  destruct (decide _) as [Hc|Hc].
  - by rewrite Hc, last_snoc.
  - apply not_true_is_false in Hc. by rewrite Hc, app_nil_r.
Qed.

Lemma lookup_setdefault_eq key legacy m :
  setdefault key legacy m !! key = Some (default legacy (m !! key)).
Proof.
  unfold setdefault. destruct (m !! key) eqn:E; [done|]. by rewrite lookup_insert_eq.
Qed.

Lemma lookup_setdefault_ne key legacy m key' :
  key ≠ key' → setdefault key legacy m !! key' = m !! key'.
Proof.
  intros Hne. unfold setdefault. destruct (m !! key) eqn:E; [done|].
  by rewrite lookup_insert_ne.
Qed.

(** What [_detect_transaction_columns] returns, key by key. *)
Lemma detect_transaction_columns_lookup df header_idx m key p legacy :
  _detect_transaction_columns df header_idx = Ok m →
  (key, p, legacy) ∈ header_table →
  ∃ header_row, pd.rows df !! header_idx = Some header_row
    ∧ m !! key = Some (column_for p legacy header_row (pd.ncols df)).
Proof.
  unfold _detect_transaction_columns, pd.iloc_row. intros H Hin.
  destruct (pd.rows df !! header_idx) as [header_row|]; [|done].
  exists header_row. split; [done|]. cbn [mbind result_bind] in H.
  injection H as <-.
  unfold column_for, matching_columns.
  rewrite <- (foldl_detect_lookup _ _ _ _ _ Hin).
  unfold header_table in Hin.
  repeat (apply elem_of_cons in Hin as [Hin|Hin]; [simplify_eq|]);
    [..|by apply elem_of_nil in Hin].
  all: repeat (rewrite lookup_setdefault_ne by done); rewrite lookup_setdefault_eq;
    by repeat (rewrite lookup_setdefault_ne by done).
Qed.

End Columns.

(** ** Label rows *)

(** The test of the label scan on one row: column 1, as text and stripped,
    starts with [label]. *)
Definition label_cell (label : string) (row : list cell) : bool :=
  Str.startswith label (Str.strip (str (nth 1 row Blank))).

(** Row [i] is the first row, top to bottom, whose column 1 starts with
    [label]. *)
Definition first_label_row (df : DataFrame) (label : string) (i : nat) : Prop :=
  (1 < pd.ncols df)%nat
  ∧ ∃ row, pd.rows df !! i = Some row
      ∧ label_cell label row = true
      ∧ ∀ j row', (j < i)%nat → pd.rows df !! j = Some row' → label_cell label row' = false.

(** No row has a column 1 that starts with [label]. *)
Definition no_label_row (df : DataFrame) (label : string) : Prop :=
  ∀ row, row ∈ pd.rows df → label_cell label row = false.

Section LabelRows.

Context {A : Type} (p : A → bool).

Lemma index_where_cons_inv i l j rest :
  index_where p i l = j :: rest →
  ∃ k x, j = (i + k)%nat ∧ l !! k = Some x ∧ p x = true
         ∧ ∀ k' x', (k' < k)%nat → l !! k' = Some x' → p x' = false.
Proof.
  revert i. induction l as [|y l IH]; intros i H; [done|].
  cbn [index_where] in H. destruct (p y) eqn:Hy.
  - injection H as <- _. exists 0%nat, y. split_and!; [lia|done|done|lia].
  - destruct (IH _ H) as (k & x & -> & Hk & Hx & Hlt).
    exists (S k), x. split_and!; [lia|done|done|].
    intros [|k'] x' Hk' Hl; cbn in Hl; [by simplify_eq|].
    apply (Hlt k'); [lia|done].
Qed.

Lemma index_where_nil_inv i l :
  index_where p i l = [] → ∀ x, x ∈ l → p x = false.
Proof.
  revert i. induction l as [|y l IH]; intros i H x Hx; [by apply elem_of_nil in Hx|].
  cbn [index_where] in H. destruct (p y) eqn:Hy; [done|].
  apply elem_of_cons in Hx as [->|Hx]; [done|]. by apply (IH (S i)).
Qed.

Lemma index_where_first i l k x :
  l !! k = Some x → p x = true →
  (∀ k' x', (k' < k)%nat → l !! k' = Some x' → p x' = false) →
  ∃ rest, index_where p i l = (i + k)%nat :: rest.
Proof.
  revert i k. induction l as [|y l IH]; intros i k Hk Hx Hlt; [done|].
  cbn [index_where]. destruct k as [|k].
  - cbn in Hk. simplify_eq. rewrite Hx, Nat.add_0_r. by eexists.
  - rewrite (Hlt 0%nat y) by (done || lia). cbn in Hk.
    destruct (IH (S i) k Hk Hx) as [rest ->].
    + intros k' x' ? ?. apply (Hlt (S k')); [lia|done].
    + exists rest. f_equal. lia.
Qed.

End LabelRows.

Lemma index_where_column label i (rows : list (list cell)) :
  index_where (fun c => Str.startswith label (Str.strip (str c))) i
    (map (fun row => nth 1 row Blank) rows)
  = index_where (label_cell label) i rows.
Proof.
  revert i. induction rows as [|row rows IH]; intros i; [done|].
  cbn [map index_where]. fold (label_cell label row). by rewrite IH.
Qed.

Lemma label_rows_eq df label :
  label_rows df label
  = if (1 <? pd.ncols df)%nat
    then Ok (index_where (label_cell label) 0 (pd.rows df))
    else Raise (KeyError "1").
Proof.
  unfold label_rows, pd.column. destruct (1 <? pd.ncols df)%nat; [|done].
  cbn [mbind result_bind]. f_equal. apply index_where_column.
Qed.

Lemma label_rows_first df label i rest :
  label_rows df label = Ok (i :: rest) → first_label_row df label i.
Proof.
  rewrite label_rows_eq. destruct (Nat.ltb_spec 1 (pd.ncols df)) as [Hn|]; [|done].
  intros [= H]. apply index_where_cons_inv in H as (k & row & -> & Hk & Hp & Hlt).
  split; [done|]. by exists row.
Qed.

Lemma first_label_row_rows df label i :
  first_label_row df label i → ∃ rest, label_rows df label = Ok (i :: rest).
Proof.
  intros [Hn (row & Hi & Hp & Hlt)]. rewrite label_rows_eq.
  apply Nat.ltb_lt in Hn as ->.
  destruct (index_where_first (label_cell label) 0 _ _ _ Hi Hp Hlt) as [rest ->].
  by exists rest.
Qed.

Lemma label_rows_none df label :
  label_rows df label = Ok [] → no_label_row df label.
Proof.
  rewrite label_rows_eq. destruct (1 <? pd.ncols df)%nat; [|done].
  intros [= H] row Hrow. by apply (index_where_nil_inv _ _ _ H).
Qed.

Lemma first_label_row_unique df label i j :
  first_label_row df label i → first_label_row df label j → i = j.
Proof.
  intros [_ (r1 & H1 & P1 & L1)] [_ (r2 & H2 & P2 & L2)].
  destruct (Nat.lt_total i j) as [Hlt|[->|Hlt]]; [|done|].
  - rewrite (L2 _ _ Hlt H1) in P1. done.
  - rewrite (L1 _ _ Hlt H2) in P2. done.
Qed.

(** ** Transaction rows *)

(** The columns that [_extract_transactions] uses for a header row. *)
Definition detected_columns (header_row : list cell) (ncols : nat) : columns :=
  {| date_col := column_for (fun v => String.eqb v "Fecha") 1 header_row ncols;
     desc_col := column_for (fun v => String.eqb v Descripcion) 2 header_row ncols;
     chan_col := column_for (Str.startswith "Canal") 3 header_row ncols;
     debit_col := column_for (Str.startswith "Cargos") 4 header_row ncols;
     credit_col := column_for (Str.startswith "Abonos") 5 header_row ncols;
     balance_col := column_for (Str.startswith "Saldo") 6 header_row ncols |}.

(** Every column that the loop reads exists in the frame. *)
Definition in_range (df : DataFrame) (cols : columns) : Prop :=
  (date_col cols < pd.ncols df ∧ desc_col cols < pd.ncols df
   ∧ chan_col cols < pd.ncols df ∧ debit_col cols < pd.ncols df
   ∧ credit_col cols < pd.ncols df ∧ balance_col cols < pd.ncols df)%nat.

(** The amount of a cell that is not a [bool]. *)
Definition amount_of (c : cell) : Decimal :=
  match _parse_amount c with
  | Ok d => d
  | Raise _ => decimal.zero
  end.

(** An amount that is left out when the cell is empty. *)
Definition optional_amount (c : cell) : option Decimal :=
  if pd.isna c then None else Some (amount_of c).

(** A text that is empty when the cell is empty. *)
Definition text_or_empty (c : cell) : string :=
  if pd.isna c then "" else str c.

(** The transaction that a row with the date [date] gives. *)
Definition row_transaction (cols : columns) (row : list cell) (date : datetime)
    : BancoChileTransaction :=
  {| date := date;
     description := text_or_empty (nth (desc_col cols) row Blank);
     channel := text_or_empty (nth (chan_col cols) row Blank);
     debit := optional_amount (nth (debit_col cols) row Blank);
     credit := optional_amount (nth (credit_col cols) row Blank);
     balance := amount_of (nth (balance_col cols) row Blank) |}.

(** One of the three amount cells of the row is a [bool]. *)
Definition bool_amount (cols : columns) (row : list cell) : bool :=
  is_bool (nth (debit_col cols) row Blank)
  || is_bool (nth (credit_col cols) row Blank)
  || is_bool (nth (balance_col cols) row Blank).

(** The rules of the row iteration: a row with an empty date is a spacer,
    a row whose date text does not start with a date or does not parse ends
    the table, a dated row with a [bool] amount breaks the extraction, any
    other row is a transaction. *)
Inductive row_kind : Type :=
  | Spacer
  | Footer
  | Broken
  | Entry (t : BancoChileTransaction).

Definition classify_row (cols : columns) (row : list cell) : row_kind :=
  let d := nth (date_col cols) row Blank in
  if pd.isna d then Spacer
  else if negb (re.match_date (str d)) then Footer
  else
    match strptime (str d) with
    | Some date =>
        if bool_amount cols row then Broken else Entry (row_transaction cols row date)
    | None => Footer
    end.

Fixpoint scan_rows (cols : columns) (rows : list (list cell))
    : result (list BancoChileTransaction) :=
  match rows with
  | [] => Ok []
  | row :: rest =>
      match classify_row cols row with
      | Spacer => scan_rows cols rest
      | Footer => Ok []
      | Broken => Raise InvalidOperation
      | Entry t => transactions ← scan_rows cols rest; Ok (t :: transactions)
      end
  end.

Section Rows.

Implicit Types (df : DataFrame) (cols : columns) (row : list cell).

Lemma parse_amount_eq c :
  _parse_amount c = if is_bool c then Raise InvalidOperation else Ok (amount_of c).
Proof.
  destruct (is_bool c) eqn:Hb.
  - destruct c; try done. apply parse_amount_bool.
  - unfold amount_of. by destruct (parse_amount_total c Hb) as [d ->].
Qed.

Lemma parse_amount_amount_of c :
  is_bool c = false → _parse_amount c = Ok (amount_of c).
Proof. intros Hb. by rewrite parse_amount_eq, Hb. Qed.

Lemma getitem_in df row col :
  (col < pd.ncols df)%nat → pd.getitem df row col = Ok (nth col row Blank).
Proof. intros H. unfold pd.getitem. by apply Nat.ltb_lt in H as ->. Qed.

Lemma getitem_out df row col :
  (pd.ncols df ≤ col)%nat →
  pd.getitem df row col = Raise (KeyError (str_nat (N.of_nat col))).
Proof. intros H. unfold pd.getitem. by apply Nat.ltb_ge in H as ->. Qed.

Lemma getitem_inv df row col c :
  pd.getitem df row col = Ok c → (col < pd.ncols df)%nat ∧ c = nth col row Blank.
Proof.
  unfold pd.getitem. destruct (Nat.ltb_spec col (pd.ncols df)); [|done].
  by intros [= <-].
Qed.

Lemma optional_amount_eq c :
  (if negb (pd.isna c) then Some <$> _parse_amount c else Ok None)
  = if is_bool c then Raise InvalidOperation else Ok (optional_amount c).
Proof.
  unfold optional_amount. rewrite parse_amount_eq.
  by destruct c.
Qed.

(** When the columns exist, the body of the [try] raises nothing but the
    [ValueError] of [strptime] and the [InvalidOperation] of a [bool]
    amount. *)
Lemma try_row_in_range df cols row :
  in_range df cols →
  try_row df cols row
  = let d := nth (date_col cols) row Blank in
    if negb (re.match_date (str d)) then Ok None
    else
      match strptime (str d) with
      | Some date =>
          if bool_amount cols row then Raise InvalidOperation
          else Ok (Some (row_transaction cols row date))
      | None => Raise (ValueError "time data does not match format")
      end.
Proof.
  intros (H1 & H2 & H3 & H4 & H5 & H6). unfold try_row.
  rewrite !getitem_in by done. cbn [mbind result_bind].
  destruct (negb _); [done|]. destruct (strptime _) as [date|]; [|done].
  rewrite !optional_amount_eq, parse_amount_eq. unfold bool_amount.
  destruct (is_bool (nth (debit_col cols) row Blank)); [done|].
  cbn [mbind result_bind orb].
  destruct (is_bool (nth (credit_col cols) row Blank)); [done|].
  cbn [mbind result_bind orb].
  destruct (is_bool (nth (balance_col cols) row Blank)); [done|].
  cbn [mbind result_bind].
  unfold row_transaction, text_or_empty.
  by destruct (pd.isna (nth (desc_col cols) row Blank)),
              (pd.isna (nth (chan_col cols) row Blank)).
Qed.

(** A row that gives a transaction has all its columns in the frame and
    no [bool] amount, and the transaction is [row_transaction]. *)
Lemma try_row_inv df cols row t :
  try_row df cols row = Ok (Some t) →
  in_range df cols
  ∧ ∃ date, strptime (str (nth (date_col cols) row Blank)) = Some date
      ∧ re.match_date (str (nth (date_col cols) row Blank)) = true
      ∧ bool_amount cols row = false
      ∧ t = row_transaction cols row date.
Proof.
  intros H.
  assert (Hin : in_range df cols).
  { unfold try_row in H.
    repeat match type of H with
    | context [pd.getitem df row ?c] =>
        let E := fresh "E" in
        destruct (pd.getitem df row c) as [?|?] eqn:E;
        [apply getitem_inv in E as [? ->]|]; cbn [mbind result_bind] in H
    | context [if ?b then _ else _] => destruct b; try done
    | context [strptime ?s] => destruct (strptime s); try done
    | context [_parse_amount ?c] =>
        rewrite (parse_amount_eq c) in H; destruct (is_bool c);
        cbn [mbind result_bind fmap result_fmap] in H
    end; try done. }
  split; [done|]. rewrite (try_row_in_range _ _ _ Hin) in H. cbn zeta in H.
  destruct (re.match_date _); [|done]. cbn [negb] in H.
  destruct (strptime _) as [date|]; [|done]. exists date.
  destruct (bool_amount cols row); [done|].
  by injection H as <-.
Qed.





(** With the columns in the frame the loop is the scan of the rows. *)
Lemma loop_scan_rows df cols rows :
  in_range df cols → transactions_loop df cols rows = scan_rows cols rows.
Proof.
  intros Hin. induction rows as [|row rest IH]; [done|].
  cbn [transactions_loop scan_rows]. unfold classify_row.
  rewrite getitem_in by apply Hin. cbn [mbind result_bind].
  destruct (pd.isna _); [done|].
  rewrite try_row_in_range by done. cbn zeta.
  destruct (negb _); [done|]. destruct (strptime _); [|done].
  destruct (bool_amount cols row); [done|].
  by rewrite IH.
Qed.

(** Without a [bool] amount in a row the scan returns. *)
Lemma scan_rows_Ok cols rows :
  Forall (fun row => bool_amount cols row = false) rows →
  ∃ txs, scan_rows cols rows = Ok txs.
Proof.
  intros H. induction H as [|row rest Hb _ [txs IH]]; [by eexists|].
  cbn [scan_rows]. unfold classify_row. rewrite Hb.
  destruct (pd.isna _); [by eexists|].
  destruct (negb _); [by eexists|]. destruct (strptime _); [|by eexists].
  rewrite IH. by eexists.
Qed.

(** Every transaction that the loop returns is the transaction of one of
    the rows. *)
Lemma loop_elem_of df cols rows txs t :
  transactions_loop df cols rows = Ok txs → t ∈ txs →
  ∃ row, row ∈ rows ∧ try_row df cols row = Ok (Some t).
Proof.
  revert txs. induction rows as [|row rest IH]; intros txs H Ht.
  { injection H as <-. by apply elem_of_nil in Ht. }
  cbn [transactions_loop] in H.
  destruct (pd.getitem df row (date_col cols)) as [d|]; [|done].
  cbn [mbind result_bind] in H. destruct (pd.isna d).
  { destruct (IH _ H Ht) as (r & Hr & Hrt). exists r. split; [by right|done]. }
  destruct (try_row df cols row) as [[t'|]|[]] eqn:E; try done.
  - destruct (transactions_loop df cols rest) as [txs'|]; [|done].
    cbn [mbind result_bind] in H. injection H as <-.
    apply elem_of_cons in Ht as [->|Ht].
    + exists row. split; [by left|done].
    + destruct (IH _ eq_refl Ht) as (r & Hr & Hrt). exists r. split; [by right|done].
  - injection H as <-. by apply elem_of_nil in Ht.
  - injection H as <-. by apply elem_of_nil in Ht.
Qed.

End Rows.

(** ** The header row and the start of the iteration *)

Section Header.

Implicit Types (df : DataFrame) (header_row : list cell) (p : string → bool).

Lemma matching_columns_lt p header_row n c :
  c ∈ matching_columns p header_row n → (c < n)%nat ∧ header_cell p header_row c = true.
Proof.
  unfold matching_columns. intros [Hc Hin]%list_elem_of_filter.
  apply elem_of_seq in Hin. split; [lia|done].
Qed.

Lemma column_for_cases p legacy header_row n :
  (matching_columns p header_row n = [] ∧ column_for p legacy header_row n = legacy)
  ∨ (column_for p legacy header_row n ∈ matching_columns p header_row n).
Proof.
  unfold column_for. destruct (last _) as [c|] eqn:E.
  - right. apply last_Some in E as [l ->]. cbn. apply elem_of_app. right. by left.
  - left. by apply last_None in E.
Qed.

Lemma column_for_lt p legacy header_row n :
  (legacy < n)%nat → (column_for p legacy header_row n < n)%nat.
Proof.
  intros Hl. destruct (column_for_cases p legacy header_row n) as [[_ ->]|Hin]; [done|].
  by apply matching_columns_lt in Hin as [? _].
Qed.

Lemma detected_in_range df header_row :
  (7 ≤ pd.ncols df)%nat → in_range df (detected_columns header_row (pd.ncols df)).
Proof. intros H. repeat split; cbn; apply column_for_lt; lia. Qed.

Lemma detect_transaction_columns_ok df header_idx header_row :
  pd.rows df !! header_idx = Some header_row →
  ∃ m, _detect_transaction_columns df header_idx = Ok m.
Proof.
  intros H. unfold _detect_transaction_columns, pd.iloc_row. rewrite H.
  by eexists.
Qed.

(** [_extract_transactions] finds the header, detects the columns and runs
    the loop over the rows below the header. *)
Lemma extract_transactions_loop df header_idx :
  first_label_row df "Fecha" header_idx →
  ∃ header_row,
    pd.rows df !! header_idx = Some header_row
    ∧ (date_col (detected_columns header_row (pd.ncols df)) < pd.ncols df)%nat
    ∧ _extract_transactions df
      = transactions_loop df (detected_columns header_row (pd.ncols df))
          (drop (header_idx + 1) (pd.rows df)).
Proof.
  intros Hf. destruct (first_label_row_rows _ _ _ Hf) as [rest Hl].
  destruct Hf as [Hn (header_row & Hh & _)]. exists header_row.
  split; [done|]. split; [by apply column_for_lt|].
  destruct (detect_transaction_columns_ok _ _ _ Hh) as [m Hm].
  unfold _extract_transactions. rewrite Hl. cbn [first_row mbind result_bind].
  rewrite Hm. cbn [mbind result_bind]. unfold dict_get.
  assert (Hk : ∀ key p legacy, (key, p, legacy) ∈ header_table →
            m !! key = Some (column_for p legacy header_row (pd.ncols df))).
  { intros key p legacy Hin.
    destruct (detect_transaction_columns_lookup _ _ _ _ _ _ Hm Hin) as (r & Hr & ->).
    by simplify_eq. }
  assert (HF : Forall (fun e : string * (string → bool) * nat =>
                         m !! e.1.1 = Some (column_for e.1.2 e.2 header_row (pd.ncols df)))
                 header_table).
  { apply Forall_forall. intros [[key p] legacy]. apply Hk. }
  unfold header_table in HF.
  repeat (apply Forall_cons in HF as [? HF]). cbn [fst snd] in *.
  repeat match goal with H : m !! _ = Some _ |- _ => rewrite H; clear H end.
  done.
Qed.

Lemma extract_transactions_no_header df :
  label_rows df "Fecha" = Ok [] →
  _extract_transactions df = Raise (ValueError "Could not find transaction header").
Proof. intros H. unfold _extract_transactions. by rewrite H. Qed.

End Header.

(** ** A sample statement *)

(** The rows of a statement above its transaction table; [movements] is
    the text of the "Movimientos" cell. *)
Definition cartola_head (movements : string) : list (list cell) :=
  [ [Blank; Text "Sr(a):"; Text "Test Holder"];
    [Blank; Text "Rut:"; Blank; Text "11.111.111-1"];
    [Blank; Text "Cuenta:"; Text "00-123-45678-90"];
    [Blank; Text "Moneda:"; Text "CLP"];
    [Blank; Text "Saldo Disponible"; Blank; Text "Saldo Contable"];
    [Blank; Text "485.000"; Blank; Int 490000];
    [Blank; Text "Total Cargos"; Text "Total Abonos"];
    [Blank; Float {| f_neg := false; f_digits := 15; f_decpt := 5 |}; Text "1.234.567"];
    [Blank; Text movements] ].

(** A transaction table: a debit, a spacer, a row with a dash as debit and
    a credit, a footer, and a dated row below the footer. *)
Definition cartola_rows : list (list cell) :=
  [ [Blank; Text "05/01/2024"; Text "Compra Tienda X"; Text "App"; Int 15000; Blank;
     Text "485000"];
    [];
    [Blank; Text "04/01/2024"; Text "Abono"; Blank; Text "-"; Int 5; Text "500.000"];
    [Blank; Text "Total"; Blank; Blank; Int 15000; Int 5];
    [Blank; Text "03/01/2024"; Text "Abono"; Blank; Blank; Int 7; Text "500.000"] ].

Definition cartola_header : list cell :=
  [Blank; Text "Fecha"; Text Descripcion; Text "Canal o Sucursal"; Text "Cargos (CLP)";
   Text "Abonos (CLP)"; Text "Saldo (CLP)"].

Definition cartola : DataFrame :=
  {| pd.ncols := 7;
     pd.rows := cartola_head "Movimientos al 15/03/2024" ++ cartola_header :: cartola_rows |}.

(** The same statement without a date in its "Movimientos" row. *)
Definition cartola_undated : DataFrame :=
  {| pd.ncols := 7;
     pd.rows := cartola_head "Movimientos" ++ cartola_header :: cartola_rows |}.

(** The same statement with a header that has no text for the credit
    column. *)
Definition cartola_no_credit : DataFrame :=
  {| pd.ncols := 7;
     pd.rows := cartola_head "Movimientos al 15/03/2024"
                ++ [Blank; Text "Fecha"; Text Descripcion; Text "Canal o Sucursal";
                    Text "Cargos (CLP)"; Blank; Text "Saldo (CLP)"] :: cartola_rows |}.

(** The same statement with one transaction row whose debit cell is the
    boolean TRUE. *)
Definition cartola_bool : DataFrame :=
  {| pd.ncols := 7;
     pd.rows := cartola_head "Movimientos al 15/03/2024" ++ cartola_header
                :: [ [Blank; Text "05/01/2024"; Text "Compra Tienda X"; Text "App";
                      Bool true; Blank; Text "485000"] ] |}.

(** The same statement with one transaction row whose debit cell is the
    text "Infinity". *)
Definition cartola_infinity : DataFrame :=
  {| pd.ncols := 7;
     pd.rows := cartola_head "Movimientos al 15/03/2024" ++ cartola_header
                :: [ [Blank; Text "05/01/2024"; Text "Compra Tienda X"; Text "App";
                      Text "Infinity"; Blank; Text "485000"] ] |}.

(** A statement of six columns, without a balance column. *)
Definition cartola_six : DataFrame :=
  {| pd.ncols := 6;
     pd.rows := cartola_head "Movimientos al 15/03/2024"
                ++ [Blank; Text "Fecha"; Text Descripcion; Text "Canal o Sucursal";
                    Text "Cargos (CLP)"; Text "Abonos (CLP)"]
                :: [ [Blank; Text "05/01/2024"; Text "Compra Tienda X"; Text "App";
                      Int 15000; Blank] ] |}.

(** A statement of five columns, without a channel and a credit column. *)
Definition cartola_five : DataFrame :=
  {| pd.ncols := 5;
     pd.rows := cartola_head "Movimientos al 15/03/2024"
                ++ [Blank; Text "Fecha"; Text Descripcion; Text "Cargos (CLP)";
                    Text "Saldo (CLP)"]
                :: [ [Blank; Text "05/01/2024"; Text "Compra Tienda X"; Int 15000;
                      Text "485000"] ] |}.

(** A frame with a "Movimientos" row and nothing else. *)
Definition movements_only : DataFrame :=
  {| pd.ncols := 3; pd.rows := [ [Blank; Text "Movimientos"; Blank] ] |}.

(** A decoder that yields [df] whatever the bytes and the engine. *)
Definition decoder (df : DataFrame) : list Byte.byte → engine → result DataFrame :=
  fun _ _ => Ok df.

Definition midnight (y m d : N) : datetime :=
  {| year := y; month := m; day := d; hour := 0; minute := 0; second := 0; microsecond := 0 |}.

Definition purchase : BancoChileTransaction :=
  {| date := midnight 2024 1 5; description := "Compra Tienda X"; channel := "App";
     debit := Some (decimal.of_Z 15000); credit := None;
     balance := decimal.of_Z 485000 |}.

Definition deposit : BancoChileTransaction :=
  {| date := midnight 2024 1 4; description := "Abono"; channel := "";
     debit := Some decimal.zero; credit := Some (decimal.of_Z 5);
     balance := decimal.of_Z 500000 |}.

Example cartola_transactions : _extract_transactions cartola = Ok [purchase; deposit].
Proof. vm_compute. reflexivity. Qed.

Example cartola_bool_transactions : _extract_transactions cartola_bool = Raise InvalidOperation.
Proof. vm_compute. reflexivity. Qed.

Example cartola_six_transactions : _extract_transactions cartola_six = Raise (KeyError "6").
Proof. vm_compute. reflexivity. Qed.

Example cartola_five_transactions : _extract_transactions cartola_five = Raise (KeyError "5").
Proof. vm_compute. reflexivity. Qed.

Example movements_only_metadata :
  _extract_metadata (midnight 2026 11 4) movements_only
  = Raise (ValueError "Could not find account holder information").
Proof. vm_compute. reflexivity. Qed.

Example cartola_metadata :
  _extract_metadata (midnight 2026 11 4) cartola
  = Ok {| account_holder := "Test Holder"; rut := "11.111.111-1";
          account_number := "00-123-45678-90"; currency := "CLP";
          available_balance := decimal.of_Z 485000;
          accounting_balance := decimal.of_Z 490000;
          total_debits := decimal.Finite false 150000 (-1);
          total_credits := decimal.of_Z 1234567;
          statement_date := midnight 2024 3 15 |}.
Proof. vm_compute. reflexivity. Qed.

(** C3, as stated, fails: the boolean cell TRUE is not empty, is taken for
    a number, and its text, "True", is no decimal; the parser raises
    [InvalidOperation], which [_extract_transactions] does not catch. *)
Lemma C3_counterexample :
  pd.isna (Bool true) = false
  ∧ str (Bool true) = "True"
  ∧ decimal.of_str "True" = None
  ∧ _parse_amount (Bool true) = Raise InvalidOperation
  ∧ _extract_transactions cartola_bool = Raise InvalidOperation.
Proof. split_and!; vm_compute; reflexivity. Qed.

(** ** Row iteration *)

(** The date cell of a row. *)
Definition date_cell (cols : columns) (row : list cell) : cell :=
  nth (date_col cols) row Blank.




Lemma cartola_header_row : first_label_row cartola "Fecha" 9.
Proof. by apply (label_rows_first _ _ _ []). Qed.



(** ** The column mapping *)

(** Every transaction that [_extract_transactions] returns comes from a
    row below the header, read at the detected columns. *)
Lemma extract_transactions_inv df txs :
  _extract_transactions df = Ok txs →
  ∃ header_idx header_row,
    first_label_row df "Fecha" header_idx
    ∧ pd.rows df !! header_idx = Some header_row
    ∧ transactions_loop df (detected_columns header_row (pd.ncols df))
        (drop (header_idx + 1) (pd.rows df)) = Ok txs.
Proof.
  intros H.
  destruct (label_rows df "Fecha") as [[|header_idx rest]|e] eqn:Hl.
  - by rewrite extract_transactions_no_header in H.
  - apply label_rows_first in Hl.
    destruct (extract_transactions_loop _ _ Hl) as (header_row & Hh & _ & Heq).
    exists header_idx, header_row. by rewrite <- Heq.
  - unfold _extract_transactions in H. by rewrite Hl in H.
Qed.

(** C7, as amended.  The mapping that [_detect_transaction_columns]
    returns holds, for each of the six keys, the column whose header has
    the text of the key (exactly "Fecha", exactly "Descripción", or a text
    that starts with "Canal", "Cargos", "Abonos", "Saldo"; the last such
    column when several have it), and the legacy position of the key (1 to
    6) when no header has it.  With a header without a text for the credit
    column the credit column is 5 and the extraction reads the credit of
    every transaction it returns from column 5; it is the scan of the rows
    below the header when the frame has the columns of the mapping, which
    it has with seven columns or more, and then returns transactions unless
    an amount cell is a boolean. *)
Theorem C7_column_detection df header_idx m :
  _detect_transaction_columns df header_idx = Ok m →
  ∃ header_row,
    pd.rows df !! header_idx = Some header_row
    ∧ (∀ key p legacy, (key, p, legacy) ∈ header_table →
         ∃ col, m !! key = Some col
           ∧ col = column_for p legacy header_row (pd.ncols df)
           ∧ ((matching_columns p header_row (pd.ncols df) = [] ∧ col = legacy)
              ∨ (col < pd.ncols df)%nat ∧ header_cell p header_row col = true))
    ∧ (first_label_row df "Fecha" header_idx →
       matching_columns (Str.startswith "Abonos") header_row (pd.ncols df) = [] →
       ∃ cols,
         credit_col cols = 5%nat
         ∧ _extract_transactions df
           = transactions_loop df cols (drop (header_idx + 1) (pd.rows df))
         ∧ (∀ txs t, _extract_transactions df = Ok txs → t ∈ txs →
              ∃ row, row ∈ drop (header_idx + 1) (pd.rows df)
                ∧ credit t = optional_amount (nth 5 row Blank))
         ∧ ((7 ≤ pd.ncols df)%nat → in_range df cols)
         ∧ (in_range df cols →
              _extract_transactions df
              = scan_rows cols (drop (header_idx + 1) (pd.rows df)))
         ∧ (in_range df cols →
              Forall (fun row => bool_amount cols row = false)
                (drop (header_idx + 1) (pd.rows df)) →
              ∃ txs, _extract_transactions df = Ok txs)).
Proof.
  intros Hm.
  destruct (detect_transaction_columns_lookup _ _ _ "date"
              (fun v => String.eqb v "Fecha") 1%nat Hm)
    as (header_row & Hh & _); [unfold header_table; by left|].
  exists header_row. split_and!; [done|..].
  - intros key p legacy Hin.
    destruct (detect_transaction_columns_lookup _ _ _ _ _ _ Hm Hin) as (r & Hr & Hk).
    rewrite Hh in Hr. injection Hr as <-. eexists. split_and!; [done|done|].
    destruct (column_for_cases p legacy header_row (pd.ncols df)) as [[? ?]|Hc];
      [by left|].
    right. by apply matching_columns_lt.
  - intros Hf Hnone.
    destruct (extract_transactions_loop _ _ Hf) as (r & Hr & _ & Heq).
    rewrite Hh in Hr. injection Hr as <-.
    set (cols := detected_columns header_row (pd.ncols df)) in *.
    assert (Hc : credit_col cols = 5%nat).
    { cbn. unfold column_for. by rewrite Hnone. }
    exists cols. split_and!; [done|done|..].
    + intros txs t Htx Ht. rewrite Heq in Htx.
      destruct (loop_elem_of _ _ _ _ _ Htx Ht) as (row & Hrow & Htry).
      exists row. split; [done|].
      apply try_row_inv in Htry as (_ & date & _ & _ & _ & ->).
      cbn [credit row_transaction]. by rewrite Hc.
    + intros Hn. by apply detected_in_range.
    + intros Hin. rewrite Heq. by apply loop_scan_rows.
    + intros Hin Hb. rewrite Heq, loop_scan_rows by done. by apply scan_rows_Ok.
Qed.

Lemma C7_column_detection_witness :
  ∃ m, _detect_transaction_columns cartola_no_credit 9 = Ok m
    ∧ m !! "credit" = Some 5%nat
    ∧ m !! "debit" = Some 4%nat.
Proof.
  destruct (detect_transaction_columns_ok cartola_no_credit 9 _ eq_refl) as [m Hm].
  exists m. split; [done|].
  destruct (C7_column_detection cartola_no_credit 9 m Hm) as (header_row & Hh & Hk & _).
  injection Hh as <-. split.
  - destruct (Hk "credit" (Str.startswith "Abonos") 5%nat) as (col & -> & -> & _);
      [do 4 apply list_elem_of_further; apply list_elem_of_here|reflexivity].
  - destruct (Hk "debit" (Str.startswith "Cargos") 4%nat) as (col & -> & -> & _);
      [do 3 apply list_elem_of_further; apply list_elem_of_here|reflexivity].
Defined.


(** C7, as stated, fails: in a frame of five columns whose header has no
    text for the credit column, the credit column is the legacy column 5,
    which the frame lacks, and the extraction raises [KeyError] at the first
    dated row. *)
Lemma C7_counterexample :
  matching_columns (Str.startswith "Abonos")
    [Blank; Text "Fecha"; Text Descripcion; Text "Cargos (CLP)"; Text "Saldo (CLP)"] 5 = []
  ∧ credit_col
      (detected_columns
         [Blank; Text "Fecha"; Text Descripcion; Text "Cargos (CLP)"; Text "Saldo (CLP)"] 5)
    = 5%nat
  ∧ _extract_transactions cartola_five = Raise (KeyError "5").
Proof. split_and!; vm_compute; reflexivity. Qed.

(** ** The amounts of a transaction *)

(** The invariant of a transaction as the specification words it: one of
    debit and credit is populated, with a positive value, or neither is. *)
Definition one_positive_or_neither (t : BancoChileTransaction) : bool :=
  match debit t, credit t with
  | Some d, None => decimal.positive d
  | None, Some c => decimal.positive c
  | None, None => true
  | Some _, Some _ => false
  end.

(** The bytes of a file in the legacy format. *)
Definition ole2_bytes : list Byte.byte :=
  [Byte.xd0; Byte.xcf; Byte.x11; Byte.xe0; Byte.xa1; Byte.xb1; Byte.x1a; Byte.xe1].

(** [extract] on a file that can be read. *)
Lemma extract_content fs read_excel now filepath content :
  fs filepath = Some content →
  extract fs read_excel now filepath
  = (df ← read_excel content (engine_of content);
     metadata ← _extract_metadata now df;
     transactions ← _extract_transactions df;
     Ok (metadata, transactions)).
Proof.
  intros H. unfold extract.
  rewrite (detect_excel_engine_content _ _ content) by done.
  unfold read_bytes. by rewrite H.
Qed.

Lemma extract_inv fs read_excel now filepath metadata transactions :
  extract fs read_excel now filepath = Ok (metadata, transactions) →
  ∃ content df,
    fs filepath = Some content
    ∧ read_excel content (engine_of content) = Ok df
    ∧ _extract_metadata now df = Ok metadata
    ∧ _extract_transactions df = Ok transactions.
Proof.
  intros H. destruct (fs filepath) as [content|] eqn:Hfs.
  - rewrite (extract_content _ _ _ _ content Hfs) in H.
    destruct (read_excel content (engine_of content)) as [df|] eqn:Hdf; [|done].
    cbn [mbind result_bind] in H.
    destruct (_extract_metadata now df) as [md|] eqn:Hmd; [|done].
    cbn [mbind result_bind] in H.
    destruct (_extract_transactions df) as [txs|] eqn:Htx; [|done].
    cbn [mbind result_bind] in H. injection H as <- <-.
    by exists content, df.
  - unfold extract, _detect_excel_engine, read_bytes in H. by rewrite Hfs in H.
Qed.

Lemma extract_decoded fs read_excel now filepath content df :
  fs filepath = Some content →
  read_excel content (engine_of content) = Ok df →
  extract fs read_excel now filepath
  = (metadata ← _extract_metadata now df;
     transactions ← _extract_transactions df;
     Ok (metadata, transactions)).
Proof.
  intros Hfs Hdf.
  rewrite (extract_content _ _ _ _ content Hfs). by rewrite Hdf.
Qed.

(** The amount of a transaction and the cell it is read from: the amount
    is absent exactly when the cell is empty, and is what [_parse_amount]
    makes of the cell otherwise. *)
Definition amount_from (c : cell) (a : option Decimal) : Prop :=
  (a = None ↔ pd.isna c = true)
  ∧ (∀ d, a = Some d ↔ pd.isna c = false ∧ _parse_amount c = Ok d).

Lemma optional_amount_from c : is_bool c = false → amount_from c (optional_amount c).
Proof.
  intros Hb. unfold amount_from, optional_amount. rewrite parse_amount_amount_of by done.
  destruct (pd.isna c); split; try intros d; split; try done;
    try (by intros [? ?]); try (by intros [= <-]).
  by intros [_ [= <-]].
Qed.

(** C1, as amended.  In every transaction that [extract] returns, the
    debit is populated exactly when the debit cell of its row is not empty,
    and then holds the parsed amount of that cell, whatever its sign; the
    same holds of the credit; so both are populated when both cells are
    filled.  The balance is always populated: it is the parsed amount of the
    balance cell. *)
Theorem C1_amounts_follow_cells fs read_excel now filepath metadata transactions t :
  extract fs read_excel now filepath = Ok (metadata, transactions) →
  t ∈ transactions →
  ∃ content df header_idx header_row row,
    fs filepath = Some content
    ∧ read_excel content (engine_of content) = Ok df
    ∧ first_label_row df "Fecha" header_idx
    ∧ pd.rows df !! header_idx = Some header_row
    ∧ row ∈ drop (header_idx + 1) (pd.rows df)
    ∧ let cols := detected_columns header_row (pd.ncols df) in
      amount_from (nth (debit_col cols) row Blank) (debit t)
      ∧ amount_from (nth (credit_col cols) row Blank) (credit t)
      ∧ _parse_amount (nth (balance_col cols) row Blank) = Ok (balance t)
      ∧ (pd.isna (nth (debit_col cols) row Blank) = false →
         pd.isna (nth (credit_col cols) row Blank) = false →
         is_Some (debit t) ∧ is_Some (credit t)).
Proof.
  intros Hex Ht.
  destruct (extract_inv _ _ _ _ _ _ Hex) as (content & df & Hfs & Hdf & _ & Htx).
  destruct (extract_transactions_inv _ _ Htx) as (header_idx & header_row & Hf & Hh & Hl).
  destruct (loop_elem_of _ _ _ _ _ Hl Ht) as (row & Hrow & Htry).
  apply try_row_inv in Htry as (_ & date & _ & _ & Hb & ->).
  unfold bool_amount in Hb.
  apply orb_false_iff in Hb as [[Hb1 Hb2]%orb_false_iff Hb3].
  exists content, df, header_idx, header_row, row.
  split_and!; try done. intros cols. subst cols.
  cbn [debit credit balance row_transaction]. split_and!.
  - by apply optional_amount_from.
  - by apply optional_amount_from.
  - by apply parse_amount_amount_of.
  - intros H1 H2. unfold optional_amount. rewrite H1, H2. by split.
Qed.

Lemma C1_amounts_follow_cells_witness :
  ∃ row, row ∈ cartola_rows
    ∧ amount_from (nth 4 row Blank) (debit deposit)
    ∧ amount_from (nth 5 row Blank) (credit deposit).
Proof.
  destruct (C1_amounts_follow_cells
              (one_file "cartola.xls" ole2_bytes) (decoder cartola)
              (midnight 2026 11 4) "cartola.xls"
              {| account_holder := "Test Holder"; rut := "11.111.111-1";
                 account_number := "00-123-45678-90"; currency := "CLP";
                 available_balance := decimal.of_Z 485000;
                 accounting_balance := decimal.of_Z 490000;
                 total_debits := decimal.Finite false 150000 (-1);
                 total_credits := decimal.of_Z 1234567;
                 statement_date := midnight 2024 3 15 |}
              [purchase; deposit] deposit)
    as (content & df & header_idx & header_row & row & Hfs & Hdf & Hf & Hh & Hrow & H).
  - vm_compute. reflexivity.
  - apply list_elem_of_further, list_elem_of_here.
  - injection Hdf as <-.
    assert (header_idx = 9%nat) as -> by exact (first_label_row_unique _ _ _ _ Hf cartola_header_row).
    injection Hh as <-. exists row. split; [exact Hrow|].
    destruct H as (Hd & Hc & _). split; [exact Hd|exact Hc].
Defined.

(** C1, as stated, fails: the second transaction of the sample statement
    has a debit (of zero) and a credit, both populated. *)
Lemma C1_counterexample :
  ∃ metadata,
    extract (one_file "cartola.xls" ole2_bytes) (decoder cartola)
      (midnight 2026 11 4) "cartola.xls"
    = Ok (metadata, [purchase; deposit])
    ∧ debit deposit = Some decimal.zero
    ∧ credit deposit = Some (decimal.of_Z 5)
    ∧ one_positive_or_neither deposit = false.
Proof. eexists. split_and!; [vm_compute; reflexivity|reflexivity..]. Qed.

(** A text in which [_parse_amount] finds no number: what is left of it
    after the commas, the periods and the surrounding white space are
    removed is empty or is not accepted by [Decimal]. *)
Definition no_number (s : string) : Prop := decimal.of_str (amount_text s) = None.

Lemma parse_amount_no_number s : no_number s → _parse_amount (Text s) = Ok decimal.zero.
Proof. intros H. rewrite parse_amount_text. unfold no_number in H. by rewrite H. Qed.

Lemma optional_amount_no_number c s :
  c = Text s → no_number s → optional_amount c = Some decimal.zero.
Proof.
  intros -> H. unfold optional_amount, amount_of.
  by rewrite parse_amount_no_number.
Qed.

(** The transaction of the statement with the debit "Infinity". *)
Definition purchase_infinity : BancoChileTransaction :=
  {| date := midnight 2024 1 5; description := "Compra Tienda X"; channel := "App";
     debit := Some (decimal.Infinity false); credit := None;
     balance := decimal.of_Z 485000 |}.

(** C10, as amended.  In a row that gives a transaction, a debit or
    credit cell that holds a text in which [Decimal] finds no number once
    the commas, the periods and the surrounding white space are removed (a
    blank text, a dash) gives a populated amount of zero, and an empty cell
    gives an absent amount; the two differ, and a transaction with a
    populated debit of zero is returned by [extract] for the sample
    statement. *)
Theorem C10_zero_is_not_absent :
  (∀ df cols row t,
     try_row df cols row = Ok (Some t) →
     (∀ s, nth (debit_col cols) row Blank = Text s → no_number s →
           debit t = Some decimal.zero)
     ∧ (∀ s, nth (credit_col cols) row Blank = Text s → no_number s →
             credit t = Some decimal.zero)
     ∧ (nth (debit_col cols) row Blank = Blank → debit t = None)
     ∧ (nth (credit_col cols) row Blank = Blank → credit t = None))
  ∧ no_number " " ∧ no_number "-" ∧ no_number ""
  ∧ Some decimal.zero ≠ (None : option Decimal)
  ∧ (∃ metadata t,
       extract (one_file "cartola.xls" ole2_bytes) (decoder cartola)
         (midnight 2026 11 4) "cartola.xls"
       = Ok (metadata, [purchase; t])
       ∧ debit t = Some decimal.zero).
Proof.
  split_and!; try done.
  - intros df cols row t (_ & date & _ & _ & _ & ->)%try_row_inv.
    cbn [debit credit row_transaction]. split_and!.
    + apply optional_amount_no_number.
    + apply optional_amount_no_number.
    + by intros ->.
    + by intros ->.
  - eexists _, deposit. split; [vm_compute; reflexivity|reflexivity].
Qed.

Lemma C10_zero_is_not_absent_witness :
  debit deposit = Some decimal.zero ∧ credit purchase = None.
Proof.
  pose proof C10_zero_is_not_absent as (H & _).
  split.
  - destruct (H cartola (detected_columns cartola_header 7)
                [Blank; Text "04/01/2024"; Text "Abono"; Blank; Text "-"; Int 5;
                 Text "500.000"] deposit eq_refl) as (Hd & _).
    apply (Hd "-"); reflexivity.
  - destruct (H cartola (detected_columns cartola_header 7)
                [Blank; Text "05/01/2024"; Text "Compra Tienda X"; Text "App"; Int 15000;
                 Blank; Text "485000"] purchase eq_refl) as (_ & _ & _ & Hc).
    apply Hc. reflexivity.
Defined.


(** C10, as stated, fails: the text "Infinity" has no digit, and as the
    debit cell of a transaction row it gives a populated debit that is
    infinite, not zero. *)
Lemma C10_counterexample :
  digits_of "Infinity" = ""
  ∧ _parse_amount (Text "Infinity") = Ok (decimal.Infinity false)
  ∧ _extract_transactions cartola_infinity = Ok [purchase_infinity]
  ∧ debit purchase_infinity ≠ Some decimal.zero.
Proof. split_and!; [vm_compute; reflexivity..|discriminate]. Qed.

(** ** Metadata: where the values are read *)

(** The cell at row [r] and column [c]; empty outside the stored rows. *)
Definition cell_at (df : DataFrame) (r c : nat) : cell :=
  match pd.rows df !! r with
  | Some row => nth c row Blank
  | None => Blank
  end.

(** The column of the value of a label in row [r]: the first column right
    of column 1 whose cell is not empty, column 2 when there is none. *)
Definition value_column (df : DataFrame) (r : nat) : nat :=
  default 2%nat
    (head (filter (fun c => pd.isna (cell_at df r c) = false)
             (seq 2 (pd.ncols df - 2)))).

(** The columns of row [r] whose cell is not empty and, stripped, starts
    with [header], left to right. *)
Definition header_columns (df : DataFrame) (r : nat) (header : string) : list nat :=
  filter (fun c => negb (pd.isna (cell_at df r c))
                   && Str.startswith header (Str.strip (str (cell_at df r c))) = true)
    (seq 0 (pd.ncols df)).

(** The column of the second value of a block: the first column of the
    header row [r] with the text [header], column 2 when there is none. *)
Definition second_column (df : DataFrame) (r : nat) (header : string) : nat :=
  default 2%nat (head (header_columns df r header)).

(** The date texts of row [r]: for each cell that is not empty and holds a
    DD/MM/YYYY text, its leftmost such text; cells left to right. *)
Definition date_texts (df : DataFrame) (r : nat) : list string :=
  omap (fun c => if pd.isna (cell_at df r c) then None
                 else re.search_date (str (cell_at df r c)))
    (seq 0 (pd.ncols df)).

Section Lookups.

Implicit Types (df : DataFrame) (r c : nat).

Lemma iloc_cell_at df r c :
  (r < pd.len df)%nat → (c < pd.ncols df)%nat → pd.iloc df r c = Ok (cell_at df r c).
Proof.
  unfold pd.len, pd.iloc, cell_at. intros Hr Hc.
  destruct (lookup_lt_is_Some_2 _ _ Hr) as [row ->].
  by apply Nat.ltb_lt in Hc as ->.
Qed.

Lemma iloc_inv df r c v :
  pd.iloc df r c = Ok v → (r < pd.len df)%nat ∧ (c < pd.ncols df)%nat ∧ v = cell_at df r c.
Proof.
  unfold pd.len, pd.iloc, cell_at. destruct (pd.rows df !! r) as [row|] eqn:E; [|done].
  apply lookup_lt_Some in E. destruct (Nat.ltb_spec c (pd.ncols df)); [|done].
  by intros [= <-].
Qed.

Lemma find_value_loop_eq df r cols :
  (r < pd.len df)%nat → Forall (fun c => c < pd.ncols df)%nat cols →
  find_value_loop df r cols
  = Ok (head (filter (fun c => pd.isna (cell_at df r c) = false) cols)).
Proof.
  intros Hr Hc. induction Hc as [|c cols Hc _ IH]; [done|].
  cbn [find_value_loop]. rewrite iloc_cell_at by done. cbn [mbind result_bind].
  rewrite filter_cons. destruct (pd.isna (cell_at df r c)) eqn:E; cbn [negb].
  - rewrite decide_False by done. apply IH.
  - by rewrite decide_True.
Qed.

Lemma Forall_seq_lt a m : Forall (fun c => c < m)%nat (seq a (m - a)).
Proof. apply Forall_forall. intros c Hc%elem_of_seq. lia. Qed.

Lemma find_value_column_eq df r :
  (r < pd.len df)%nat → _find_value_column df r 1 = Ok (value_column df r).
Proof.
  intros Hr. unfold _find_value_column, value_column.
  change (1 + 1)%nat with 2%nat.
  rewrite find_value_loop_eq by (done || apply Forall_seq_lt).
  cbn [mbind result_bind]. by destruct (head _).
Qed.

Lemma value_column_ge df r : (2 ≤ value_column df r)%nat.
Proof.
  unfold value_column. destruct (head _) as [c|] eqn:E; cbn; [|lia].
  apply head_Some_elem_of, list_elem_of_filter in E as [_ E].
  apply elem_of_seq in E. lia.
Qed.

Lemma value_column_lt df r : (2 < pd.ncols df)%nat → (value_column df r < pd.ncols df)%nat.
Proof.
  intros Hn. unfold value_column. destruct (head _) as [c|] eqn:E; cbn; [|lia].
  apply head_Some_elem_of, list_elem_of_filter in E as [_ E].
  apply elem_of_seq in E. lia.
Qed.

Lemma find_header_loop_eq df r header cols :
  (r < pd.len df)%nat → Forall (fun c => c < pd.ncols df)%nat cols →
  find_header_loop df r header cols
  = Ok (head (filter
                (fun c => negb (pd.isna (cell_at df r c))
                          && Str.startswith header (Str.strip (str (cell_at df r c)))
                          = true) cols)).
Proof.
  intros Hr Hc. induction Hc as [|c cols Hc _ IH]; [done|].
  cbn [find_header_loop]. rewrite iloc_cell_at by done. cbn [mbind result_bind].
  rewrite filter_cons. destruct (negb _ && _) eqn:E.
  - by rewrite decide_True.
  - rewrite decide_False by done. apply IH.
Qed.

Lemma find_header_column_eq df r header :
  (r < pd.len df)%nat →
  _find_header_column df r header = Ok (head (header_columns df r header)).
Proof.
  intros Hr. unfold _find_header_column, header_columns.
  apply find_header_loop_eq; [done|].
  pose proof (Forall_seq_lt 0 (pd.ncols df)) as H. by rewrite Nat.sub_0_r in H.
Qed.

Lemma second_column_lt df r header :
  (2 < pd.ncols df)%nat → (second_column df r header < pd.ncols df)%nat.
Proof.
  intros Hn. unfold second_column, header_columns.
  destruct (head _) as [c|] eqn:E; cbn; [|lia].
  apply head_Some_elem_of, list_elem_of_filter in E as [_ E].
  apply elem_of_seq in E. lia.
Qed.

Lemma statement_date_loop_eq df r cols :
  (r < pd.len df)%nat → Forall (fun c => c < pd.ncols df)%nat cols →
  statement_date_loop df r cols
  = match head (omap (fun c => if pd.isna (cell_at df r c) then None
                               else re.search_date (str (cell_at df r c))) cols) with
    | Some g =>
        match strptime g with
        | Some d => Ok (Some d)
        | None => Raise (ValueError "time data does not match format")
        end
    | None => Ok None
    end.
Proof.
  intros Hr Hc. induction Hc as [|c cols Hc _ IH]; [done|].
  cbn [statement_date_loop omap list_omap]. rewrite iloc_cell_at by done.
  cbn [mbind result_bind].
  destruct (pd.isna (cell_at df r c)); [apply IH|].
  destruct (re.search_date _) as [g|]; [done|apply IH].
Qed.

End Lookups.

(** ** Metadata: the whole record *)

(** The rows of the labels of a statement. *)
Record layout : Type := {
  holder_idx : nat; rut_idx : nat; account_idx : nat; currency_idx : nat;
  balance_idx : nat; totals_idx : nat; movements_idx : nat
}.

(** Every label has a first row. *)
Definition located (df : DataFrame) (l : layout) : Prop :=
  first_label_row df "Sr(a)" (holder_idx l)
  ∧ first_label_row df "Rut:" (rut_idx l)
  ∧ first_label_row df "Cuenta" (account_idx l)
  ∧ first_label_row df "Moneda:" (currency_idx l)
  ∧ first_label_row df "Saldo Disponible" (balance_idx l)
  ∧ first_label_row df "Total Cargos" (totals_idx l)
  ∧ first_label_row df "Movimientos" (movements_idx l).

(** The four amount cells of the metadata, in the order in which they
    are parsed. *)
Definition balance_cells (df : DataFrame) (l : layout) : list cell :=
  [ cell_at df (balance_idx l + 1) 1;
    cell_at df (balance_idx l + 1) (second_column df (balance_idx l) "Saldo Contable") ].

Definition totals_cells (df : DataFrame) (l : layout) : list cell :=
  [ cell_at df (totals_idx l + 1) 1;
    cell_at df (totals_idx l + 1) (second_column df (totals_idx l) "Total Abonos") ].

(** The exception that reading the values raises, if any: [IndexError]
    when the frame has no column 2 or no row below a block header,
    [InvalidOperation] when an amount cell is a [bool]; in the order of the
    source. *)
Definition values_error (df : DataFrame) (l : layout) : option exn :=
  if negb (2 <? pd.ncols df)%nat then Some IndexError
  else if negb (balance_idx l + 1 <? pd.len df)%nat then Some IndexError
  else if existsb is_bool (balance_cells df l) then Some InvalidOperation
  else if negb (totals_idx l + 1 <? pd.len df)%nat then Some IndexError
  else if existsb is_bool (totals_cells df l) then Some InvalidOperation
  else None.

(** The cells that are read lie in the frame and no amount cell is a
    [bool]: there is a column 2, and a row of amounts below each of the two
    block headers. *)
Definition values_in_frame (df : DataFrame) (l : layout) : bool :=
  match values_error df l with
  | None => true
  | Some _ => false
  end.

(** The metadata of a statement with the layout [l], but for its date. *)
Definition metadata_at (df : DataFrame) (l : layout) (statement_date : datetime)
    : BancoChileMetadata :=
  {| account_holder := str (cell_at df (holder_idx l) (value_column df (holder_idx l)));
     rut := str (cell_at df (rut_idx l) (value_column df (rut_idx l)));
     account_number := str (cell_at df (account_idx l) (value_column df (account_idx l)));
     currency := "CLP";
     available_balance := amount_of (cell_at df (balance_idx l + 1) 1);
     accounting_balance :=
       amount_of (cell_at df (balance_idx l + 1)
                    (second_column df (balance_idx l) "Saldo Contable"));
     total_debits := amount_of (cell_at df (totals_idx l + 1) 1);
     total_credits :=
       amount_of (cell_at df (totals_idx l + 1)
                    (second_column df (totals_idx l) "Total Abonos"));
     statement_date := statement_date |}.

(** The statement date: the first date text of the "Movimientos" row,
    parsed, or [now] when the row has none.  [None] is the [ValueError] of
    a date text that is not a date. *)
Definition statement_date_of (now : datetime) (df : DataFrame) (l : layout)
    : option datetime :=
  match head (date_texts df (movements_idx l)) with
  | Some g => strptime g
  | None => Some now
  end.

Section Metadata.

Implicit Types (df : DataFrame) (l : layout) (now : datetime).

Lemma first_label_row_lt df label i : first_label_row df label i → (i < pd.len df)%nat.
Proof. intros [_ (row & Hi & _)]. by apply lookup_lt_Some in Hi. Qed.

Lemma iloc_out df r c :
  ¬ ((r < pd.len df)%nat ∧ (c < pd.ncols df)%nat) → pd.iloc df r c = Raise IndexError.
Proof.
  intros H. unfold pd.iloc. destruct (pd.rows df !! r) as [row|] eqn:E; [|done].
  apply lookup_lt_Some in E. destruct (Nat.ltb_spec c (pd.ncols df)); [|done].
  by destruct H.
Qed.

Lemma second_column_head df r header :
  match head (header_columns df r header) with
  | Some col => col
  | None => 2%nat
  end = second_column df r header.
Proof. unfold second_column. by destruct (head _). Qed.

(** What [_extract_metadata] returns for a statement whose labels are all
    present. *)
Lemma extract_metadata_located now df l :
  located df l →
  _extract_metadata now df
  = match values_error df l with
    | Some e => Raise e
    | None =>
        match statement_date_of now df l with
        | Some d => Ok (metadata_at df l d)
        | None => Raise (ValueError "time data does not match format")
        end
    end.
Proof.
  intros (H1 & H2 & H3 & H4 & H5 & H6 & H7).
  pose proof (first_label_row_lt _ _ _ H1). pose proof (first_label_row_lt _ _ _ H2).
  pose proof (first_label_row_lt _ _ _ H3). pose proof (first_label_row_lt _ _ _ H5).
  pose proof (first_label_row_lt _ _ _ H6). pose proof (first_label_row_lt _ _ _ H7).
  apply first_label_row_rows in H1 as [? E1], H2 as [? E2], H3 as [? E3], H4 as [? E4],
    H5 as [? E5], H6 as [? E6], H7 as [? E7].
  unfold _extract_metadata, values_error, balance_cells, totals_cells.
  rewrite E1. cbn [first_row mbind result_bind]. rewrite find_value_column_eq by done.
  cbn [mbind result_bind].
  destruct (Nat.ltb_spec 2 (pd.ncols df)) as [Hn|Hn]; cbn [negb].
  2:{ rewrite iloc_out; [done|]. pose proof (value_column_ge df (holder_idx l)). lia. }
  rewrite iloc_cell_at by auto using value_column_lt. cbn [mbind result_bind].
  rewrite E2. cbn [first_row mbind result_bind]. rewrite find_value_column_eq by done.
  cbn [mbind result_bind].
  rewrite iloc_cell_at by auto using value_column_lt. cbn [mbind result_bind].
  rewrite E3. cbn [first_row mbind result_bind]. rewrite find_value_column_eq by done.
  cbn [mbind result_bind].
  rewrite iloc_cell_at by auto using value_column_lt. cbn [mbind result_bind].
  rewrite E4. cbn [first_row mbind result_bind].
  rewrite E5. cbn [first_row mbind result_bind].
  destruct (Nat.ltb_spec (balance_idx l + 1) (pd.len df)) as [Hb|Hb]; cbn [negb].
  2:{ rewrite iloc_out; [done|]. lia. }
  rewrite iloc_cell_at by (done || lia). cbn [mbind result_bind].
  rewrite parse_amount_eq. cbn [existsb].
  destruct (is_bool (cell_at df (balance_idx l + 1) 1)); [done|].
  cbn [mbind result_bind orb].
  rewrite find_header_column_eq by done. cbn [mbind result_bind].
  rewrite second_column_head.
  rewrite iloc_cell_at by auto using second_column_lt. cbn [mbind result_bind].
  rewrite parse_amount_eq.
  destruct (is_bool (cell_at df (balance_idx l + 1) _)); [done|].
  cbn [mbind result_bind orb].
  rewrite E6. cbn [first_row mbind result_bind].
  destruct (Nat.ltb_spec (totals_idx l + 1) (pd.len df)) as [Ht|Ht]; cbn [negb].
  2:{ rewrite iloc_out; [done|]. lia. }
  rewrite iloc_cell_at by (done || lia). cbn [mbind result_bind].
  rewrite parse_amount_eq.
  destruct (is_bool (cell_at df (totals_idx l + 1) 1)); [done|].
  cbn [mbind result_bind orb].
  rewrite find_header_column_eq by done. cbn [mbind result_bind].
  rewrite second_column_head.
  rewrite iloc_cell_at by auto using second_column_lt. cbn [mbind result_bind].
  rewrite parse_amount_eq.
  destruct (is_bool (cell_at df (totals_idx l + 1) _)); [done|].
  cbn [mbind result_bind orb].
  rewrite E7. cbn [first_row mbind result_bind].
  rewrite statement_date_loop_eq
    by (done || pose proof (Forall_seq_lt 0 (pd.ncols df)) as HF;
        by rewrite Nat.sub_0_r in HF).
  unfold statement_date_of. fold (date_texts df (movements_idx l)).
  destruct (head (date_texts df (movements_idx l))) as [g|]; [|done].
  by destruct (strptime g).
Qed.

(** A statement whose values can be read. *)
Lemma extract_metadata_in_frame now df l :
  located df l → values_in_frame df l = true →
  _extract_metadata now df
  = match statement_date_of now df l with
    | Some d => Ok (metadata_at df l d)
    | None => Raise (ValueError "time data does not match format")
    end.
Proof.
  intros Hl Hv. rewrite (extract_metadata_located _ _ _ Hl).
  unfold values_in_frame in Hv. by destruct (values_error df l).
Qed.


(** When [_extract_metadata] returns, every label has a first row. *)
Lemma extract_metadata_Ok_located now df metadata :
  _extract_metadata now df = Ok metadata → ∃ l, located df l.
Proof.
  unfold _extract_metadata. intros H.
  repeat match type of H with
  | context [label_rows df ?label] =>
      let E := fresh "E" in
      destruct (label_rows df label) as [[|? ?]|?] eqn:E; [done| |done];
      apply label_rows_first in E; cbn [first_row mbind result_bind] in H
  | (?m ≫= _) = Ok _ =>
      destruct m; [|done]; cbn [mbind result_bind] in H
  end.
  eexists (Build_layout _ _ _ _ _ _ _). unfold located.
  cbn [holder_idx rut_idx account_idx currency_idx balance_idx totals_idx movements_idx].
  split_and!; eassumption.
Qed.

Lemma located_unique df l l' : located df l → located df l' → l = l'.
Proof.
  destruct l, l'. intros (?&?&?&?&?&?&?) (?&?&?&?&?&?&?). cbn in *.
  f_equal; by eapply first_label_row_unique.
Qed.

End Metadata.

(** ** Metadata: the values of the labels and of the blocks *)




Section Values.

Implicit Types (df : DataFrame) (l : layout) (now : datetime).

Lemma head_filter_seq (P : nat → Prop) `{!∀ x, Decision (P x)} a n :
  match head (filter P (seq a n)) with
  | Some c => (a ≤ c < a + n)%nat ∧ P c ∧ ∀ c', (a ≤ c' < c)%nat → ¬ P c'
  | None => ∀ c', (a ≤ c' < a + n)%nat → ¬ P c'
  end.
Proof.
  revert a. induction n as [|n IH]; intros a; cbn [seq]; [intros c'; lia|].
  rewrite filter_cons. destruct (decide (P a)) as [Ha|Ha]; cbn [head].
  - split; [lia|split; [done|intros c'; lia]].
  - specialize (IH (S a)). destruct (head _) as [c|].
    + destruct IH as (Hc & HP & Hlt). split; [lia|split; [done|]].
      intros c' Hc'. destruct (decide (c' = a)) as [->|]; [done|]. apply Hlt. lia.
    + intros c' Hc'. destruct (decide (c' = a)) as [->|]; [done|]. apply IH. lia.
Qed.



(** What a successful [_extract_metadata] has read. *)
Lemma extract_metadata_inv now df metadata :
  _extract_metadata now df = Ok metadata →
  ∃ l d, located df l
    ∧ values_in_frame df l = true
    ∧ statement_date_of now df l = Some d
    ∧ metadata = metadata_at df l d.
Proof.
  intros H. destruct (extract_metadata_Ok_located _ _ _ H) as [l Hl].
  rewrite (extract_metadata_located _ _ _ Hl) in H.
  assert (Hv : values_in_frame df l = true).
  { unfold values_in_frame. by destruct (values_error df l). }
  destruct (values_error df l); [done|].
  destruct (statement_date_of now df l) as [d|] eqn:Hd; [|done].
  injection H as <-. exists l, d. by split_and!.
Qed.

Lemma label_rows_cases df label :
  (1 < pd.ncols df)%nat →
  (label_rows df label = Ok [] ∧ no_label_row df label)
  ∨ (∃ i rest, label_rows df label = Ok (i :: rest) ∧ first_label_row df label i).
Proof.
  intros Hn. destruct (label_rows df label) as [[|i rest]|e] eqn:E.
  - left. split; [done|]. by apply label_rows_none.
  - right. exists i, rest. split; [done|]. by apply (label_rows_first _ _ _ rest).
  - rewrite label_rows_eq in E. apply Nat.ltb_lt in Hn. by rewrite Hn in E.
Qed.

Lemma no_label_row_first df label i :
  no_label_row df label → first_label_row df label i → False.
Proof.
  intros Hno [_ (row & Hi & Hp & _)].
  rewrite (Hno row) in Hp; [done|]. by eapply list_elem_of_lookup_2.
Qed.


End Values.


Lemma cartola_located :
  located cartola
    {| holder_idx := 0; rut_idx := 1; account_idx := 2; currency_idx := 3;
       balance_idx := 4; totals_idx := 6; movements_idx := 8 |}.
Proof. repeat split; try (by apply (label_rows_first _ _ _ [])); cbn; lia. Qed.




(** ** The statement date *)

(** No cell of row [r] holds a DD/MM/YYYY text. *)
Definition no_date_text (df : DataFrame) (r : nat) : Prop :=
  ∀ c, (c < pd.ncols df)%nat →
       pd.isna (cell_at df r c) = true ∨ re.search_date (str (cell_at df r c)) = None.

(** [g] is the date text that the scan of row [r] finds: the leftmost
    DD/MM/YYYY text of the first cell, from the left, that holds one. *)
Definition first_date_text (df : DataFrame) (r : nat) (g : string) : Prop :=
  ∃ c, (c < pd.ncols df)%nat
    ∧ pd.isna (cell_at df r c) = false
    ∧ re.search_date (str (cell_at df r c)) = Some g
    ∧ ∀ c', (c' < c)%nat →
        pd.isna (cell_at df r c') = true ∨ re.search_date (str (cell_at df r c')) = None.

Lemma head_omap_seq {A} (f : nat → option A) a n :
  match head (omap f (seq a n)) with
  | Some x => ∃ c, (a ≤ c < a + n)%nat ∧ f c = Some x ∧ ∀ c', (a ≤ c' < c)%nat → f c' = None
  | None => ∀ c', (a ≤ c' < a + n)%nat → f c' = None
  end.
Proof.
  revert a. induction n as [|n IH]; intros a; cbn [seq omap list_omap]; [intros c'; lia|].
  destruct (f a) as [x|] eqn:Ha; cbn [head].
  - exists a. split; [lia|split; [done|intros c'; lia]].
  - specialize (IH (S a)). destruct (head _) as [x|].
    + destruct IH as (c & Hc & Hf & Hlt). exists c. split; [lia|split; [done|]].
      intros c' Hc'. destruct (decide (c' = a)) as [->|]; [done|]. apply Hlt. lia.
    + intros c' Hc'. destruct (decide (c' = a)) as [->|]; [done|]. apply IH. lia.
Qed.

Lemma date_texts_head df r :
  match head (date_texts df r) with
  | Some g => first_date_text df r g
  | None => no_date_text df r
  end.
Proof.
  unfold date_texts.
  pose proof (head_omap_seq
                (fun c => if pd.isna (cell_at df r c) then None
                          else re.search_date (str (cell_at df r c))) 0 (pd.ncols df)) as H.
  destruct (head _) as [g|].
  - destruct H as (c & Hc & Hf & Hlt). exists c.
    destruct (pd.isna (cell_at df r c)) eqn:E; [done|].
    split; [lia|split; [done|split; [done|]]].
    intros c' Hc'. specialize (Hlt c'). destruct (pd.isna (cell_at df r c')); [by left|].
    right. apply Hlt. lia.
  - intros c Hc. specialize (H c). destruct (pd.isna (cell_at df r c)); [by left|].
    right. apply H. lia.
Qed.

Lemma no_date_text_head df r : no_date_text df r → head (date_texts df r) = None.
Proof.
  intros Hno. pose proof (date_texts_head df r) as H.
  destruct (head _) as [g|]; [|done].
  destruct H as (c & Hc & Hna & Hs & _). destruct (Hno c Hc) as [E|E]; congruence.
Qed.

(** C8, as amended.  When the metadata are extracted, the statement date
    is read in the first row whose column 1 starts with "Movimientos": it
    is the first DD/MM/YYYY text found in the cells of that row, left to
    right, read as day, month and year; so "Movimientos al 15/03/2024" gives
    2024-03-15.  When no cell of the row holds such a text the date is the
    current date, and the extraction of a statement whose labels and values
    are in place does not fail. *)
Theorem C8_statement_date now df :
  (∀ metadata, _extract_metadata now df = Ok metadata →
     ∃ movements_row,
       first_label_row df "Movimientos" movements_row
       ∧ ((∃ g, first_date_text df movements_row g
                ∧ strptime g = Some (statement_date metadata))
          ∨ (no_date_text df movements_row ∧ statement_date metadata = now)))
  ∧ (∀ l, located df l → values_in_frame df l = true →
       no_date_text df (movements_idx l) →
       ∃ metadata, _extract_metadata now df = Ok metadata
                   ∧ statement_date metadata = now)
  ∧ (re.search_date "Movimientos al 15/03/2024" = Some "15/03/2024"
     ∧ strptime "15/03/2024" = Some (midnight 2024 3 15)).
Proof.
  split_and!.
  - intros metadata (l & d & Hl & _ & Hd & ->)%extract_metadata_inv.
    exists (movements_idx l). split; [apply Hl|].
    unfold statement_date_of in Hd. pose proof (date_texts_head df (movements_idx l)) as H.
    destruct (head _) as [g|].
    + left. by exists g.
    + right. by injection Hd as <-.
  - intros l Hl Hv Hno. rewrite (extract_metadata_in_frame _ _ _ Hl Hv).
    unfold statement_date_of. rewrite no_date_text_head by done. by eexists.
  - done.
  - done.
Qed.

Lemma cartola_undated_located :
  located cartola_undated
    {| holder_idx := 0; rut_idx := 1; account_idx := 2; currency_idx := 3;
       balance_idx := 4; totals_idx := 6; movements_idx := 8 |}.
Proof. repeat split; try (by apply (label_rows_first _ _ _ [])); cbn; lia. Qed.

Lemma cartola_undated_no_date_text : no_date_text cartola_undated 8.
Proof.
  intros c Hc. cbn in Hc.
  do 7 (destruct c as [|c]; [by (left + right)|]). lia.
Qed.

Lemma C8_statement_date_witness :
  ∃ metadata, _extract_metadata (midnight 2026 11 4) cartola_undated = Ok metadata
              ∧ statement_date metadata = midnight 2026 11 4.
Proof.
  pose proof (C8_statement_date (midnight 2026 11 4) cartola_undated) as (_ & H & _).
  apply (H _ cartola_undated_located eq_refl cartola_undated_no_date_text).
Defined.

(** The same statement with a date text that is not a date of the
    calendar in its "Movimientos" row. *)
Definition cartola_misdated : DataFrame :=
  {| pd.ncols := 7;
     pd.rows := cartola_head "Movimientos al 31/02/2024" ++ cartola_header :: cartola_rows |}.

(** C8, as stated, fails: a frame with a "Movimientos" row without a date
    text and no other label makes the extraction raise, and so does a
    complete statement whose "Movimientos" row holds the text 31/02/2024. *)
Lemma C8_counterexample :
  (first_label_row movements_only "Movimientos" 0
   ∧ no_date_text movements_only 0
   ∧ _extract_metadata (midnight 2026 11 4) movements_only
     = Raise (ValueError "Could not find account holder information"))
  ∧ (first_label_row cartola_misdated "Movimientos" 8
     ∧ first_date_text cartola_misdated 8 "31/02/2024"
     ∧ strptime "31/02/2024" = None
     ∧ ∃ msg, _extract_metadata (midnight 2026 11 4) cartola_misdated
              = Raise (ValueError msg)).
Proof.
  split; split_and!.
  - by apply (label_rows_first _ _ _ []).
  - intros c Hc. cbn in Hc. do 3 (destruct c as [|c]; [by (left + right)|]). lia.
  - vm_compute. reflexivity.
  - by apply (label_rows_first _ _ _ []).
  - exists 1%nat. split_and!; [cbn; lia|done|vm_compute; reflexivity|].
    intros c' Hc'. assert (c' = 0%nat) as -> by lia. by left.
  - vm_compute. reflexivity.
  - eexists. vm_compute. reflexivity.
Qed.
(** ** Two calls on the same file *)

(** [metadata] with another statement date. *)
Definition with_statement_date (d : datetime) (metadata : BancoChileMetadata)
    : BancoChileMetadata :=
  {| account_holder := account_holder metadata;
     rut := rut metadata;
     account_number := account_number metadata;
     currency := currency metadata;
     available_balance := available_balance metadata;
     accounting_balance := accounting_balance metadata;
     total_debits := total_debits metadata;
     total_credits := total_credits metadata;
     statement_date := d |}.

Lemma bind_Raise {A B} (m : result A) (f : A → result B) e :
  m ≫= f = Raise e → m = Raise e ∨ ∃ x, m = Ok x ∧ f x = Raise e.
Proof.
  destruct m as [x|e']; cbn [mbind result_bind]; intros H;
    [right; by exists x|left; congruence].
Qed.

(** An exception of [_extract_metadata] does not depend on the time of
    the call. *)
Lemma extract_metadata_Raise_now now now' df e :
  _extract_metadata now df = Raise e → _extract_metadata now' df = Raise e.
Proof.
  unfold _extract_metadata. intros H.
  repeat (apply bind_Raise in H as [H|(? & Hx & H)];
          [rewrite H; reflexivity|rewrite Hx; clear Hx; cbn [mbind result_bind]]).
  discriminate H.
Qed.

(** The metadata of two calls differ at most in a statement date that is
    the time of the call. *)
Lemma extract_metadata_now now now' df metadata :
  _extract_metadata now df = Ok metadata →
  ∃ movements_row,
    first_label_row df "Movimientos" movements_row
    ∧ ((∃ g, first_date_text df movements_row g)
       ∧ _extract_metadata now' df = Ok metadata
       ∨ no_date_text df movements_row
         ∧ statement_date metadata = now
         ∧ _extract_metadata now' df = Ok (with_statement_date now' metadata)).
Proof.
  intros (l & d & Hl & Hv & Hd & ->)%extract_metadata_inv.
  exists (movements_idx l). split; [apply Hl|].
  rewrite (extract_metadata_in_frame now' _ _ Hl Hv).
  unfold statement_date_of in *.
  pose proof (date_texts_head df (movements_idx l)) as H.
  destruct (head _) as [g|].
  - left. split; [by exists g|]. by rewrite Hd.
  - right. by injection Hd as <-.
Qed.

(** C9, as amended.  Two calls of [extract] on the same file, at the times
    [now] and [now'], raise the same exception or return the same
    transactions; the metadata are the same when the "Movimientos" row
    holds a date text, and differ only in the statement date, which is the
    time of each call, when it holds none. *)
Theorem C9_two_calls fs read_excel now now' filepath :
  match extract fs read_excel now filepath with
  | Ok (metadata, transactions) =>
      ∃ content df movements_row,
        fs filepath = Some content
        ∧ read_excel content (engine_of content) = Ok df
        ∧ first_label_row df "Movimientos" movements_row
        ∧ ((∃ g, first_date_text df movements_row g)
           ∧ extract fs read_excel now' filepath = Ok (metadata, transactions)
           ∨ no_date_text df movements_row
             ∧ statement_date metadata = now
             ∧ extract fs read_excel now' filepath
               = Ok (with_statement_date now' metadata, transactions))
  | Raise e => extract fs read_excel now' filepath = Raise e
  end.
Proof.
  destruct (fs filepath) as [content|] eqn:Hfs.
  2:{ unfold extract, _detect_excel_engine, read_bytes. by rewrite Hfs. }
  destruct (read_excel content (engine_of content)) as [df|e] eqn:Hdf.
  2:{ rewrite !(extract_content _ _ _ _ content Hfs). by rewrite Hdf. }
  rewrite !(extract_decoded _ _ _ _ content df) by done.
  destruct (_extract_metadata now df) as [metadata|e] eqn:Hmd.
  2:{ by rewrite (extract_metadata_Raise_now _ now' _ _ Hmd). }
  cbn [mbind result_bind].
  destruct (extract_metadata_now _ now' _ _ Hmd) as (mr & Hmr & H).
  destruct (_extract_transactions df) as [transactions|e] eqn:Htx; cbn [mbind result_bind].
  - exists content, df, mr. split_and!; try done.
    destruct H as [(Hg & ->)|(Hno & Hsd & ->)]; [by left|by right].
  - by destruct H as [(_ & ->)|(_ & _ & ->)].
Qed.

(** C9, as stated, fails: the statement without a date text gives another
    statement date when it is extracted a day later. *)
Lemma C9_counterexample :
  statement_date <$> (fst <$>
    extract (one_file "cartola.xls" ole2_bytes) (decoder cartola_undated)
      (midnight 2026 11 4) "cartola.xls")
  = Ok (midnight 2026 11 4)
  ∧ statement_date <$> (fst <$>
      extract (one_file "cartola.xls" ole2_bytes) (decoder cartola_undated)
        (midnight 2026 11 5) "cartola.xls")
    = Ok (midnight 2026 11 5)
  ∧ extract (one_file "cartola.xls" ole2_bytes) (decoder cartola_undated)
      (midnight 2026 11 4) "cartola.xls"
    ≠ extract (one_file "cartola.xls" ole2_bytes) (decoder cartola_undated)
        (midnight 2026 11 5) "cartola.xls".
Proof.
  split_and!; [vm_compute; reflexivity..|].
  intros H. apply (f_equal (fmap (M:=result) fst)) in H.
  apply (f_equal (fmap (M:=result) statement_date)) in H.
  vm_compute in H. discriminate H.
Qed.
(** * Further properties of the extractor *)

(** ** Integers that reach [_parse_amount] as text *)

Section IntegerText.

Implicit Types (c : ascii) (s : string) (z : Z).

Lemma remove_digits c s :
  Str.isdigit c = false → Str.all_digits s = true → Str.remove c s = s.
Proof.
  intros Hc. induction s as [|d s IH]; [done|]. cbn [Str.all_digits Str.remove].
  intros [Hd Hs]%andb_true_iff. rewrite (IH Hs).
  destruct (Ascii.eqb_spec c d) as [->|]; [congruence|done].
Qed.

Lemma remove_str_int c z :
  Str.isdigit c = false → c ≠ "-"%char → Str.remove c (str_int z) = str_int z.
Proof.
  intros Hc Hm. rewrite str_int_sign.
  pose proof (all_digits_str_nat (Z.to_N (Z.abs z))) as Hd.
  destruct (z <? 0).
  - rewrite sapp_cons, sapp_nil_l. cbn [Str.remove].
    destruct (Ascii.eqb_spec c "-") as [->|_]; [done|].
    by rewrite remove_digits.
  - rewrite sapp_nil_l. by rewrite remove_digits.
Qed.

Lemma plain_str_int z : plain (str_int z) = true.
Proof.
  rewrite str_int_sign.
  pose proof (all_digits_plain _ (all_digits_str_nat (Z.to_N (Z.abs z)))) as Hd.
  destruct (z <? 0); [|by rewrite sapp_nil_l].
  rewrite sapp_cons, sapp_nil_l. cbn [plain]. by rewrite Hd.
Qed.

Lemma amount_text_str_int z : amount_text (str_int z) = str_int z.
Proof.
  unfold amount_text. rewrite !remove_str_int by done.
  apply strip_plain, plain_str_int.
Qed.

End IntegerText.

(** An integer gives the same amount whether the cell holds it as an [int]
    or as the text of that integer, which is how a [numpy] integer, not an
    instance of [int], goes through [_parse_amount]: the text branch leaves
    the digits and the sign alone. *)
Theorem parse_amount_integer_text z :
  _parse_amount (Text (str (Int z))) = _parse_amount (Int z)
  ∧ _parse_amount (Int z) = Ok (decimal.of_Z z).
Proof.
  rewrite parse_amount_text. cbn [str]. rewrite amount_text_str_int, of_str_int.
  unfold _parse_amount. cbn [pd.isna str]. by rewrite of_str_int.
Qed.

(** ** [_find_value_column] for any label column *)

(** [_find_value_column(df, row_idx, label_col)] on a row of the frame
    returns, for any label column: the first column right of [label_col]
    whose cell is not empty, or [label_col + 1] when there is none, be that
    column in the frame or not. *)
Theorem find_value_column_spec df row_idx label_col :
  (row_idx < pd.len df)%nat →
  ∃ col, _find_value_column df row_idx label_col = Ok col
    ∧ (label_col < col)%nat
    ∧ (((col < pd.ncols df)%nat
        ∧ pd.isna (cell_at df row_idx col) = false
        ∧ ∀ c, (label_col < c < col)%nat → pd.isna (cell_at df row_idx c) = true)
       ∨ (col = (label_col + 1)%nat
          ∧ ∀ c, (label_col < c < pd.ncols df)%nat →
                 pd.isna (cell_at df row_idx c) = true)).
Proof.
  intros Hr. unfold _find_value_column.
  rewrite find_value_loop_eq by (done || apply Forall_seq_lt).
  cbn [mbind result_bind].
  pose proof (head_filter_seq
                (fun c => pd.isna (cell_at df row_idx c) = false)
                (label_col + 1) (pd.ncols df - (label_col + 1))) as H.
  destruct (head _) as [col|].
  - destruct H as (Hc & Hna & Hlt). exists col. split; [done|]. split; [lia|].
    left. split; [lia|]. split; [done|].
    intros c Hc'. apply not_false_is_true, Hlt. lia.
  - eexists. split; [done|]. split; [lia|]. right. split; [done|].
    intros c Hc. apply not_false_is_true, H. lia.
Qed.

Lemma find_value_column_spec_witness :
  ∃ col, _find_value_column cartola 1 1 = Ok col ∧ col = 3%nat.
Proof.
  destruct (find_value_column_spec cartola 1 1) as (col & Hcol & _); [cbn; lia|].
  exists col. split; [exact Hcol|].
  assert (H : _find_value_column cartola 1 1 = Ok 3%nat) by (vm_compute; reflexivity).
  rewrite H in Hcol. by injection Hcol as <-.
Defined.
(** ** The transactions and the rows they come from *)

(** The date cell of the row is not empty. *)
Definition dated (cols : columns) (row : list cell) : bool :=
  negb (pd.isna (date_cell cols row)).

(** A row that ends the table: its date cell is not empty and the body of
    the [try] breaks, at the date pattern or with a [ValueError]. *)
Definition ends_table (df : DataFrame) (cols : columns) (row : list cell) : Prop :=
  dated cols row = true
  ∧ (try_row df cols row = Ok None ∨ ∃ msg, try_row df cols row = Raise (ValueError msg)).

Section RowOrder.

Implicit Types (df : DataFrame) (cols : columns) (row : list cell).

(** What the loop returns: the transactions of the dated rows among the
    first [n] rows, where row [n] ends the table or [n] is the number of
    rows. *)
Lemma loop_dated_prefix df cols rows txs :
  transactions_loop df cols rows = Ok txs →
  ∃ n, Forall2 (fun row t => try_row df cols row = Ok (Some t))
         (filter (fun row => dated cols row = true) (take n rows)) txs
    ∧ (n = length rows ∨ ∃ row, rows !! n = Some row ∧ ends_table df cols row).
Proof.
  revert txs. induction rows as [|row rest IH]; intros txs H.
  { injection H as <-. exists 0%nat. split; [constructor|by left]. }
  cbn [transactions_loop] in H.
  destruct (pd.getitem df row (date_col cols)) as [d|] eqn:Hd; [|done].
  apply getitem_inv in Hd as [_ ->]. cbn [mbind result_bind] in H.
  fold (date_cell cols row) in H.
  destruct (pd.isna (date_cell cols row)) eqn:Hna.
  { destruct (IH _ H) as (n & HF & Hn). exists (S n). cbn [take].
    rewrite filter_cons_False by (unfold dated; by rewrite Hna).
    split; [done|]. destruct Hn as [->|Hn]; [by left|by right]. }
  assert (Hdated : dated cols row = true) by (unfold dated; by rewrite Hna).
  destruct (try_row df cols row) as [[t|]|e] eqn:E.
  - destruct (transactions_loop df cols rest) as [txs'|]; [|done].
    cbn [mbind result_bind] in H. injection H as <-.
    destruct (IH _ eq_refl) as (n & HF & Hn). exists (S n). cbn [take].
    rewrite filter_cons_True by done.
    split; [by constructor|]. destruct Hn as [->|Hn]; [by left|by right].
  - injection H as <-. exists 0%nat. split; [constructor|].
    right. exists row. split; [done|]. split; [done|by left].
  - destruct e; try done. injection H as <-. exists 0%nat. split; [constructor|].
    right. exists row. split; [done|]. split; [done|]. right. by eexists.
Qed.

Lemma Forall2_filter_take_length {A B} (R : A → B → Prop) (P : A → Prop)
    `{!∀ x, Decision (P x)} n (l : list A) (k : list B) :
  Forall2 R (filter P (take n l)) k → (length k ≤ length l)%nat.
Proof.
  intros HF. apply Forall2_length in HF. rewrite <- HF.
  etrans; [apply length_filter|]. rewrite length_take. lia.
Qed.

End RowOrder.

(** The transactions that [_extract_transactions] returns are, in the
    order of the rows, those of the rows with a date cell that come below
    the header and above the first row that ends the table (a dated row
    whose date text has not the pattern or is no date), or above the end of
    the frame; there are no more of them than rows below the header. *)
Theorem transactions_of_dated_rows df txs :
  _extract_transactions df = Ok txs →
  ∃ header_idx header_row n,
    first_label_row df "Fecha" header_idx
    ∧ pd.rows df !! header_idx = Some header_row
    ∧ Forall2 (fun row t =>
                 try_row df (detected_columns header_row (pd.ncols df)) row = Ok (Some t))
        (filter (fun row => dated (detected_columns header_row (pd.ncols df)) row = true)
           (take n (drop (header_idx + 1) (pd.rows df))))
        txs
    ∧ (n = length (drop (header_idx + 1) (pd.rows df))
       ∨ ∃ row, drop (header_idx + 1) (pd.rows df) !! n = Some row
           ∧ ends_table df (detected_columns header_row (pd.ncols df)) row)
    ∧ (length txs + (header_idx + 1) ≤ pd.len df)%nat.
Proof.
  intros (header_idx & header_row & Hf & Hh & Hl)%extract_transactions_inv.
  destruct (loop_dated_prefix _ _ _ _ Hl) as (n & HF & Hn).
  exists header_idx, header_row, n. split_and!; try done.
  apply Forall2_filter_take_length in HF. rewrite length_drop in HF.
  apply lookup_lt_Some in Hh. unfold pd.len. lia.
Qed.

Lemma transactions_of_dated_rows_witness :
  ∃ n row, drop 10 (pd.rows cartola) !! n = Some row
    ∧ ends_table cartola (detected_columns cartola_header 7) row.
Proof.
  destruct (transactions_of_dated_rows cartola [purchase; deposit])
    as (header_idx & header_row & n & Hf & Hh & HF & Hn & _).
  - vm_compute. reflexivity.
  - assert (header_idx = 9%nat) as ->
      by exact (first_label_row_unique _ _ _ _ Hf cartola_header_row).
    injection Hh as <-. exists n.
    destruct Hn as [->|Hn]; [|exact Hn].
    apply Forall2_length in HF. vm_compute in HF. discriminate HF.
Defined.
(** ** The date of a transaction *)

Section Dates.

Implicit Types (c : ascii) (s t : string).

Lemma split_slash_digit c s :
  Str.isdigit c = true →
  split_slash (String c s)
  = match split_slash s with
    | Some (a, b) => Some (String c a, b)
    | None => None
    end.
Proof. by destruct c as [[] [] [] [] [] [] [] []]. Qed.

Lemma int_digit c : Str.int (String c "") = (N_of_ascii c - 48)%N.
Proof. unfold Str.int. cbn [Str.int_acc]. lia. Qed.

Lemma int_two_digits a b :
  Str.int (String a (String b "")) = (10 * (N_of_ascii a - 48) + (N_of_ascii b - 48))%N.
Proof. unfold Str.int. cbn [Str.int_acc]. lia. Qed.

Lemma isdigit_nonzero c :
  Str.isdigit c = true → Ascii.eqb c "0" = false → (1 ≤ N_of_ascii c - 48)%N.
Proof. by destruct c as [[] [] [] [] [] [] [] []]. Qed.

Lemma strptime_d_range t d : strptime_d t = Some d → (1 ≤ d ≤ 31)%N.
Proof.
  destruct t as [|a [|b [|? ?]]]; [done|..|done]; cbn [strptime_d].
  - destruct (Str.isdigit a) eqn:Ha; [|done].
    destruct (Ascii.eqb a "0") eqn:Ha0; [done|]. cbn [andb negb].
    intros [= <-]. rewrite int_digit.
    pose proof (isdigit_value _ Ha). pose proof (isdigit_nonzero _ Ha Ha0). lia.
  - destruct (Ascii.eqb_spec a "3") as [->|_]; cbn [andb].
    { destruct (Ascii.eqb_spec b "0") as [->|_]; [by intros [= <-]|].
      destruct (Ascii.eqb_spec b "1") as [->|_]; [by intros [= <-]|].
      change (Ascii.eqb "3" "1") with false. change (Ascii.eqb "3" "2") with false.
      change (Ascii.eqb "3" "0") with false. change (Ascii.eqb "3" " ") with false.
      done. }
    destruct (Str.isdigit b) eqn:Hb; [|by rewrite !andb_false_r].
    pose proof (isdigit_value _ Hb) as Hv.
    destruct (Ascii.eqb_spec a "1") as [->|_].
    { intros [= <-]. rewrite int_two_digits. change (N_of_ascii "1" - 48)%N with 1%N. lia. }
    destruct (Ascii.eqb_spec a "2") as [->|_].
    { intros [= <-]. rewrite int_two_digits. change (N_of_ascii "2" - 48)%N with 2%N. lia. }
    cbn [orb andb]. destruct (Ascii.eqb b "0") eqn:Hb0; [by rewrite !andb_false_r|].
    destruct (_ || _); [|done]. cbn [andb negb]. intros [= <-]. rewrite int_digit.
    pose proof (isdigit_nonzero _ Hb Hb0). lia.
Qed.

Lemma strptime_m_range t m : strptime_m t = Some m → (1 ≤ m ≤ 12)%N.
Proof.
  destruct t as [|a [|b [|? ?]]]; [done|..|done]; cbn [strptime_m].
  - destruct (Str.isdigit a) eqn:Ha; [|done].
    destruct (Ascii.eqb a "0") eqn:Ha0; [done|]. cbn [andb negb].
    intros [= <-]. rewrite int_digit.
    pose proof (isdigit_value _ Ha). pose proof (isdigit_nonzero _ Ha Ha0). lia.
  - destruct (Ascii.eqb_spec a "1") as [->|_]; cbn [andb].
    { destruct (Ascii.eqb_spec b "0") as [->|_]; [by intros [= <-]|].
      destruct (Ascii.eqb_spec b "1") as [->|_]; [by intros [= <-]|].
      destruct (Ascii.eqb_spec b "2") as [->|_]; [by intros [= <-]|].
      change (Ascii.eqb "1" "0") with false. done. }
    destruct (Ascii.eqb_spec a "0") as [->|_]; [|done]. cbn [andb].
    destruct (Str.isdigit b) eqn:Hb; [|done].
    destruct (Ascii.eqb b "0") eqn:Hb0; [done|]. cbn [andb negb].
    intros [= <-]. rewrite int_two_digits. change (N_of_ascii "0" - 48)%N with 0%N.
    pose proof (isdigit_value _ Hb). pose proof (isdigit_nonzero _ Hb Hb0). lia.
Qed.

Lemma strptime_Y_inv t y :
  strptime_Y t = Some y → String.length t = 4%nat ∧ (y ≤ 9999)%N.
Proof.
  unfold strptime_Y. destruct (Nat.eqb_spec (String.length t) 4) as [Hl|]; [|done].
  destruct (Str.all_digits t) eqn:Hd; [|done]. cbn [andb]. intros [= <-].
  split; [done|].
  destruct t as [|a [|b [|c [|d [|? ?]]]]]; try done.
  cbn [Str.all_digits] in Hd.
  apply andb_true_iff in Hd as [Ha Hd]. apply andb_true_iff in Hd as [Hb Hd].
  apply andb_true_iff in Hd as [Hc Hd]. apply andb_true_iff in Hd as [Hd _].
  apply isdigit_value in Ha, Hb, Hc, Hd.
  unfold Str.int. cbn [Str.int_acc]. lia.
Qed.

Lemma days_in_month_le y m : (days_in_month y m ≤ 31)%N.
Proof. unfold days_in_month. repeat case_match; lia. Qed.

(** A text that [strptime] accepts is a day of the calendar, at midnight. *)
Lemma strptime_valid s d :
  strptime s = Some d →
  (1 ≤ year d ≤ 9999)%N ∧ (1 ≤ month d ≤ 12)%N
  ∧ (1 ≤ day d ≤ days_in_month (year d) (month d))%N
  ∧ hour d = 0%N ∧ minute d = 0%N ∧ second d = 0%N ∧ microsecond d = 0%N.
Proof.
  unfold strptime. intros H.
  destruct (split_slash s) as [[dt r]|]; [|done]. cbn [mbind option_bind] in H.
  destruct (split_slash r) as [[mt yt]|]; [|done]. cbn [mbind option_bind] in H.
  destruct (strptime_d dt) as [dd|] eqn:Hd; [|done]. cbn [mbind option_bind] in H.
  destruct (strptime_m mt) as [mm|] eqn:Hm; [|done]. cbn [mbind option_bind] in H.
  destruct (strptime_Y yt) as [yy|] eqn:Hy; [|done]. cbn [mbind option_bind] in H.
  destruct (N.leb_spec 1 yy); [|done].
  destruct (N.leb_spec dd (days_in_month yy mm)); [|done]. cbn [andb] in H.
  injection H as <-. cbn [year month day hour minute second microsecond].
  apply strptime_d_range in Hd. apply strptime_m_range in Hm.
  apply strptime_Y_inv in Hy as [_ Hy]. split_and!; try done; lia.
Qed.

(** A text that starts with the date pattern and that [strptime] accepts
    is the pattern and nothing more: ten characters. *)
Lemma match_date_strptime_length s d :
  re.match_date s = true → strptime s = Some d → String.length s = 10%nat.
Proof.
  intros Hm Hs.
  destruct s as [|d1 [|d2 [|s1 s]]]; [done..|].
  destruct (Ascii.eqb_spec s1 "/") as [->|Hne];
    [|by destruct s1 as [[] [] [] [] [] [] [] []]].
  destruct s as [|m1 [|m2 [|s2 s]]]; [done..|].
  destruct (Ascii.eqb_spec s2 "/") as [->|Hne];
    [|by destruct s2 as [[] [] [] [] [] [] [] []]].
  destruct s as [|y1 [|y2 [|y3 [|y4 rest]]]]; [done..|].
  cbn [re.match_date forallb] in Hm.
  repeat match type of Hm with
  | (_ && _) = true => let H1 := fresh "Hd" in apply andb_true_iff in Hm as [H1 Hm]
  end.
  unfold strptime in Hs.
  rewrite !split_slash_digit in Hs by done.
  change (split_slash (String "/" ?r)) with (Some ("", r)) in Hs.
  cbn [mbind option_bind] in Hs.
  rewrite !split_slash_digit in Hs by done.
  change (split_slash (String "/" ?r)) with (Some ("", r)) in Hs.
  cbn [mbind option_bind] in Hs.
  destruct (strptime_d _); [|done]. cbn [mbind option_bind] in Hs.
  destruct (strptime_m _); [|done]. cbn [mbind option_bind] in Hs.
  destruct (strptime_Y _) as [y|] eqn:Hy; [|done].
  apply strptime_Y_inv in Hy as [Hl _]. cbn [String.length] in *. lia.
Qed.

End Dates.

(** The date of a transaction is a day of the calendar, at midnight, in
    the years 1 to 9999, and the date cell of its row holds ten characters:
    the date pattern and nothing after it. *)
Theorem transaction_date_is_a_day df cols row t :
  try_row df cols row = Ok (Some t) →
  String.length (str (nth (date_col cols) row Blank)) = 10%nat
  ∧ strptime (str (nth (date_col cols) row Blank)) = Some (date t)
  ∧ (1 ≤ year (date t) ≤ 9999)%N ∧ (1 ≤ month (date t) ≤ 12)%N
  ∧ (1 ≤ day (date t) ≤ days_in_month (year (date t)) (month (date t)))%N
  ∧ hour (date t) = 0%N ∧ minute (date t) = 0%N ∧ second (date t) = 0%N
  ∧ microsecond (date t) = 0%N.
Proof.
  intros (_ & d & Hs & Hm & _ & ->)%try_row_inv. cbn [date row_transaction].
  split; [by apply (match_date_strptime_length _ d)|]. split; [done|].
  by apply (strptime_valid (str (nth (date_col cols) row Blank))).
Qed.

Lemma transaction_date_is_a_day_witness :
  (1 ≤ day (date purchase) ≤ days_in_month (year (date purchase)) (month (date purchase)))%N.
Proof.
  apply (transaction_date_is_a_day cartola (detected_columns cartola_header 7)
           [Blank; Text "05/01/2024"; Text "Compra Tienda X"; Text "App"; Int 15000;
            Blank; Text "485000"] purchase).
  vm_compute. reflexivity.
Defined.
(** ** The exceptions of [_extract_transactions] *)

Section Exceptions.

Implicit Types (df : DataFrame) (cols : columns) (row : list cell) (e : exn).

(** The exceptions that the body of the [try] raises. *)
Lemma try_row_Raise df cols row e :
  try_row df cols row = Raise e →
  (∃ col, (pd.ncols df ≤ col)%nat ∧ e = KeyError (str_nat (N.of_nat col)))
  ∨ (∃ msg, e = ValueError msg)
  ∨ (e = InvalidOperation ∧ bool_amount cols row = true).
Proof.
  intros H. unfold try_row in H.
  repeat match type of H with
  | context [pd.getitem df row ?c] =>
      let E := fresh "E" in
      destruct (pd.getitem df row c) as [?|?] eqn:E;
      [apply getitem_inv in E as [? ->]; cbn [mbind result_bind] in H
      |unfold pd.getitem in E; destruct (Nat.ltb_spec c (pd.ncols df)); [done|];
       injection E as <-; cbn [mbind result_bind] in H; injection H as <-;
       left; by eexists]
  | context [if negb (re.match_date ?s) then _ else _] =>
      destruct (negb (re.match_date s)); [done|]
  | context [strptime ?s] =>
      destruct (strptime s); [|injection H as <-; right; left; by eexists]
  | context [_parse_amount ?c] =>
      let E := fresh "Hb" in
      rewrite (parse_amount_eq c) in H; destruct (is_bool c) eqn:E;
      cbn [mbind result_bind fmap result_fmap] in H
  | context [if negb (pd.isna ?c) then _ else _] =>
      destruct (negb (pd.isna c)); cbn [mbind result_bind fmap result_fmap] in H
  end.
  all: try done.
  all: injection H as <-; right; right; split; [done|]; unfold bool_amount.
  all: repeat match goal with Hb : is_bool _ = _ |- _ => rewrite Hb; clear Hb end.
  all: by rewrite ?orb_true_r.
Qed.

(** The loop lets no [ValueError] out. *)
Lemma loop_Raise df cols rows e :
  transactions_loop df cols rows = Raise e →
  (∃ col, (pd.ncols df ≤ col)%nat ∧ e = KeyError (str_nat (N.of_nat col)))
  ∨ (e = InvalidOperation ∧ Exists (fun row => bool_amount cols row = true) rows).
Proof.
  induction rows as [|row rest IH]; [done|]. cbn [transactions_loop].
  destruct (pd.getitem df row (date_col cols)) as [d|e'] eqn:Hd.
  2:{ cbn [mbind result_bind]. intros [= <-]. left.
      unfold pd.getitem in Hd. destruct (Nat.ltb_spec (date_col cols) (pd.ncols df)); [done|].
      injection Hd as <-. by eexists. }
  cbn [mbind result_bind]. destruct (pd.isna d).
  { intros [H|[-> H]]%IH; [by left|]. right. split; [done|by right]. }
  destruct (try_row df cols row) as [[t|]|e'] eqn:E.
  - destruct (transactions_loop df cols rest) as [txs|e'']; [done|].
    cbn [mbind result_bind]. intros [= <-].
    destruct (IH eq_refl) as [H|[-> H]]; [by left|]. right. split; [done|by right].
  - done.
  - apply try_row_Raise in E as [H|[[msg ->]|[-> H]]].
    + destruct H as (col & Hcol & ->). intros [= <-]. left. by exists col.
    + done.
    + intros [= <-]. right. split; [done|by left].
Qed.

End Exceptions.

(** [_extract_transactions] raises [KeyError] on a frame without a column
    1, and [ValueError] when no row has "Fecha" in column 1.  It raises
    nothing else but the [KeyError] of a column that the frame lacks and
    the [InvalidOperation] of a boolean amount cell in a row below the
    header: a [ValueError] of a row never leaves it. *)
Theorem extract_transactions_exceptions df :
  ((pd.ncols df ≤ 1)%nat → _extract_transactions df = Raise (KeyError "1"))
  ∧ ((1 < pd.ncols df)%nat → no_label_row df "Fecha" →
       _extract_transactions df = Raise (ValueError "Could not find transaction header"))
  ∧ (∀ e, _extract_transactions df = Raise e →
       (e = ValueError "Could not find transaction header" ∧ no_label_row df "Fecha")
       ∨ (∃ col, (pd.ncols df ≤ col)%nat ∧ e = KeyError (str_nat (N.of_nat col)))
       ∨ (e = InvalidOperation
          ∧ ∃ header_idx header_row row,
              first_label_row df "Fecha" header_idx
              ∧ pd.rows df !! header_idx = Some header_row
              ∧ row ∈ drop (header_idx + 1) (pd.rows df)
              ∧ bool_amount (detected_columns header_row (pd.ncols df)) row = true)).
Proof.
  split_and!.
  - intros Hn. unfold _extract_transactions. rewrite label_rows_eq.
    by apply Nat.ltb_ge in Hn as ->.
  - intros Hn Hno.
    destruct (label_rows_cases df "Fecha" Hn) as [[H _]|(i & rest & _ & Hf)].
    + by apply extract_transactions_no_header.
    + destruct (no_label_row_first _ _ _ Hno Hf).
  - intros e H. destruct (Nat.ltb_spec 1 (pd.ncols df)) as [Hn|Hn].
    2:{ right; left. exists 1%nat. split; [lia|].
        unfold _extract_transactions in H. rewrite label_rows_eq in H.
        apply Nat.ltb_ge in Hn. rewrite Hn in H. by injection H as <-. }
    destruct (label_rows_cases df "Fecha" Hn) as [[Hl Hno]|(i & rest & _ & Hf)].
    + left. rewrite extract_transactions_no_header in H by done. by injection H as <-.
    + destruct (extract_transactions_loop _ _ Hf) as (header_row & Hh & _ & Heq).
      rewrite Heq in H. apply loop_Raise in H as [H|[-> H]]; [by right; left|].
      right; right. split; [done|].
      apply Exists_exists in H as (row & Hrow & Hb). by exists i, header_row, row.
Qed.

Lemma extract_transactions_exceptions_witness :
  _extract_transactions movements_only
  = Raise (ValueError "Could not find transaction header").
Proof.
  apply (extract_transactions_exceptions movements_only); [cbn; lia|].
  intros row Hrow. apply list_elem_of_singleton in Hrow as ->. reflexivity.
Defined.
(** ** The currency *)

(** The currency of the metadata is "CLP" whatever the statement says: the
    row of the label "Moneda:" must exist and its value is not read.  When
    the holder, the RUT and the account are found in a frame with a column
    2 and no row has the label, [_extract_metadata] raises the [ValueError]
    of the currency. *)
Theorem currency_is_CLP now df :
  (∀ metadata, _extract_metadata now df = Ok metadata →
     currency metadata = "CLP" ∧ ∃ r, first_label_row df "Moneda:" r)
  ∧ (no_label_row df "Moneda:" → ∃ e, _extract_metadata now df = Raise e)
  ∧ (∀ holder_row rut_row account_row,
       first_label_row df "Sr(a)" holder_row →
       first_label_row df "Rut:" rut_row →
       first_label_row df "Cuenta" account_row →
       (2 < pd.ncols df)%nat →
       no_label_row df "Moneda:" →
       _extract_metadata now df
       = Raise (ValueError "Could not find currency information")).
Proof.
  split_and!.
  - intros metadata (l & d & Hl & _ & _ & ->)%extract_metadata_inv.
    split; [done|]. exists (currency_idx l). apply Hl.
  - intros Hno. destruct (_extract_metadata now df) as [metadata|e] eqn:E; [|by eexists].
    apply extract_metadata_inv in E as (l & _ & Hl & _).
    destruct (no_label_row_first _ _ (currency_idx l) Hno). apply Hl.
  - intros hr rr ar Hh Hr Ha Hn Hno.
    pose proof (first_label_row_lt _ _ _ Hh). pose proof (first_label_row_lt _ _ _ Hr).
    pose proof (first_label_row_lt _ _ _ Ha).
    apply first_label_row_rows in Hh as [? Eh], Hr as [? Er], Ha as [? Ea].
    unfold _extract_metadata.
    rewrite Eh. cbn [first_row mbind result_bind]. rewrite find_value_column_eq by done.
    cbn [mbind result_bind].
    rewrite iloc_cell_at by auto using value_column_lt. cbn [mbind result_bind].
    rewrite Er. cbn [first_row mbind result_bind]. rewrite find_value_column_eq by done.
    cbn [mbind result_bind].
    rewrite iloc_cell_at by auto using value_column_lt. cbn [mbind result_bind].
    rewrite Ea. cbn [first_row mbind result_bind]. rewrite find_value_column_eq by done.
    cbn [mbind result_bind].
    rewrite iloc_cell_at by auto using value_column_lt. cbn [mbind result_bind].
    destruct (label_rows_cases df "Moneda:") as [[-> _]|(i & ? & _ & Hm)]; [lia|done|].
    destruct (no_label_row_first _ _ _ Hno Hm).
Qed.

Lemma currency_is_CLP_witness :
  ∃ r, first_label_row cartola "Moneda:" r.
Proof.
  destruct (proj1 (currency_is_CLP (midnight 2026 11 4) cartola) _ cartola_metadata)
    as [_ H].
  exact H.
Defined.

(** ** The keys of the column mapping *)

Section Keys.

Implicit Types (m : gmap string nat) (header_row : list cell).

(** The six keys of the mapping. *)
Definition column_keys : gset string :=
  {[ "date"; "description"; "channel"; "debit"; "credit"; "balance" ]}.

Lemma dom_detect_step header_row m col :
  dom m ⊆ column_keys → dom (detect_step header_row m col) ⊆ column_keys.
Proof.
  intros Hm. unfold detect_step.
  destruct (pd.isna _); [done|]. unfold column_keys in *.
  destruct (String.eqb _ "Fecha"); [rewrite dom_insert; set_solver|].
  destruct (String.eqb _ Descripcion); [rewrite dom_insert; set_solver|].
  destruct (Str.startswith "Canal" _); [rewrite dom_insert; set_solver|].
  destruct (Str.startswith "Cargos" _); [rewrite dom_insert; set_solver|].
  destruct (Str.startswith "Abonos" _); [rewrite dom_insert; set_solver|].
  destruct (Str.startswith "Saldo" _); [rewrite dom_insert; set_solver|].
  done.
Qed.

Lemma dom_foldl_detect header_row m cols :
  dom m ⊆ column_keys → dom (foldl (detect_step header_row) m cols) ⊆ column_keys.
Proof.
  revert m. induction cols as [|col cols IH]; intros m Hm; [done|].
  cbn [foldl]. by apply IH, dom_detect_step.
Qed.

Lemma dom_setdefault key col m : dom (setdefault key col m) = {[ key ]} ∪ dom m.
Proof.
  unfold setdefault. destruct (m !! key) eqn:E.
  - apply elem_of_dom_2 in E. set_solver.
  - by rewrite dom_insert_L.
Qed.

End Keys.

(** [_detect_transaction_columns] returns for every row of the frame, and
    raises [IndexError] for a row beyond it; the mapping that it returns
    has the six keys "date", "description", "channel", "debit", "credit"
    and "balance" and no other, so that the six lookups of
    [_extract_transactions] never raise. *)
Theorem detect_transaction_columns_keys df header_idx :
  ((header_idx < pd.len df)%nat →
     ∃ m, _detect_transaction_columns df header_idx = Ok m
       ∧ dom m = column_keys
       ∧ ∀ key, key ∈ column_keys → ∃ col, dict_get m key = Ok col)
  ∧ ((pd.len df ≤ header_idx)%nat →
       _detect_transaction_columns df header_idx = Raise IndexError).
Proof.
  unfold _detect_transaction_columns, pd.iloc_row, pd.len. split.
  - intros [header_row ->]%lookup_lt_is_Some_2. cbn [mbind result_bind].
    eexists. split; [reflexivity|].
    match goal with
    | |- dom ?m = _ ∧ _ => assert (Hdom : dom m = column_keys)
    end.
    { rewrite !dom_setdefault.
      pose proof (dom_foldl_detect header_row ∅ (seq 0 (pd.ncols df))) as H.
      unfold column_keys in *. set_solver. }
    split; [done|]. intros key Hkey. unfold dict_get.
    rewrite <- Hdom in Hkey. apply elem_of_dom in Hkey as [col ->]. by exists col.
  - intros Hlen. by rewrite lookup_ge_None_2.
Qed.

Lemma detect_transaction_columns_keys_witness :
  ∃ m col, _detect_transaction_columns cartola_no_credit 9 = Ok m
    ∧ dict_get m "credit" = Ok col.
Proof.
  destruct (proj1 (detect_transaction_columns_keys cartola_no_credit 9))
    as (m & Hm & _ & Hk); [cbn; lia|].
  destruct (Hk "credit") as [col Hcol]; [unfold column_keys; set_solver|].
  by exists m, col.
Defined.
(** ** The rows of a label *)

Section IndexWhere.

Context {A : Type} (p : A → bool).

Lemma index_where_elem_of i l j :
  j ∈ index_where p i l ↔ ∃ k x, j = (i + k)%nat ∧ l !! k = Some x ∧ p x = true.
Proof.
  revert i. induction l as [|y l IH]; intros i; cbn [index_where].
  { split; [by intros ?%elem_of_nil|by intros (k & x & _ & ? & _)]. }
  assert (Hrest : j ∈ index_where p (S i) l
                  ↔ ∃ k x, j = (i + S k)%nat ∧ l !! k = Some x ∧ p x = true).
  { rewrite IH. split; intros (k & x & -> & Hk & Hx); exists k, x; split_and!; (done || lia). }
  destruct (p y) eqn:Hy.
  - rewrite elem_of_cons, Hrest. split.
    + intros [->|(k & x & -> & Hk & Hx)].
      * exists 0%nat, y. split_and!; (done || lia).
      * by exists (S k), x.
    + intros ([|k] & x & -> & Hk & Hx); [left; lia|right; by exists k, x].
  - rewrite Hrest. split.
    + intros (k & x & -> & Hk & Hx). by exists (S k), x.
    + intros ([|k] & x & -> & Hk & Hx); [cbn in Hk; congruence|by exists k, x].
Qed.

Lemma index_where_sorted i l :
  StronglySorted lt (index_where p i l) ∧ Forall (fun j => i ≤ j)%nat (index_where p i l).
Proof.
  revert i. induction l as [|y l IH]; intros i; cbn [index_where]; [by split; constructor|].
  destruct (IH (S i)) as [Hs Hf]. destruct (p y).
  - split.
    + constructor; [done|].
      eapply Forall_impl; [exact Hf|]. intros j Hj. cbv beta in Hj. lia.
    + constructor; [lia|].
      eapply Forall_impl; [exact Hf|]. intros j Hj. cbv beta in Hj. lia.
  - split; [done|]. eapply Forall_impl; [exact Hf|]. intros j Hj. cbv beta in Hj. lia.
Qed.

End IndexWhere.

(** The row filter of the label scan,
    [df[df[1].astype(str).str.strip().str.startswith(label)].index], raises
    [KeyError] on a frame without a column 1 and otherwise returns the
    positions of the rows whose column 1, as text and stripped, starts with
    the label: all of them, each once, top to bottom. *)
Theorem label_rows_spec df label :
  ((pd.ncols df ≤ 1)%nat → label_rows df label = Raise (KeyError "1"))
  ∧ ((1 < pd.ncols df)%nat →
       ∃ found, label_rows df label = Ok found
         ∧ StronglySorted lt found
         ∧ ∀ i, i ∈ found
                ↔ ∃ row, pd.rows df !! i = Some row ∧ label_cell label row = true).
Proof.
  rewrite label_rows_eq. split; intros Hn.
  - by apply Nat.ltb_ge in Hn as ->.
  - apply Nat.ltb_lt in Hn as ->. eexists. split; [done|].
    split; [apply index_where_sorted|].
    intros i. rewrite index_where_elem_of. split.
    + intros (k & row & -> & Hk & Hp). by exists row.
    + intros (row & Hi & Hp). by exists i, row.
Qed.

Lemma label_rows_spec_witness :
  ∃ found, label_rows cartola "Saldo" = Ok found ∧ 4%nat ∈ found ∧ 5%nat ∉ found.
Proof.
  destruct (proj2 (label_rows_spec cartola "Saldo")) as (found & Hf & _ & Hin);
    [cbn; lia|].
  exists found. split; [exact Hf|]. split.
  - apply Hin. eexists. split; reflexivity.
  - intros (row & Hrow & Hp)%Hin. injection Hrow as <-. discriminate Hp.
Defined.

(** ** The date text of a cell *)

(** [s] without its first [k] characters. *)
Fixpoint from_offset (k : nat) (s : string) : string :=
  match k, s with
  | S k', String _ r => from_offset k' r
  | _, _ => s
  end.

Section SearchDate.

Implicit Types (s g : string).

(** A text that starts with the date pattern starts with its own first
    ten characters, which have the pattern. *)
Lemma match_date_prefix s :
  re.match_date s = true →
  ∃ post, s = String.substring 0 10 s +:+ post
    ∧ String.length (String.substring 0 10 s) = 10%nat
    ∧ re.match_date (String.substring 0 10 s) = true.
Proof.
  intros Hm.
  destruct s as [|d1 [|d2 [|s1 s]]]; [done..|].
  destruct (Ascii.eqb_spec s1 "/") as [->|Hne];
    [|by destruct s1 as [[] [] [] [] [] [] [] []]].
  destruct s as [|m1 [|m2 [|s2 s]]]; [done..|].
  destruct (Ascii.eqb_spec s2 "/") as [->|Hne];
    [|by destruct s2 as [[] [] [] [] [] [] [] []]].
  destruct s as [|y1 [|y2 [|y3 [|y4 rest]]]]; [done..|].
  exists rest.
  destruct rest; cbn [String.substring];
    (split_and!; [by rewrite !sapp_cons, sapp_nil_l|done|exact Hm]).
Qed.

End SearchDate.

(** [re.search] with the date pattern returns the leftmost occurrence of
    the pattern in the text: ten characters of the text that have the
    pattern, with no occurrence of the pattern starting before them; and it
    returns nothing only when the pattern occurs nowhere in the text. *)
Theorem search_date_leftmost s :
  match re.search_date s with
  | Some g =>
      ∃ pre post, s = pre +:+ g +:+ post
        ∧ String.length g = 10%nat
        ∧ re.match_date g = true
        ∧ ∀ k, (k < String.length pre)%nat → re.match_date (from_offset k s) = false
  | None => ∀ k, re.match_date (from_offset k s) = false
  end.
Proof.
  induction s as [|c s IH].
  { intros [|k]; reflexivity. }
  cbn [re.search_date]. destruct (re.match_date (String c s)) eqn:Hm.
  - destruct (match_date_prefix _ Hm) as (post & Hs & Hl & Hg).
    exists "", post. rewrite sapp_nil_l. split_and!; [done|done|done|].
    intros k Hk. cbn in Hk. lia.
  - destruct (re.search_date s) as [g|].
    + destruct IH as (pre & post & -> & Hl & Hg & Hlt).
      exists (String c pre), post. rewrite sapp_cons. split_and!; [done|done|done|].
      intros [|k] Hk; [done|]. cbn [from_offset]. apply Hlt. cbn in Hk. lia.
    + intros [|k]; [done|]. cbn [from_offset]. apply IH.
Qed.
(** * Helpers (beancount_chile/helpers.py) *)

Module helpers.

(** [s.split()]: the maximal runs of characters that are not white space,
    left to right; [cur] is the run that is being read. *)
Fixpoint split_from (cur : string) (s : string) : list string :=
  match s with
  | EmptyString => match cur with EmptyString => [] | _ => [cur] end
  | String c r =>
      if Str.isspace c then
        match cur with
        | EmptyString => split_from "" r
        | _ => cur :: split_from "" r
        end
      else split_from (cur +:+ String c "") r
  end.

Definition split (s : string) : list string := split_from "" s.

(** [sep.join(words)] *)
Fixpoint join (sep : string) (words : list string) : string :=
  match words with
  | [] => ""
  | [w] => w
  | w :: ws => w +:+ sep +:+ join sep ws
  end.

(** [s.replace(old, "")]: every occurrence of [old], found left to right
    without overlap, is dropped; [skip] counts the characters of the
    occurrence at hand that are still to drop.  With an empty [old] the
    text is returned as it is. *)
Fixpoint drop_occurrences (old : string) (skip : nat) (s : string) : string :=
  match s with
  | EmptyString => EmptyString
  | String c r =>
      match skip with
      | S k => drop_occurrences old k r
      | O =>
          if Str.startswith old s
          then drop_occurrences old (String.length old - 1) r
          else String c (drop_occurrences old 0 r)
      end
  end.

Definition replace_with_empty (old s : string) : string :=
  match old with
  | EmptyString => s
  | _ => drop_occurrences old 0 s
  end.

(** [normalize_payee(description)] *)
Definition normalize_payee (description : string) : string :=
  let description := Str.strip description in
  if Str.startswith "Traspaso A:" description
  then Str.strip (replace_with_empty "Traspaso A:" description)
  else if Str.startswith "Transferencia A:" description
  then Str.strip (replace_with_empty "Transferencia A:" description)
  else if Str.startswith "Compra " description
  then Str.strip (replace_with_empty "Compra " description)
  else if Str.startswith "Pago " description
  then Str.strip (replace_with_empty "Pago " description)
  else description.

(** [clean_narration(description)] *)
Definition clean_narration (description : string) : string :=
  join " " (split description).

(** A [datetime.date]. *)
Record date_type : Type := { d_year : N; d_month : N; d_day : N }.

(** [s.zfill(width)] for a text of digits. *)
Definition zfill (width : nat) (s : string) : string :=
  Str.zeros (width - String.length s) +:+ s.

(** [date.isoformat()]: YYYY-MM-DD. *)
Definition isoformat (date : date_type) : string :=
  zfill 4 (str_nat (d_year date)) +:+ "-" +:+ zfill 2 (str_nat (d_month date))
  +:+ "-" +:+ zfill 2 (str_nat (d_day date)).

(** The order of [str]: code point by code point. *)
Definition str_le (a b : string) : Prop := String.leb a b = true.

#[global] Instance str_le_dec a b : Decision (str_le a b).
Proof. unfold str_le. apply _. Defined.

(** [sorted(texts)]: a stable merge sort. *)
Definition sorted (texts : list string) : list string := merge_sort str_le texts.

Section ReceiptLink.

(** [unicodedata.normalize("NFC", p)] and
    [hashlib.sha256(s.encode()).hexdigest()], functions of the standard
    library. *)
Variable normalize_NFC : string → string.
Variable sha256_hexdigest : string → string.

(** [generate_receipt_link(date, payee, receipt_paths)]; the [frozenset]
    is a finite set of texts. *)
Definition generate_receipt_link (date : date_type) (payee : string)
    (receipt_paths : list string) : gset string :=
  match receipt_paths with
  | [] => ∅
  | _ =>
      let date_str := isoformat date in
      let normalized_paths := map normalize_NFC receipt_paths in
      let paths_str := join "," (sorted normalized_paths) in
      let hash_input := date_str +:+ ":" +:+ payee +:+ ":" +:+ paths_str in
      let link_hash := String.substring 0 8 (sha256_hexdigest hash_input) in
      {[ "rcpt-" +:+ link_hash ]}
  end.

End ReceiptLink.

End helpers.

(** ** Narrations *)

(** No character of [s] is white space. *)
Fixpoint no_space (s : string) : bool :=
  match s with
  | String c r => negb (Str.isspace c) && no_space r
  | EmptyString => true
  end.

(** A word: not empty and without white space. *)
Definition word (w : string) : Prop := w ≠ "" ∧ no_space w = true.

(** The characters of [s] that are not white space. *)
Fixpoint squeeze (s : string) : string :=
  match s with
  | String c r => if Str.isspace c then squeeze r else String c (squeeze r)
  | EmptyString => EmptyString
  end.

(** Every white-space character of [s] is a blank that stands between two
    characters that are not white space. *)
Fixpoint single_spaced_from (inside : bool) (s : string) : bool :=
  match s with
  | EmptyString => true
  | String c r =>
      if Str.isspace c then
        inside && Ascii.eqb c " "
        && match r with
           | String d _ => negb (Str.isspace d)
           | EmptyString => false
           end
        && single_spaced_from false r
      else single_spaced_from true r
  end.

Definition single_spaced (s : string) : bool := single_spaced_from false s.

Section Narration.

Implicit Types (c : ascii) (s t cur w : string) (ws : list string).

Lemma no_space_app s t : no_space (s +:+ t) = no_space s && no_space t.
Proof.
  induction s as [|c s IH]; [done|]. rewrite sapp_cons. cbn [no_space].
  by rewrite IH, andb_assoc.
Qed.

Lemma sapp_eq_nil s t : s +:+ t = "" → s = "" ∧ t = "".
Proof. by destruct s. Qed.

Lemma split_from_app cur w s :
  no_space w = true →
  helpers.split_from cur (w +:+ s) = helpers.split_from (cur +:+ w) s.
Proof.
  revert cur. induction w as [|c w IH]; intros cur Hw.
  { by rewrite sapp_nil_l, sapp_nil_r. }
  cbn [no_space] in Hw. apply andb_true_iff in Hw as [Hc Hw].
  rewrite sapp_cons. cbn [helpers.split_from].
  apply negb_true_iff in Hc as ->. rewrite IH by done.
  by rewrite sapp_assoc.
Qed.

Lemma split_from_blank w s :
  w ≠ "" → helpers.split_from w (String " " s) = w :: helpers.split_from "" s.
Proof. intros Hw. cbn [helpers.split_from]. by destruct w. Qed.

Lemma split_from_words cur s :
  no_space cur = true → Forall word (helpers.split_from cur s).
Proof.
  revert cur. induction s as [|c s IH]; intros cur Hcur; cbn [helpers.split_from].
  - destruct cur; [constructor|]. by repeat constructor.
  - destruct (Str.isspace c) eqn:Hc.
    + destruct cur; [by apply IH|]. constructor; [done|by apply IH].
    + apply IH. rewrite no_space_app, Hcur. cbn [no_space]. by rewrite Hc.
Qed.

Lemma split_words s : Forall word (helpers.split s).
Proof. by apply split_from_words. Qed.

(** Splitting what [join] makes of words gives the words back. *)
Lemma split_join ws : Forall word ws → helpers.split (helpers.join " " ws) = ws.
Proof.
  unfold helpers.split. induction 1 as [|w ws [Hne Hw] Hws IH]; [done|].
  destruct ws as [|w' ws].
  - cbn [helpers.join]. rewrite <- (sapp_nil_r w) at 1.
    rewrite split_from_app, sapp_nil_l by done. cbn [helpers.split_from]. by destruct w.
  - change (helpers.join " " (w :: w' :: ws))
      with (w +:+ " " +:+ helpers.join " " (w' :: ws)).
    rewrite split_from_app, sapp_nil_l by done.
    rewrite sapp_cons, sapp_nil_l, split_from_blank by done. by rewrite IH.
Qed.

Lemma squeeze_app s t : squeeze (s +:+ t) = squeeze s +:+ squeeze t.
Proof.
  induction s as [|c s IH]; [done|]. rewrite sapp_cons. cbn [squeeze].
  destruct (Str.isspace c); [done|]. by rewrite sapp_cons, IH.
Qed.

Lemma squeeze_no_space s : no_space s = true → squeeze s = s.
Proof.
  induction s as [|c s IH]; [done|]. cbn [no_space squeeze].
  intros [Hc Hs]%andb_true_iff. apply negb_true_iff in Hc as ->. by rewrite IH.
Qed.

(** The characters of the words that [split_from] returns are those of
    [cur] and the characters of [s] that are not white space. *)
Lemma squeeze_join_split_from cur s :
  no_space cur = true →
  squeeze (helpers.join " " (helpers.split_from cur s)) = cur +:+ squeeze s.
Proof.
  revert cur. induction s as [|c s IH]; intros cur Hcur;
    cbn [helpers.split_from squeeze].
  - rewrite sapp_nil_r. destruct cur; [done|]. cbn [helpers.join].
    by apply squeeze_no_space.
  - destruct (Str.isspace c) eqn:Hc.
    + destruct cur as [|a cur]; [by rewrite IH|].
      specialize (IH "" eq_refl). rewrite sapp_nil_l in IH.
      destruct (helpers.split_from "" s) as [|w ws] eqn:E.
      * cbn [helpers.join] in *. rewrite <- IH, sapp_nil_r.
        by apply squeeze_no_space.
      * change (helpers.join " " (String a cur :: w :: ws))
          with (String a cur +:+ " " +:+ helpers.join " " (w :: ws)).
        rewrite !squeeze_app, IH. by rewrite squeeze_no_space.
    + rewrite IH.
      * by rewrite sapp_assoc.
      * rewrite no_space_app, Hcur. cbn [no_space]. by rewrite Hc.
Qed.

Lemma single_spaced_word inside w s :
  no_space w = true → w ≠ "" →
  single_spaced_from inside (w +:+ s) = single_spaced_from true s.
Proof.
  revert inside. induction w as [|c w IH]; intros inside Hw Hne; [done|].
  cbn [no_space] in Hw. apply andb_true_iff in Hw as [Hc Hw].
  apply negb_true_iff in Hc. rewrite sapp_cons. cbn [single_spaced_from]. rewrite Hc.
  destruct w as [|d w]; [by rewrite sapp_nil_l|]. by apply IH.
Qed.

Lemma single_spaced_join inside ws :
  Forall word ws → single_spaced_from inside (helpers.join " " ws) = true.
Proof.
  intros H. revert inside. induction H as [|w ws [Hne Hw] Hws IH]; intros inside; [done|].
  destruct ws as [|w' ws].
  - cbn [helpers.join]. rewrite <- (sapp_nil_r w). by rewrite single_spaced_word.
  - change (helpers.join " " (w :: w' :: ws))
      with (w +:+ " " +:+ helpers.join " " (w' :: ws)).
    rewrite single_spaced_word by done. rewrite sapp_cons, sapp_nil_l.
    cbn [single_spaced_from]. change (Str.isspace " ") with true.
    cbn [andb]. rewrite IH, andb_true_r.
    apply Forall_cons in Hws as [[Hne' Hw'] _].
    destruct w' as [|d w']; [done|]. cbn [no_space] in Hw'.
    apply andb_true_iff in Hw' as [Hd _].
    destruct ws; cbn [helpers.join]; by rewrite ?sapp_cons.
Qed.

End Narration.

(** [clean_narration] puts a text in a normal form that it leaves alone:
    cleaning twice is cleaning once; every white space of the result is a
    single blank between two words, so the result has no white space at
    its ends; and the characters that are not white space are those of the
    description, in order. *)
Theorem clean_narration_normal_form description :
  helpers.clean_narration (helpers.clean_narration description)
  = helpers.clean_narration description
  ∧ single_spaced (helpers.clean_narration description) = true
  ∧ squeeze (helpers.clean_narration description) = squeeze description.
Proof.
  unfold helpers.clean_narration. split_and!.
  - by rewrite split_join by apply split_words.
  - apply single_spaced_join, split_words.
  - unfold helpers.split. by rewrite squeeze_join_split_from.
Qed.
(** ** Payees *)

(** The prefixes that [normalize_payee] drops, in the order of its tests. *)
Definition payee_prefixes : list string :=
  ["Traspaso A:"; "Transferencia A:"; "Compra "; "Pago "].

Section Payee.

Implicit Types (c : ascii) (s t old rest : string).

Lemma prefix_app s t : String.prefix s (s +:+ t) = true.
Proof.
  induction s as [|c s IH]; [by destruct t|]. rewrite sapp_cons. cbn [String.prefix].
  by destruct (ascii_dec c c).
Qed.

Lemma drop_occurrences_skip old s rest :
  helpers.drop_occurrences old (String.length s) (s +:+ rest)
  = helpers.drop_occurrences old 0 rest.
Proof.
  induction s as [|c s IH]; [by rewrite sapp_nil_l|].
  by rewrite sapp_cons.
Qed.

(** Dropping the occurrences of [old] in a text that starts with [old]
    drops that first occurrence and then those of the rest. *)
Lemma replace_prefix old rest :
  helpers.replace_with_empty old (old +:+ rest) = helpers.replace_with_empty old rest.
Proof.
  destruct old as [|c old]; [done|]. unfold helpers.replace_with_empty.
  rewrite sapp_cons. cbn [helpers.drop_occurrences].
  unfold Str.startswith. rewrite <- sapp_cons, prefix_app.
  replace (String.length (String c old) - 1)%nat with (String.length old)
    by (cbn [String.length]; lia).
  apply drop_occurrences_skip.
Qed.

Lemma length_drop_occurrences old k s :
  (String.length (helpers.drop_occurrences old k s) ≤ String.length s)%nat.
Proof.
  revert k. induction s as [|c s IH]; intros k; [done|].
  cbn [helpers.drop_occurrences String.length]. destruct k as [|k].
  - destruct (Str.startswith old _).
    + specialize (IH (String.length old - 1)%nat). lia.
    + cbn [String.length]. specialize (IH 0%nat). lia.
  - specialize (IH k). lia.
Qed.

Lemma length_replace old s :
  (String.length (helpers.replace_with_empty old s) ≤ String.length s)%nat.
Proof. destruct old; [done|]. apply length_drop_occurrences. Qed.

Lemma length_lstrip s : (String.length (Str.lstrip s) ≤ String.length s)%nat.
Proof.
  induction s as [|c s IH]; [done|]. cbn [Str.lstrip].
  destruct (Str.isspace c); cbn [String.length]; lia.
Qed.

Lemma length_rstrip s : (String.length (Str.rstrip s) ≤ String.length s)%nat.
Proof.
  induction s as [|c s IH]; [done|]. cbn [Str.rstrip].
  destruct (Str.rstrip s); [destruct (Str.isspace c)|]; cbn [String.length] in *; lia.
Qed.

Lemma length_strip s : (String.length (Str.strip s) ≤ String.length s)%nat.
Proof.
  unfold Str.strip. etrans; [apply length_rstrip|apply length_lstrip].
Qed.

Lemma rstrip_cons c s :
  Str.rstrip (String c s)
  = match Str.rstrip s with
    | EmptyString => if Str.isspace c then EmptyString else String c EmptyString
    | r => String c r
    end.
Proof. reflexivity. Qed.

Lemma rstrip_idemp s : Str.rstrip (Str.rstrip s) = Str.rstrip s.
Proof.
  induction s as [|c s IH]; [done|]. rewrite rstrip_cons.
  destruct (Str.rstrip s) as [|d r] eqn:E.
  - destruct (Str.isspace c) eqn:Hc; [done|]. cbn [Str.rstrip]. by rewrite Hc.
  - by rewrite rstrip_cons, IH.
Qed.

(** [rstrip] keeps a first character that is not white space. *)
Lemma rstrip_head c s :
  Str.isspace c = false → ∃ r, Str.rstrip (String c s) = String c r.
Proof.
  intros Hc. cbn [Str.rstrip]. destruct (Str.rstrip s); [|by eexists].
  rewrite Hc. by eexists.
Qed.

Lemma lstrip_rstrip_lstrip s :
  Str.lstrip (Str.rstrip (Str.lstrip s)) = Str.rstrip (Str.lstrip s).
Proof.
  induction s as [|c s IH]; [done|]. cbn [Str.lstrip].
  destruct (Str.isspace c) eqn:Hc; [done|].
  destruct (rstrip_head c s Hc) as [r ->]. cbn [Str.lstrip]. by rewrite Hc.
Qed.

Lemma strip_idemp s : Str.strip (Str.strip s) = Str.strip s.
Proof. unfold Str.strip. by rewrite lstrip_rstrip_lstrip, rstrip_idemp. Qed.

End Payee.

(** [normalize_payee] returns a stripped text that is not longer than the
    description.  When the stripped description starts with one of the
    four prefixes, the result is what follows the prefix, with every later
    occurrence of that prefix dropped as well, stripped; otherwise it is
    the stripped description. *)
Theorem normalize_payee_spec description :
  Str.strip (helpers.normalize_payee description) = helpers.normalize_payee description
  ∧ (String.length (helpers.normalize_payee description) ≤ String.length description)%nat
  ∧ (∀ p rest, p ∈ payee_prefixes → Str.strip description = p +:+ rest →
       helpers.normalize_payee description
       = Str.strip (helpers.replace_with_empty p rest))
  ∧ ((∀ p, p ∈ payee_prefixes → Str.startswith p (Str.strip description) = false) →
       helpers.normalize_payee description = Str.strip description).
Proof.
  split_and!.
  - unfold helpers.normalize_payee. cbv zeta.
    repeat (destruct (Str.startswith _ _); [apply strip_idemp|]). apply strip_idemp.
  - unfold helpers.normalize_payee. cbv zeta.
    pose proof (length_strip description).
    repeat (destruct (Str.startswith _ _);
            [etrans; [apply length_strip|]; etrans; [apply length_replace|done]|]).
    done.
  - intros p rest Hp Hd. unfold helpers.normalize_payee. cbv zeta. rewrite Hd.
    unfold payee_prefixes in Hp.
    repeat (apply elem_of_cons in Hp as [->|Hp]); [..|by apply elem_of_nil in Hp].
    all: rewrite replace_prefix; unfold Str.startswith; rewrite ?prefix_app; done.
  - intros H. unfold helpers.normalize_payee. cbv zeta.
    rewrite !H; [done|unfold payee_prefixes..].
    + do 3 apply list_elem_of_further. apply list_elem_of_here.
    + do 2 apply list_elem_of_further. apply list_elem_of_here.
    + apply list_elem_of_further, list_elem_of_here.
    + apply list_elem_of_here.
Qed.

Lemma normalize_payee_spec_witness :
  helpers.normalize_payee " Compra Tienda X Compra Y" = "Tienda X Y".
Proof.
  destruct (normalize_payee_spec " Compra Tienda X Compra Y") as (_ & _ & H & _).
  rewrite (H "Compra " "Tienda X Compra Y"); [reflexivity| |reflexivity].
  unfold payee_prefixes. do 2 apply list_elem_of_further. apply list_elem_of_here.
Defined.
(** ** Receipt links *)

Section StrOrder.

Implicit Types (a b c : string).

Lemma leb_trans a b c :
  String.leb a b = true → String.leb b c = true → String.leb a c = true.
Proof.
  unfold String.leb. revert b c.
  induction a as [|x a IH]; intros [|y b] [|z c]; cbn [String.compare]; try done.
  unfold Ascii.compare.
  destruct (N.compare_spec (N_of_ascii x) (N_of_ascii y)) as [Exy|Lxy|Gxy];
    destruct (N.compare_spec (N_of_ascii y) (N_of_ascii z)) as [Eyz|Lyz|Gyz];
    destruct (N.compare_spec (N_of_ascii x) (N_of_ascii z)) as [Exz|Lxz|Gxz];
    try done; try lia.
  apply IH.
Qed.

#[local] Instance str_le_trans : Transitive helpers.str_le.
Proof. intros a b c. apply leb_trans. Qed.

#[local] Instance str_le_antisym : AntiSymm (=) helpers.str_le.
Proof. intros a b. apply String.leb_antisym. Qed.

#[local] Instance str_le_total : Total helpers.str_le.
Proof. intros a b. apply String.leb_total. Qed.

Lemma length_substring_0 n a :
  (n ≤ String.length a)%nat → String.length (String.substring 0 n a) = n.
Proof.
  revert a. induction n as [|n IH]; intros [|x a] Hn; cbn in *; try done; try lia.
  rewrite IH; [done|lia].
Qed.

(** [sorted] returns the same list for the same texts in another order. *)
Lemma sorted_Permutation (l k : list string) :
  l ≡ₚ k → helpers.sorted l = helpers.sorted k.
Proof.
  intros H. unfold helpers.sorted. apply (Sorted_unique helpers.str_le).
  - apply Sorted_merge_sort, _.
  - apply Sorted_merge_sort, _.
  - by rewrite !merge_sort_Permutation.
Qed.

End StrOrder.

(** The receipt link does not depend on the order of the receipt paths;
    it is empty exactly when there is no path, and otherwise holds one link,
    which is "rcpt-" followed by the first eight characters of the digest:
    thirteen characters when the digest has eight or more. *)
Theorem receipt_link_order normalize_NFC sha256_hexdigest date payee paths :
  (∀ paths', paths ≡ₚ paths' →
     helpers.generate_receipt_link normalize_NFC sha256_hexdigest date payee paths
     = helpers.generate_receipt_link normalize_NFC sha256_hexdigest date payee paths')
  ∧ (helpers.generate_receipt_link normalize_NFC sha256_hexdigest date payee paths = ∅
     ↔ paths = [])
  ∧ (paths ≠ [] →
     ∃ link,
       helpers.generate_receipt_link normalize_NFC sha256_hexdigest date payee paths
       = {[ link ]}
       ∧ Str.startswith "rcpt-" link = true
       ∧ ((∀ s, 8 ≤ String.length (sha256_hexdigest s))%nat →
          String.length link = 13%nat)).
Proof.
  split_and!.
  - intros paths' Hp. unfold helpers.generate_receipt_link.
    destruct paths as [|p paths], paths' as [|p' paths'].
    + done.
    + by apply Permutation_nil_cons in Hp.
    + symmetry in Hp. by apply Permutation_nil_cons in Hp.
    + cbv zeta. by rewrite (sorted_Permutation _ _ (Permutation_map normalize_NFC Hp)).
  - unfold helpers.generate_receipt_link. destruct paths; [done|].
    cbv zeta. split; [|done]. intros H.
    by apply (non_empty_singleton_L (C:=gset string)) in H.
  - intros Hne. unfold helpers.generate_receipt_link. destruct paths; [done|].
    cbv zeta. eexists. split; [done|]. split; [apply prefix_app|].
    intros Hlen. rewrite slength_app. cbn [String.length].
    rewrite length_substring_0; [done|]. apply Hlen.
Qed.

Lemma receipt_link_order_witness :
  helpers.generate_receipt_link id id
    {| helpers.d_year := 2024; helpers.d_month := 1; helpers.d_day := 1 |} "X"
    ["/receipts/a.pdf"; "/receipts/b.pdf"]
  = helpers.generate_receipt_link id id
      {| helpers.d_year := 2024; helpers.d_month := 1; helpers.d_day := 1 |} "X"
      ["/receipts/b.pdf"; "/receipts/a.pdf"].
Proof.
  apply (receipt_link_order id id). apply Permutation_swap.
Defined.
(** * The importer (beancount_chile/banco_chile.py) *)

Module banco_chile.

(** [bool(d)] for a [Decimal]: false for a zero of either sign. *)
Definition truthy (d : Decimal) : bool :=
  match d with
  | decimal.Finite _ c _ => negb (c =? 0)%N
  | _ => true
  end.

(** [d > 0]: an ordering comparison with a NaN signals. *)
Definition gt_zero (d : Decimal) : result bool :=
  match d with
  | decimal.NaN _ _ _ => Raise InvalidOperation
  | _ => Ok (decimal.positive d)
  end.

(** The test [amount and amount > 0] on a debit or a credit: the amount
    when the test holds. *)
Definition positive_amount (amount : option Decimal) : result (option Decimal) :=
  match amount with
  | None => Ok None
  | Some d =>
      if truthy d then
        above_zero ← gt_zero d;
        Ok (if above_zero : bool then Some d else None)
      else Ok None
  end.

(** [datetime.date()] *)
Definition date_of (d : datetime) : helpers.date_type :=
  {| helpers.d_year := year d; helpers.d_month := month d; helpers.d_day := day d |}.

(** [transaction.date.date()] *)
Definition transaction_date (transaction : BancoChileTransaction) : helpers.date_type :=
  date_of (date transaction).

(** [self.extractor.extract(str(filepath))] *)
Definition extractor_extract := extract.

(** A posting of beancount; its cost, price, flag and meta are [None]. *)
Record Posting (Number : Type) : Type := {
  account : string;
  units_number : Number;
  units_currency : string
}.
Arguments account {Number} _.
Arguments units_number {Number} _.
Arguments units_currency {Number} _.

(** A [data.Transaction]; its tags and links are empty, and the line of
    its meta is 0. *)
Record Transaction (Number : Type) : Type := {
  meta_filename : string;
  meta_channel : string;
  date : helpers.date_type;
  flag : string;
  payee : string;
  narration : string;
  postings : list (Posting Number)
}.
Arguments meta_filename {Number} _.
Arguments meta_channel {Number} _.
Arguments date {Number} _.
Arguments flag {Number} _.
Arguments payee {Number} _.
Arguments narration {Number} _.
Arguments postings {Number} _.

(** A [data.Balance]; its tolerance and diff_amount are [None], and the
    line of its meta is 0. *)
Record Balance (Number : Type) : Type := {
  balance_meta_filename : string;
  balance_date : helpers.date_type;
  balance_account : string;
  amount_number : Number;
  amount_currency : string
}.
Arguments balance_meta_filename {Number} _.
Arguments balance_date {Number} _.
Arguments balance_account {Number} _.
Arguments amount_number {Number} _.
Arguments amount_currency {Number} _.

(** An entry of [data.Entries]. *)
Inductive Entry (Number : Type) : Type :=
  | BalanceEntry (b : Balance Number)
  | TransactionEntry (t : Transaction Number).
Arguments BalanceEntry {Number} b.
Arguments TransactionEntry {Number} t.

Section Importer.

(** The numbers of beancount: [D(str(d))] for a [Decimal] of the
    extractor, and the negation [-n] in the decimal context, with the
    exceptions that the libraries raise. *)
Context {Number : Type}.
Variable D_str : Decimal → result Number.
Variable neg : Number → result Number.

(** [self.account_name] and [self.currency] *)
Variables (account_name currency : string).

(** [_create_transaction_entry(transaction, filepath)]; [None] is the
    transaction that is skipped. *)
Definition _create_transaction_entry (transaction : BancoChileTransaction)
    (filepath : string) : result (option (Transaction Number)) :=
  money_out ← positive_amount (debit transaction);
  txn_amount ←
    match money_out with
    | Some d => n ← D_str d; m ← neg n; Ok (Some m)
    | None =>
        money_in ← positive_amount (credit transaction);
        match money_in with
        | Some c => n ← D_str c; Ok (Some n)
        | None => Ok None
        end
    end;
  match txn_amount with
  | None => Ok None
  | Some txn_amount =>
      let payee := helpers.normalize_payee (description transaction) in
      let narration := helpers.clean_narration (description transaction) in
      Ok (Some {| meta_filename := filepath;
                  meta_channel := channel transaction;
                  date := transaction_date transaction;
                  flag := "*";
                  payee := payee;
                  narration := narration;
                  postings := [ {| account := account_name;
                                   units_number := txn_amount;
                                   units_currency := currency |} ] |})
  end.

(** The loop of [extract] over the transactions, in the order given: the
    entries that are not [None] are appended. *)
Fixpoint transaction_entries (transactions : list BancoChileTransaction)
    (filepath : string) : result (list (Entry Number)) :=
  match transactions with
  | [] => Ok []
  | transaction :: rest =>
      entry ← _create_transaction_entry transaction filepath;
      entries ← transaction_entries rest filepath;
      Ok (match entry with
          | Some e => TransactionEntry e :: entries
          | None => entries
          end)
  end.

(** The file system, the decoder and the clock of the extractor. *)
Variable fs : string → option (list Byte.byte).
Variable read_excel : list Byte.byte → engine → result DataFrame.
Variable now : datetime.

(** [extract(filepath, existing)] *)
Definition extract (filepath : string) : result (list (Entry Number)) :=
  extracted ← extractor_extract fs read_excel now filepath;
  let transactions := extracted.2 in
  balance_entry ←
    match last transactions with
    | Some last_transaction =>
        n ← D_str (balance last_transaction);
        Ok [ BalanceEntry {| balance_meta_filename := filepath;
                             balance_date := transaction_date last_transaction;
                             balance_account := account_name;
                             amount_number := n;
                             amount_currency := currency |} ]
    | None => Ok []
    end;
  entries ← transaction_entries (reverse transactions) filepath;
  Ok (balance_entry ++ entries).

End Importer.

End banco_chile.
(** ** What the importer books *)

(** An amount that does not pass the test [amount and amount > 0]: it is
    absent, or a number that is not above zero. *)
Definition not_above_zero (amount : option Decimal) : Prop :=
  match amount with
  | None => True
  | Some (decimal.NaN _ _ _) => False
  | Some d => decimal.positive d = false
  end.

Section Booking.

Context {Number : Type}.
Variable D_str : Decimal → result Number.
Variable neg : Number → result Number.
Variables (account_name currency : string).

Implicit Types (t : BancoChileTransaction) (d c : Decimal) (filepath : string).

(** An amount passes the test when it is a number above zero, fails it
    when it is absent, zero or below zero, and breaks it when it is a
    NaN. *)
Lemma positive_amount_cases amount :
  match amount with
  | Some (decimal.NaN _ _ _) =>
      banco_chile.positive_amount amount = Raise InvalidOperation
  | Some d =>
      banco_chile.positive_amount amount
      = Ok (if decimal.positive d then Some d else None)
  | None => banco_chile.positive_amount amount = Ok None
  end.
Proof.
  destruct amount as [[sign coeff e|sign|? ? ?]|]; cbn; try done.
  destruct (N.eqb_spec coeff 0) as [->|Hne]; cbn; [by destruct sign|done].
Qed.

Lemma positive_amount_Some amount d :
  banco_chile.positive_amount amount = Ok (Some d) →
  amount = Some d ∧ decimal.positive d = true.
Proof.
  pose proof (positive_amount_cases amount) as H.
  destruct amount as [[sign coeff e|sign|? ? ?]|]; rewrite H; try done.
  - destruct (decimal.positive _) eqn:E; [|done]. by intros [= <-].
  - destruct (decimal.positive _) eqn:E; [|done]. by intros [= <-].
Qed.

Lemma positive_amount_None amount :
  banco_chile.positive_amount amount = Ok None ↔ not_above_zero amount.
Proof.
  pose proof (positive_amount_cases amount) as H.
  destruct amount as [[sign coeff e|sign|? ? ?]|]; rewrite H; cbn [not_above_zero];
    try done.
  - by destruct (decimal.positive _).
  - by destruct (decimal.positive _).
Qed.

Lemma positive_amount_above d :
  decimal.positive d = true → banco_chile.positive_amount (Some d) = Ok (Some d).
Proof.
  intros H. pose proof (positive_amount_cases (Some d)) as Hc.
  destruct d; [by rewrite Hc, H..|done].
Qed.

End Booking.

(** The importer books a transaction on its debit when the debit is above
    zero, whatever the credit; on its credit when the debit is absent or
    not above zero and the credit is above zero; and skips it exactly when
    neither is above zero.  A debit that is a NaN breaks the comparison.
    The entry has one posting, on the account and in the currency of the
    importer; its payee and narration are the normalised and the cleaned
    description. *)
Theorem booking_rule {Number : Type} (D_str neg : _ → result Number)
    account_name currency t filepath :
  (banco_chile._create_transaction_entry D_str neg account_name currency t filepath
   = Ok None
   ↔ not_above_zero (debit t) ∧ not_above_zero (credit t))
  ∧ (∀ e,
       banco_chile._create_transaction_entry D_str neg account_name currency t filepath
       = Ok (Some e) →
       banco_chile.payee e = helpers.normalize_payee (description t)
       ∧ banco_chile.narration e = helpers.clean_narration (description t)
       ∧ banco_chile.date e = banco_chile.date_of (date t)
       ∧ banco_chile.meta_channel e = channel t
       ∧ ∃ n,
           banco_chile.postings e
           = [ {| banco_chile.account := account_name;
                  banco_chile.units_number := n;
                  banco_chile.units_currency := currency |} ]
           ∧ ((∃ d m, debit t = Some d ∧ decimal.positive d = true
                      ∧ D_str d = Ok m ∧ neg m = Ok n)
              ∨ (not_above_zero (debit t)
                 ∧ ∃ c, credit t = Some c ∧ decimal.positive c = true
                        ∧ D_str c = Ok n)))
  ∧ (∀ d t',
       debit t = Some d → decimal.positive d = true →
       date t' = date t → description t' = description t →
       channel t' = channel t → debit t' = debit t →
       banco_chile._create_transaction_entry D_str neg account_name currency t' filepath
       = banco_chile._create_transaction_entry D_str neg account_name currency t
           filepath)
  ∧ (∀ sign signaling payload,
       debit t = Some (decimal.NaN sign signaling payload) →
       banco_chile._create_transaction_entry D_str neg account_name currency t filepath
       = Raise InvalidOperation).
Proof.
  unfold banco_chile._create_transaction_entry. split_and!.
  - split.
    + intros H.
      destruct (banco_chile.positive_amount (debit t)) as [[d|]|] eqn:Ed; [| |done].
      { cbn [mbind result_bind] in H. destruct (D_str d); [|done].
        cbn [mbind result_bind] in H. by destruct (neg _). }
      cbn [mbind result_bind] in H.
      destruct (banco_chile.positive_amount (credit t)) as [[c|]|] eqn:Ec; [| |done].
      { cbn [mbind result_bind] in H. by destruct (D_str c). }
      by split; apply positive_amount_None.
    + intros [Hd Hc]. apply positive_amount_None in Hd, Hc. by rewrite Hd, Hc.
  - intros e H.
    destruct (banco_chile.positive_amount (debit t)) as [[d|]|] eqn:Ed; [| |done].
    + apply positive_amount_Some in Ed as [Ed Hd].
      cbn [mbind result_bind] in H. destruct (D_str d) as [m|] eqn:Em; [|done].
      cbn [mbind result_bind] in H. destruct (neg m) as [n|] eqn:En; [|done].
      cbn [mbind result_bind] in H. injection H as <-.
      split_and!; try done. exists n. split; [done|]. left. by exists d, m.
    + cbn [mbind result_bind] in H.
      destruct (banco_chile.positive_amount (credit t)) as [[c|]|] eqn:Ec; [| |done].
      * apply positive_amount_Some in Ec as [Ec Hc].
        cbn [mbind result_bind] in H. destruct (D_str c) as [n|] eqn:En; [|done].
        cbn [mbind result_bind] in H. injection H as <-.
        split_and!; try done. exists n. split; [done|]. right.
        split; [by apply positive_amount_None|]. by exists c.
      * done.
  - intros d t' Hd Hp Hdate Hdesc Hchan Hdeb. rewrite Hdeb, Hd.
    rewrite positive_amount_above by done. cbn [mbind result_bind].
    unfold banco_chile.transaction_date. by rewrite Hdate, Hdesc, Hchan.
  - intros sign signaling payload ->. reflexivity.
Qed.

Lemma booking_rule_witness :
  banco_chile._create_transaction_entry (Number:=Decimal) Ok Ok "Assets:Bank" "CLP"
    {| date := midnight 2024 1 4; description := "Abono"; channel := "";
       debit := Some (decimal.of_Z 5); credit := None;
       balance := decimal.of_Z 500000 |} "cartola.xls"
  = banco_chile._create_transaction_entry (Number:=Decimal) Ok Ok "Assets:Bank" "CLP"
      {| date := midnight 2024 1 4; description := "Abono"; channel := "";
         debit := Some (decimal.of_Z 5); credit := Some (decimal.of_Z 7);
         balance := decimal.of_Z 500000 |} "cartola.xls".
Proof.
  destruct (booking_rule (Number:=Decimal) Ok Ok "Assets:Bank" "CLP"
              {| date := midnight 2024 1 4; description := "Abono"; channel := "";
                 debit := Some (decimal.of_Z 5); credit := Some (decimal.of_Z 7);
                 balance := decimal.of_Z 500000 |} "cartola.xls") as (_ & _ & H & _).
  apply (H (decimal.of_Z 5)); reflexivity.
Defined.

(** A row of the statement whose debit cell holds a text without a number
    and whose credit cell is empty is extracted, with a debit of zero, and
    then skipped by the importer. *)
Theorem unparsed_debit_is_skipped {Number : Type} (D_str neg : _ → result Number)
    account_name currency filepath df cols row t s :
  try_row df cols row = Ok (Some t) →
  nth (debit_col cols) row Blank = Text s → no_number s →
  nth (credit_col cols) row Blank = Blank →
  debit t = Some decimal.zero
  ∧ banco_chile._create_transaction_entry D_str neg account_name currency t filepath
    = Ok None.
Proof.
  intros (_ & date & _ & _ & _ & ->)%try_row_inv Hd Hs Hc.
  assert (E : debit (row_transaction cols row date) = Some decimal.zero).
  { cbn [debit row_transaction]. by apply (optional_amount_no_number _ s). }
  split; [done|].
  unfold banco_chile._create_transaction_entry. rewrite E.
  cbn [credit row_transaction]. by rewrite Hc.
Qed.

Lemma unparsed_debit_is_skipped_witness :
  banco_chile._create_transaction_entry (Number:=Decimal) Ok Ok "Assets:Bank" "CLP"
    {| date := midnight 2024 1 4; description := "Abono"; channel := "";
       debit := Some decimal.zero; credit := None;
       balance := decimal.of_Z 500000 |} "cartola.xls"
  = Ok None.
Proof.
  apply (unparsed_debit_is_skipped (Number:=Decimal) Ok Ok "Assets:Bank" "CLP"
           "cartola.xls" cartola (detected_columns cartola_header 7)
           [Blank; Text "04/01/2024"; Text "Abono"; Blank; Text "-"; Blank;
            Text "500.000"] _ "-"); reflexivity.
Defined.

(** ** The entries of a statement *)

Section Entries.

Context {Number : Type}.
Variable D_str : Decimal → result Number.
Variable neg : Number → result Number.
Variables (account_name currency : string).

Implicit Types (t : BancoChileTransaction) (filepath : string).

(** The importer makes an entry of the transaction. *)
Definition is_booked (filepath : string) (t : BancoChileTransaction) : bool :=
  match banco_chile._create_transaction_entry D_str neg account_name currency t filepath with
  | Ok (Some _) => true
  | _ => false
  end.

Lemma transaction_entries_inv transactions filepath entries :
  banco_chile.transaction_entries D_str neg account_name currency transactions filepath
  = Ok entries →
  ∃ booked,
    entries = banco_chile.TransactionEntry <$> booked
    ∧ Forall2 (fun t e =>
                 banco_chile._create_transaction_entry D_str neg account_name currency
                   t filepath = Ok (Some e))
        (filter (fun t => is_booked filepath t = true) transactions) booked.
Proof.
  revert entries. induction transactions as [|t rest IH]; intros entries H.
  { injection H as <-. exists []. split; [done|constructor]. }
  cbn [banco_chile.transaction_entries] in H. unfold is_booked in *.
  destruct (banco_chile._create_transaction_entry _ _ _ _ t filepath)
    as [[e|]|] eqn:E; [| |done]; cbn [mbind result_bind] in H.
  - destruct (banco_chile.transaction_entries _ _ _ _ rest filepath) as [es|]; [|done].
    cbn [mbind result_bind] in H. injection H as <-.
    destruct (IH _ eq_refl) as (booked & -> & HF).
    exists (e :: booked). split; [done|].
    rewrite filter_cons_True by by rewrite E. by constructor.
  - destruct (banco_chile.transaction_entries _ _ _ _ rest filepath) as [es|]; [|done].
    cbn [mbind result_bind] in H. injection H as <-.
    destruct (IH _ eq_refl) as (booked & -> & HF).
    exists booked. split; [done|].
    by rewrite filter_cons_False by by rewrite E.
Qed.

End Entries.

(** When the importer returns, its entries are, for a statement without
    transactions, none; otherwise a balance assertion dated and valued by
    the last transaction of the statement, followed by the entries of the
    transactions that the importer books, in the reverse of the order of
    the statement. *)
Theorem importer_entries {Number : Type} (D_str neg : _ → result Number)
    account_name currency fs read_excel now filepath metadata transactions entries :
  extract fs read_excel now filepath = Ok (metadata, transactions) →
  banco_chile.extract D_str neg account_name currency fs read_excel now filepath
  = Ok entries →
  (transactions = [] → entries = [])
  ∧ (∀ earlier last_transaction,
       transactions = earlier ++ [last_transaction] →
       ∃ n booked,
         D_str (balance last_transaction) = Ok n
         ∧ entries
           = banco_chile.BalanceEntry
               {| banco_chile.balance_meta_filename := filepath;
                  banco_chile.balance_date := banco_chile.date_of (date last_transaction);
                  banco_chile.balance_account := account_name;
                  banco_chile.amount_number := n;
                  banco_chile.amount_currency := currency |}
             :: (banco_chile.TransactionEntry <$> booked)
         ∧ Forall2 (fun t e =>
                      banco_chile._create_transaction_entry D_str neg account_name
                        currency t filepath = Ok (Some e))
             (filter (fun t => is_booked D_str neg account_name currency filepath t = true)
                (reverse transactions))
             booked
         ∧ (length entries ≤ S (length transactions))%nat).
Proof.
  intros Hex H. unfold banco_chile.extract, banco_chile.extractor_extract in H.
  rewrite Hex in H. cbn [mbind result_bind snd] in H. split.
  - intros ->. cbn in H. by injection H as <-.
  - intros earlier last_transaction ->. rewrite last_snoc in H.
    destruct (D_str (balance last_transaction)) as [n|] eqn:En; [|done].
    cbn [mbind result_bind] in H.
    destruct (banco_chile.transaction_entries _ _ _ _ _ filepath) as [es|] eqn:Ees;
      [|done].
    cbn [mbind result_bind] in H. injection H as <-.
    apply transaction_entries_inv in Ees as (booked & -> & HF).
    exists n, booked. split_and!; try done.
    cbn [app length]. rewrite length_fmap. apply le_n_S.
    apply Forall2_length in HF. rewrite <- HF.
    etrans; [apply length_filter|]. by rewrite length_reverse.
Qed.

Lemma importer_entries_witness :
  ∃ entries,
    banco_chile.extract (Number:=Decimal) Ok Ok "Assets:Bank" "CLP"
      (one_file "cartola.xls" ole2_bytes) (decoder cartola) (midnight 2026 11 4)
      "cartola.xls"
    = Ok entries
    ∧ (length entries ≤ 3)%nat.
Proof.
  eexists. split; [vm_compute; reflexivity|].
  match goal with
  | |- (length ?es ≤ 3)%nat =>
      destruct (importer_entries (Number:=Decimal) Ok Ok "Assets:Bank" "CLP"
                  (one_file "cartola.xls" ole2_bytes) (decoder cartola)
                  (midnight 2026 11 4) "cartola.xls"
                  {| account_holder := "Test Holder"; rut := "11.111.111-1";
                     account_number := "00-123-45678-90"; currency := "CLP";
                     available_balance := decimal.of_Z 485000;
                     accounting_balance := decimal.of_Z 490000;
                     total_debits := decimal.Finite false 150000 (-1);
                     total_credits := decimal.of_Z 1234567;
                     statement_date := midnight 2024 3 15 |}
                  [purchase; deposit] es) as [_ H];
        [vm_compute; reflexivity..|]
  end.
  destruct (H [purchase] deposit eq_refl) as (n & booked & _ & _ & _ & Hlen).
  exact Hlen.
Defined.
